(** * MobileWallet: the identity and credential services of the wallet

    A shallow embedding of the wallet's service layer:
    - [utils/crypto.js]      : key generation, DID derivation, message signing;
    - [services/secureStorage.js] : the encrypted key/value store and the
      credential list kept in it;
    - [services/didManager.js]    : local DID creation and registration;
    - [services/vcService.js]     : credential and presentation signing;
    - [services/api.js], [utils/logger.js] : the HTTP client's interceptors and
      the activity log, as far as the services above go through them;
    - the [issueCredential] and [createPresentation] handlers of the issue and
      verify screens.

    JavaScript strings are modelled as byte strings; the texts the services
    handle (hex keys, addresses, DIDs, tokens) are ASCII.  Promises are
    awaited one after the other, so an [async] function is a computation in a
    state-and-exception monad over the device state. *)

From Stdlib Require Import ZArith String Ascii List Bool Lia.
From Stdlib Require Import Strings.Byte Numbers.DecimalString.
From stdpp Require Import base gmap strings list.

Import ListNotations.
Open Scope string_scope.
Open Scope Z_scope.

(* ===================================================================== *)
(** ** JavaScript values and built-ins                                     *)
(* ===================================================================== *)

(** Values that travel through [JSON.parse] and [JSON.stringify]. *)
#[local] Unset Elimination Schemes.
Inductive Js : Type :=
| JUndefined
| JNull
| JBool (b : bool)
| JNum (n : Z)
| JStr (s : string)
| JArr (items : list Js)
| JObj (fields : list (string * Js)).
#[local] Set Elimination Schemes.

(** What an [Error] object carries.  Errors raised by the HTTP client have a
    [response] (status and optional [data.error]) or a [request]. *)
Inductive ErrorShape : Type :=
| PlainError
| WithResponse (status : Z) (dataError : option string)
| WithRequest.

Record JsError : Type := mkJsError { message : string; shape : ErrorShape }.

Definition Error (msg : string) : JsError := mkJsError msg PlainError.

(** The result of running a piece of code: a value, or a thrown error. *)
Inductive Outcome (A : Type) : Type :=
| Returned (a : A)
| Thrown (e : JsError).
Arguments Returned {A} a.
Arguments Thrown {A} e.

(** [c.toLowerCase()] on one ASCII character. *)
Definition lower_ascii (c : ascii) : ascii :=
  let n := nat_of_ascii c in
  if (Nat.leb 65 n && Nat.leb n 90)%bool then ascii_of_nat (n + 32) else c.

(** [s.toLowerCase()] on ASCII text, which is what an address and a DID are:
    a character outside A-Z is left as it is. *)
Fixpoint toLowerCase (s : string) : string :=
  match s with
  | EmptyString => EmptyString
  | String c rest => String (lower_ascii c) (toLowerCase rest)
  end.

(** An upper-case ASCII letter. *)
Definition is_upper (c : ascii) : bool :=
  let n := nat_of_ascii c in (Nat.leb 65 n && Nat.leb n 90)%bool.

Fixpoint has_upper (s : string) : bool :=
  match s with
  | EmptyString => false
  | String c rest => (is_upper c || has_upper rest)%bool
  end.

(** JavaScript truthiness of a string: only the empty string is falsy. *)
Definition truthy (s : string) : bool :=
  match s with EmptyString => false | _ => true end.

(** Truthiness of a value that may be [null] or [undefined]. *)
Definition truthy_opt (o : option string) : bool :=
  match o with Some s => truthy s | None => false end.

(** [s.slice(n)] *)
Fixpoint slice (n : nat) (s : string) : string :=
  match n, s with
  | O, _ => s
  | S k, EmptyString => EmptyString
  | S k, String _ rest => slice k rest
  end.

(** White space of [s.trim()] within ASCII: tab, line feed, vertical tab,
    form feed, carriage return, space. *)
Definition is_space (c : ascii) : bool :=
  let n := nat_of_ascii c in
  (Nat.leb 9 n && Nat.leb n 13 || Nat.eqb n 32)%bool.

Fixpoint trim_start (l : list ascii) : list ascii :=
  match l with
  | c :: rest => if is_space c then trim_start rest else l
  | [] => []
  end.

(** [s.trim()] on ASCII text *)
Definition trim (s : string) : string :=
  string_of_list_ascii
    (rev (trim_start (rev (trim_start (list_ascii_of_string s))))).

(** [n.toString()] for an integer. *)
Definition Number_toString (n : Z) : string :=
  NilZero.string_of_int (Z.to_int n).

(** [ethers.toUtf8Bytes(s)] : the bytes of the text. *)
Definition toUtf8Bytes (s : string) : list byte := list_byte_of_string s.

Definition hex_digit (n : N) : ascii :=
  match String.get (N.to_nat n) "0123456789abcdef" with
  | Some c => c
  | None => "0"%char
  end.

(** [Buffer.from(bytes).toString('hex')] *)
Fixpoint Buffer_toString_hex (bs : list byte) : string :=
  match bs with
  | [] => EmptyString
  | b :: rest =>
      let n := Byte.to_N b in
      String (hex_digit (N.div n 16))
        (String (hex_digit (N.modulo n 16)) (Buffer_toString_hex rest))
  end.

(* ===================================================================== *)
(** ** utils/crypto.js : DID derivation                                    *)
(* ===================================================================== *)

(** [createDID(address)] *)
Definition createDID (address : string) : string :=
  "did:ethr:VoltusWave:" +:+ toLowerCase address.

(* ===================================================================== *)
(** ** The device: secure store, activity log, clock, network, screen      *)
(* ===================================================================== *)

(** utils/logger.js keeps the newest entry first and at most 50 entries.
    An entry's display time and random id are not kept: nothing reads them. *)
Inductive LogType : Type := info | success | error | warning.

Record LogEntry : Type := mkLog { log_message : string; log_type : LogType }.

(** The five fields sent to the backend by the registration with proof. *)
Record RegisterBody : Type := mkRegisterBody {
  body_did : string;
  body_publicKey : string;
  body_address : string;
  body_signature : option string;
  body_message : option string
}.

Record Request : Type := mkRequest { req_url : string; req_body : RegisterBody }.

Record ResponseData : Type := mkResponseData { txHash : string; blockNumber : Z }.

Record Response : Type := mkResponse { resp_status : Z; resp_data : ResponseData }.

Record Alert : Type := mkAlert { alert_title : string; alert_message : string }.

(** Everything the services read or change. *)
Record World : Type := mkWorld {
  secureStore : gmap string string;   (* expo-secure-store *)
  logs : list LogEntry;               (* logger.logs *)
  ticks : nat;                        (* clock readings taken by the services *)
  sent : list Request;                (* requests posted so far, newest first *)
  alerts : list Alert;                (* Alert.alert calls, newest first *)
  clipboard : option string
}.

Definition set_store (f : gmap string string -> gmap string string) (w : World) : World :=
  mkWorld (f (secureStore w)) (logs w) (ticks w) (sent w) (alerts w) (clipboard w).
Definition set_logs (f : list LogEntry -> list LogEntry) (w : World) : World :=
  mkWorld (secureStore w) (f (logs w)) (ticks w) (sent w) (alerts w) (clipboard w).
Definition set_ticks (f : nat -> nat) (w : World) : World :=
  mkWorld (secureStore w) (logs w) (f (ticks w)) (sent w) (alerts w) (clipboard w).
Definition set_sent (f : list Request -> list Request) (w : World) : World :=
  mkWorld (secureStore w) (logs w) (ticks w) (f (sent w)) (alerts w) (clipboard w).
Definition set_alerts (f : list Alert -> list Alert) (w : World) : World :=
  mkWorld (secureStore w) (logs w) (ticks w) (sent w) (f (alerts w)) (clipboard w).
Definition set_clipboard (c : option string) (w : World) : World :=
  mkWorld (secureStore w) (logs w) (ticks w) (sent w) (alerts w) c.

(** An [async] function: it runs on the device and returns or throws. *)
Definition M (A : Type) : Type := World -> Outcome A * World.

Definition ret {A} (a : A) : M A := fun w => (Returned a, w).
Definition throw {A} (e : JsError) : M A := fun w => (Thrown e, w).
Definition bind {A B} (m : M A) (k : A -> M B) : M B :=
  fun w => match m w with
           | (Returned a, w') => k a w'
           | (Thrown e, w') => (Thrown e, w')
           end.
(** [try { m } catch (error) { h error }] *)
Definition try_catch {A} (m : M A) (h : JsError -> M A) : M A :=
  fun w => match m w with
           | (Returned a, w') => (Returned a, w')
           | (Thrown e, w') => h e w'
           end.
Definition modify (f : World -> World) : M unit := fun w => (Returned tt, f w).
Definition lift {A} (o : Outcome A) : M A := fun w => (o, w).

Declare Scope js_scope.
Delimit Scope js_scope with js.
Notation "x <- m ;; k" := (bind m (fun x => k))
  (at level 100, m at next level, right associativity) : js_scope.
Notation "m ;; k" := (bind m (fun _ => k))
  (at level 100, right associativity) : js_scope.
Open Scope js_scope.

Module logger.
(** [logger.log(message, type)] *)
Definition log (msg : string) (type : LogType) : M unit :=
  modify (set_logs (fun l => firstn 50 (mkLog msg type :: l))).
End logger.

(** [Alert.alert(title, message)] *)
Definition Alert_alert (title msg : string) : M unit :=
  modify (set_alerts (cons (mkAlert title msg))).

(* ===================================================================== *)
(** ** What the platform and the libraries provide                         *)
(* ===================================================================== *)

(** The device under the wallet: expo-secure-store, the clock, expo-crypto's
    entropy source and the backend behind the HTTP client. *)
Class Host : Type := {
  (** [SecureStore.getItemAsync(key)] rejects with this error, if any *)
  getItem_fault : string -> option JsError;
  (** [SecureStore.setItemAsync(key, value)] rejects with this error, if any *)
  setItem_fault : string -> string -> option JsError;
  (** what [Date.now()] gives at the n-th reading the services take, in
      milliseconds; the logger's own time stamps are not among them *)
  Date_now_at : nat -> Z;
  (** [new Date(ms).toISOString()] *)
  toISOString : Z -> string;
  (** [Crypto.getRandomBytesAsync(length)] *)
  getRandomBytesAsync : nat -> Outcome (list byte);
  (** what the backend answers to a posted request *)
  backend : Request -> Outcome Response
}.

(** [JSON] and [Buffer]. *)
Class Json : Type := {
  (** [JSON.parse(text)]; it throws a SyntaxError on text that is not JSON *)
  JSON_parse : string -> Outcome Js;
  (** [JSON.stringify(value)]; [None] is [undefined] *)
  JSON_stringify : Js -> option string;
  (** [Buffer.from(text, 'hex')] *)
  Buffer_from_hex : string -> list byte
}.

(** An [ethers.Wallet]: version 6 keeps the public key under [signingKey],
    version 5 on the wallet itself. *)
Record Wallet : Type := mkWallet {
  wallet_privateKey : string;
  wallet_signingKey_publicKey : option string;
  wallet_publicKey : option string;
  wallet_address : string
}.

Class Ethers : Type := {
  (** [new ethers.Wallet(privateKey)]; it throws on an invalid key *)
  new_Wallet : string -> Outcome Wallet;
  (** [ethers.SigningKey.computePublicKey(key, compressed)] *)
  computePublicKey : string -> bool -> Outcome string;
  (** [wallet.signMessage(bytes)] *)
  signMessage : Wallet -> list byte -> string;
  (** [ethers.verifyMessage(bytes, signature)]: the recovered address *)
  verifyMessage : list byte -> string -> Outcome string;
  (** the error of [ethers.toUtf8Bytes] on a value that is not a string *)
  invalid_string : JsError
}.

(** What the library promises about the two calls above: the address
    recovered from a wallet's signature over some bytes is the wallet's. *)
Definition ethers_recovers {ethers : Ethers} : Prop :=
  forall (privateKey : string) (wallet : Wallet) (bytes : list byte),
    new_Wallet privateKey = Returned wallet ->
    verifyMessage bytes (signMessage wallet bytes) = Returned (wallet_address wallet).

(* ===================================================================== *)
(** ** Tokens (did-jwt, did-jwt-vc)                                        *)
(* ===================================================================== *)

(** A claims object: property name to text. *)
Abbreviation Claims := (gmap string string).

(** The [vc] member of a credential payload. *)
Record VcBody : Type := mkVcBody {
  vc_context : list string;          (* "@context" *)
  vc_type : list string;             (* type *)
  credentialSubject : Claims
}.

Record VcPayload : Type := mkVcPayload {
  sub : string;
  nbf : Z;
  vc : VcBody
}.

(** What the curve signs with: r, s and the recovery bit. *)
Record EcdsaSignature : Type := mkEcdsa {
  ecdsa_r : Z;
  ecdsa_s : Z;
  ecdsa_recovery : Z
}.

(** A JOSE signature: r and s, followed by the recovery parameter only in
    the recoverable format. *)
Record JoseSignature : Type := mkJose {
  jose_r : Z;
  jose_s : Z;
  jose_recoveryParam : option Z
}.

Definition toJose (sig : EcdsaSignature) (recoverable : bool) : JoseSignature :=
  mkJose (ecdsa_r sig) (ecdsa_s sig)
         (if recoverable then Some (ecdsa_recovery sig) else None).

(** A signer made by [ES256KSigner]: from the signing input to a signature. *)
Definition Signer : Type := string -> JoseSignature.

(** The [issuer] / [holder] object handed to did-jwt-vc. *)
Record Issuer : Type := mkIssuer {
  issuer_did : string;
  issuer_signer : Signer;
  issuer_alg : string
}.

Record JwtHeader : Type := mkHeader { alg : string; typ : string }.

(** A signed token, seen through its three parts: the header, the payload
    the wallet handed over together with the [iss] the library adds, and the
    signature. *)
Record Jwt (P : Type) : Type := mkJwt {
  jwt_header : JwtHeader;
  jwt_iss : string;
  jwt_payload : P;
  jwt_signature : JoseSignature
}.
Arguments mkJwt {P} _ _ _ _.
Arguments jwt_header {P} _.
Arguments jwt_iss {P} _.
Arguments jwt_payload {P} _.
Arguments jwt_signature {P} _.

(** The [vp] member of a presentation payload. *)
Record VpBody : Type := mkVpBody {
  vp_context : list string;
  vp_type : list string;
  verifiableCredential : list (Jwt VcPayload)
}.

Record VpPayload : Type := mkVpPayload {
  vp : VpBody;
  nonce : option string
}.

Class DidJwt : Type := {
  (** the secp256k1 signature over the SHA-256 digest of the data *)
  secp256k1_sign : list byte -> string -> EcdsaSignature;
  (** base64url(header) . base64url(payload), the text that is signed *)
  vc_signing_input : JwtHeader -> string -> VcPayload -> string;
  vp_signing_input : JwtHeader -> string -> VpPayload -> string;
  (** base64url of a signature *)
  encode_signature : JoseSignature -> string;
  (** the schema checks of did-jwt-vc before it signs; [Some e] rejects *)
  validateJwtCredentialPayload : VcPayload -> option JsError;
  validateJwtPresentationPayload : VpPayload -> option JsError
}.

Section Tokens.
Context {didjwt : DidJwt}.

(** [ES256KSigner(privateKey, recoverable = false)] *)
Definition ES256KSigner (privateKey : list byte) (recoverable : bool) : Outcome Signer :=
  if Nat.eqb (length privateKey) 32
  then Returned (fun data => toJose (secp256k1_sign privateKey data) recoverable)
  else Thrown (Error ("bad_key: Invalid private key format. Expecting 32 bytes, but got "
                      +:+ Number_toString (Z.of_nat (length privateKey)))).

(** [createVerifiableCredentialJwt(payload, issuer)] *)
Definition createVerifiableCredentialJwt (payload : VcPayload) (issuer : Issuer)
  : Outcome (Jwt VcPayload) :=
  match validateJwtCredentialPayload payload with
  | Some e => Thrown e
  | None =>
      let header := mkHeader (issuer_alg issuer) "JWT" in
      Returned (mkJwt header (issuer_did issuer) payload
                  (issuer_signer issuer (vc_signing_input header (issuer_did issuer) payload)))
  end.

(** [createVerifiablePresentationJwt(payload, holder)] *)
Definition createVerifiablePresentationJwt (payload : VpPayload) (holder : Issuer)
  : Outcome (Jwt VpPayload) :=
  match validateJwtPresentationPayload payload with
  | Some e => Thrown e
  | None =>
      let header := mkHeader (issuer_alg holder) "JWT" in
      Returned (mkJwt header (issuer_did holder) payload
                  (issuer_signer holder (vp_signing_input header (issuer_did holder) payload)))
  end.

(** What did-jwt-vc promises about [createVerifiableCredentialJwt]: a
    payload whose [credentialSubject] has no property is rejected
    ("credentialSubject must not be empty"). *)
Definition rejects_empty_subject : Prop :=
  forall payload : VcPayload,
    credentialSubject (vc payload) = ∅ ->
    validateJwtCredentialPayload payload <> None.

(** The compact text of a token: signing input, a dot, the signature. *)
Definition compact_vc (t : Jwt VcPayload) : string :=
  vc_signing_input (jwt_header t) (jwt_iss t) (jwt_payload t)
    +:+ "." +:+ encode_signature (jwt_signature t).
Definition compact_vp (t : Jwt VpPayload) : string :=
  vp_signing_input (jwt_header t) (jwt_iss t) (jwt_payload t)
    +:+ "." +:+ encode_signature (jwt_signature t).
End Tokens.

(** A token's signature is recoverable when it was made in the recoverable
    format: the header names ES256K-R and the signature carries the recovery
    parameter from which the signer's public key is rebuilt. *)
Definition recoverable_token {P} (t : Jwt P) : bool :=
  (String.eqb (alg (jwt_header t)) "ES256K-R"
   && match jose_recoveryParam (jwt_signature t) with Some _ => true | None => false end)%bool.

(* ===================================================================== *)
(** ** utils/crypto.js                                                     *)
(* ===================================================================== *)

Record KeyPair : Type := mkKeyPair {
  privateKey : string;
  publicKey : string;
  address : string;
  did : string
}.

Section Crypto.
Context {host : Host} {json : Json} {ethers : Ethers}.

(** [generateKeyPair()]; the [catch] only prints the error and rethrows. *)
Definition generateKeyPair : Outcome KeyPair :=
  match getRandomBytesAsync 32 with
  | Thrown e => Thrown e
  | Returned randomBytes =>
      let privateKeyHex := "0x" +:+ Buffer_toString_hex randomBytes in
      match new_Wallet privateKeyHex with
      | Thrown e => Thrown e
      | Returned wallet =>
          let publicKey :=
            if truthy_opt (wallet_signingKey_publicKey wallet)
            then Returned (default "" (wallet_signingKey_publicKey wallet))
            else if truthy_opt (wallet_publicKey wallet)
            then Returned (default "" (wallet_publicKey wallet))
            else computePublicKey privateKeyHex false in
          match publicKey with
          | Thrown e => Thrown e
          | Returned publicKey =>
              Returned (mkKeyPair (wallet_privateKey wallet) publicKey
                          (wallet_address wallet)
                          ("did:ethr:VoltusWave:" +:+ toLowerCase (wallet_address wallet)))
          end
      end
  end.

(** [typeof data === 'string' ? data : JSON.stringify(data)] *)
Definition dataString (data : Js) : option string :=
  match data with
  | JStr s => Some s
  | _ => JSON_stringify data
  end.

(** [signData(privateKey, data)]; the [catch] only prints and rethrows. *)
Definition signData (privateKey : string) (data : Js) : Outcome string :=
  match new_Wallet privateKey with
  | Thrown e => Thrown e
  | Returned wallet =>
      match dataString data with
      | None => Thrown invalid_string
      | Some text => Returned (signMessage wallet (toUtf8Bytes text))
      end
  end.

(** [verifySignature(data, signature, address)]; every error gives [false]. *)
Definition verifySignature (data : Js) (signature : string) (address : string) : bool :=
  match dataString data with
  | None => false
  | Some text =>
      match verifyMessage (toUtf8Bytes text) signature with
      | Thrown _ => false
      | Returned recoveredAddress =>
          String.eqb (toLowerCase recoveredAddress) (toLowerCase address)
      end
  end.

(** [getAddressFromPrivateKey(privateKey)] *)
Definition getAddressFromPrivateKey (privateKey : string) : Outcome string :=
  match new_Wallet privateKey with
  | Thrown e => Thrown e
  | Returned wallet => Returned (wallet_address wallet)
  end.
End Crypto.

(* ===================================================================== *)
(** ** services/secureStorage.js                                           *)
(* ===================================================================== *)

Module STORAGE_KEYS.
Definition PRIVATE_KEY := "ssi_private_key".
Definition PUBLIC_KEY := "ssi_public_key".
Definition DID := "ssi_did".
Definition ADDRESS := "ssi_address".
Definition CREDENTIALS := "ssi_credentials".
Definition WALLET_INITIALIZED := "ssi_wallet_initialized".
Definition BIOMETRIC_ENABLED := "ssi_biometric_enabled".
End STORAGE_KEYS.

(** A credential as the wallet keeps and returns it. *)
Record Credential : Type := mkCredential {
  cred_id : string;
  cred_issuer : string;
  cred_subject : string;
  cred_data : Claims;
  cred_jwt : Jwt VcPayload;
  cred_addedAt : string
}.

Section SecureStorage.
Context {host : Host} {json : Json} {didjwt : DidJwt}.

(** [SecureStore.setItemAsync(key, value)] *)
Definition setItemAsync (key value : string) : M unit :=
  match setItem_fault key value with
  | Some e => throw e
  | None => modify (set_store (insert key value))
  end.

(** [SecureStore.getItemAsync(key)]; [None] is [null]. *)
Definition getItemAsync (key : string) : M (option string) :=
  fun w => match getItem_fault key with
           | Some e => (Thrown e, w)
           | None => (Returned (secureStore w !! key), w)
           end.

(** [saveSecure(key, value)] *)
Definition saveSecure (key value : string) : M bool :=
  try_catch
    (setItemAsync key value ;;
     logger.log ("🔐 Saved securely: " +:+ key) success ;;
     ret true)
    (fun e =>
       logger.log ("Failed to save " +:+ key +:+ ": " +:+ message e) error ;;
       throw e).

(** [getSecure(key)] *)
Definition getSecure (key : string) : M (option string) :=
  try_catch
    (value <- getItemAsync key ;;
     (if truthy_opt value
      then logger.log ("🔓 Retrieved: " +:+ key) info
      else ret tt) ;;
     ret value)
    (fun e =>
       logger.log ("Failed to retrieve " +:+ key +:+ ": " +:+ message e) error ;;
       ret None).

(** [saveWalletKeys(privateKey, publicKey, address, did)] *)
Definition saveWalletKeys (privateKey publicKey address did : string) : M bool :=
  try_catch
    (saveSecure STORAGE_KEYS.PRIVATE_KEY privateKey ;;
     saveSecure STORAGE_KEYS.PUBLIC_KEY publicKey ;;
     saveSecure STORAGE_KEYS.ADDRESS address ;;
     saveSecure STORAGE_KEYS.DID did ;;
     saveSecure STORAGE_KEYS.WALLET_INITIALIZED "true" ;;
     logger.log "✅ Wallet keys saved securely" success ;;
     ret true)
    (fun e => logger.log "Failed to save wallet keys" error ;; throw e).

Definition getPrivateKey : M (option string) := getSecure STORAGE_KEYS.PRIVATE_KEY.
Definition getPublicKey : M (option string) := getSecure STORAGE_KEYS.PUBLIC_KEY.
Definition getAddress : M (option string) := getSecure STORAGE_KEYS.ADDRESS.
Definition getDID : M (option string) := getSecure STORAGE_KEYS.DID.

(** [isWalletInitialized()] *)
Definition isWalletInitialized : M bool :=
  initialized <- getSecure STORAGE_KEYS.WALLET_INITIALIZED ;;
  ret (match initialized with Some s => String.eqb s "true" | None => false end).

(** [saveCredentials(credentials)], for the arrays its callers pass.  The
    text of an array is never [undefined]; were it, the store would refuse
    the value. *)
Definition saveCredentials (credentials : list Js) : M bool :=
  try_catch
    (match JSON_stringify (JArr credentials) with
     | None => throw (Error "Invalid value provided to SecureStore")
     | Some credentialsJson =>
         saveSecure STORAGE_KEYS.CREDENTIALS credentialsJson ;;
         logger.log ("📜 Saved " +:+ Number_toString (Z.of_nat (length credentials))
                     +:+ " credentials") success ;;
         ret true
     end)
    (fun e => logger.log "Failed to save credentials" error ;; throw e).

(** [getCredentials()] *)
Definition getCredentials : M Js :=
  try_catch
    (credentialsJson <- getSecure STORAGE_KEYS.CREDENTIALS ;;
     if truthy_opt credentialsJson
     then lift (JSON_parse (default "" credentialsJson))
     else ret (JArr []))
    (fun e => logger.log "Failed to get credentials" error ;; ret (JArr [])).

Definition claims_to_js (claims : Claims) : Js :=
  JObj (map (fun kv => (fst kv, JStr (snd kv))) (map_to_list claims)).

(** The object a credential is, property by property. *)
Definition credential_to_js (c : Credential) : Js :=
  JObj [ ("id", JStr (cred_id c));
         ("issuer", JStr (cred_issuer c));
         ("subject", JStr (cred_subject c));
         ("data", claims_to_js (cred_data c));
         ("jwt", JStr (compact_vc (cred_jwt c)));
         ("addedAt", JStr (cred_addedAt c)) ].

(** [Date.now()] *)
Definition Date_now : M Z :=
  fun w => (Returned (Date_now_at (ticks w)), set_ticks S w).

(** [{ ...credential, id: Date.now().toString(), addedAt: new Date().toISOString() }] *)
Definition restamped (credential : Credential) : M Credential :=
  id <- Date_now ;;
  addedAt <- Date_now ;;
  ret (mkCredential (Number_toString id) (cred_issuer credential)
         (cred_subject credential) (cred_data credential)
         (cred_jwt credential) (toISOString addedAt)).

(** [addCredential(credential)].  Only an array has [push]: on [null] the
    property access throws at once, on any other value the argument is
    built first and the call then throws. *)
Definition addCredential (credential : Credential) : M bool :=
  try_catch
    (existingCredentials <- getCredentials ;;
     match existingCredentials with
     | JArr items =>
         entry <- restamped credential ;;
         saveCredentials (items ++ [credential_to_js entry]) ;;
         logger.log "📜 Credential added to wallet" success ;;
         ret true
     | JNull | JUndefined =>
         throw (Error "Cannot read property 'push' of null")
     | _ =>
         restamped credential ;;
         throw (Error "existingCredentials.push is not a function")
     end)
    (fun e => logger.log "Failed to add credential" error ;; throw e).
End SecureStorage.

(* ===================================================================== *)
(** ** services/api.js : the HTTP client and its interceptors              *)
(* ===================================================================== *)

Section Api.
Context {host : Host}.

(** [apiClient.post(url, body)]: the request interceptor logs the call,
    the response interceptor logs the answer or the failure and passes it
    on. *)
Definition apiClient_post (url : string) (body : RegisterBody) : M Response :=
  logger.log ("📤 API Request: " +:+ "POST" +:+ " " +:+ url) info ;;
  modify (set_sent (cons (mkRequest url body))) ;;
  match backend (mkRequest url body) with
  | Returned response =>
      logger.log ("📥 Response: " +:+ url +:+ " - Status "
                  +:+ Number_toString (resp_status response)) success ;;
      ret response
  | Thrown e =>
      match shape e with
      | WithResponse status dataError =>
          logger.log ("❌ API Error: " +:+ Number_toString status +:+ " - "
                      +:+ (if truthy_opt dataError then default "" dataError else message e))
            error
      | WithRequest => logger.log "❌ Network Error: No response from server" error
      | PlainError => logger.log ("❌ Error: " +:+ message e) error
      end ;;
      throw e
  end.
End Api.

(* ===================================================================== *)
(** ** services/didManager.js                                              *)
(* ===================================================================== *)

(** What [createLocalDID] returns. *)
Record LocalDID : Type := mkLocalDID {
  local_did : string;
  local_address : string;
  local_publicKey : string
}.

(** What the registration with proof returns. *)
Record Registration : Type := mkRegistration {
  reg_success : bool;
  reg_txHash : string;
  reg_blockNumber : Z
}.

(** The manager that registers with a proof of ownership. *)
Module didManager.
Section DidManager.
Context {host : Host} {json : Json} {ethers : Ethers} {didjwt : DidJwt}.

(** [registerDIDOnBlockchain(did, publicKey, address, privateKey)] *)
Definition registerDIDOnBlockchain (did publicKey address privateKey : string)
  : M Registration :=
  try_catch
    (logger.log "📡 Registering DID on blockchain..." info ;;
     let message := "Register DID: " +:+ did in
     signature <- lift (signData privateKey (JStr message)) ;;
     logger.log "🔐 Signed proof of ownership" info ;;
     logger.log "📤 Sending to backend..." info ;;
     response <- apiClient_post "/register-on-chain"
                   (mkRegisterBody did publicKey address (Some signature) (Some message)) ;;
     logger.log "⛓️ DID registered on blockchain!" success ;;
     logger.log ("🔗 TX Hash: " +:+ txHash (resp_data response)) success ;;
     ret (mkRegistration true (txHash (resp_data response))
            (blockNumber (resp_data response))))
    (fun e =>
       logger.log ("Blockchain registration failed: " +:+ message e) error ;;
       throw e).

(** [createLocalDID()] *)
Definition createLocalDID : M LocalDID :=
  try_catch
    (logger.log "🔑 Generating key pair locally..." info ;;
     keys <- lift generateKeyPair ;;
     logger.log ("🆔 DID created locally: " +:+ did keys) success ;;
     saveWalletKeys (privateKey keys) (publicKey keys) (address keys) (did keys) ;;
     try_catch
       (registerDIDOnBlockchain (did keys) (publicKey keys) (address keys)
          (privateKey keys) ;;
        logger.log "✅ DID registered on blockchain" success)
       (fun _ =>
          logger.log "⚠️ DID created locally but blockchain registration failed" warning ;;
          logger.log "You can try registering again later" warning) ;;
     logger.log "✅ DID created successfully" success ;;
     ret (mkLocalDID (did keys) (address keys) (publicKey keys)))
    (fun e => logger.log "Failed to create DID" error ;; throw e).

(** [getWalletInfo()] *)
Definition getWalletInfo : M (option string * option string * option string) :=
  did <- getDID ;;
  address <- getAddress ;;
  publicKey <- getPublicKey ;;
  ret (did, address, publicKey).

(** [signLocally(data)] *)
Definition signLocally (data : Js) : M string :=
  try_catch
    (privateKey <- getPrivateKey ;;
     if negb (truthy_opt privateKey)
     then throw (Error "No private key found")
     else
       signature <- lift (signData (default "" privateKey) data) ;;
       logger.log "✍️ Data signed locally" success ;;
       ret signature)
    (fun e => logger.log "Failed to sign data" error ;; throw e).
End DidManager.
End didManager.

(** The manager that registers public information only. *)
Module didManagerPlain.
Section DidManager.
Context {host : Host} {json : Json} {ethers : Ethers} {didjwt : DidJwt}.

(** [registerDIDOnBlockchain(did, publicKey, address)] *)
Definition registerDIDOnBlockchain (did publicKey address : string) : M ResponseData :=
  try_catch
    (logger.log "📡 Registering DID on blockchain..." info ;;
     response <- apiClient_post "/register"
                   (mkRegisterBody did publicKey address None None) ;;
     logger.log ("⛓️ DID registered on blockchain: " +:+ txHash (resp_data response))
       success ;;
     ret (resp_data response))
    (fun e =>
       logger.log ("Blockchain registration failed: " +:+ message e) error ;;
       throw e).

(** [createLocalDID()] *)
Definition createLocalDID : M LocalDID :=
  try_catch
    (logger.log "🔑 Generating key pair locally..." info ;;
     keys <- lift generateKeyPair ;;
     logger.log ("🆔 DID created locally: " +:+ did keys) success ;;
     saveWalletKeys (privateKey keys) (publicKey keys) (address keys) (did keys) ;;
     try_catch
       (registerDIDOnBlockchain (did keys) (publicKey keys) (address keys) ;;
        ret tt)
       (fun _ =>
          logger.log "⚠️ DID created locally but blockchain registration failed" warning) ;;
     logger.log "✅ DID created successfully" success ;;
     ret (mkLocalDID (did keys) (address keys) (publicKey keys)))
    (fun e => logger.log "Failed to create DID" error ;; throw e).
End DidManager.
End didManagerPlain.

(* ===================================================================== *)
(** ** services/vcService.js                                               *)
(* ===================================================================== *)

Definition credentials_v1 : string := "https://www.w3.org/2018/credentials/v1".

Section VcService.
Context {host : Host} {json : Json} {didjwt : DidJwt}.

(** The [vcPayload] object of [issueCredentialLocally]. *)
Definition vcPayload (did : string) (now : Z) (credentialData : Claims) : VcPayload :=
  mkVcPayload did (now / 1000)
    (mkVcBody [credentials_v1] ["VerifiableCredential"] credentialData).

(** The [vpPayload] object of [createPresentationLocally], after the
    [if (challenge)] that adds the nonce. *)
Definition vpPayload (credentials : list Credential) (challenge : option string) : VpPayload :=
  mkVpPayload
    (mkVpBody [credentials_v1] ["VerifiablePresentation"] (map cred_jwt credentials))
    (if truthy_opt challenge then challenge else None).

(** [issueCredentialLocally(credentialData)] *)
Definition issueCredentialLocally (credentialData : Claims) : M Credential :=
  try_catch
    (did <- getDID ;;
     privateKey <- getPrivateKey ;;
     if (negb (truthy_opt did) || negb (truthy_opt privateKey))%bool
     then throw (Error "No wallet found")
     else
       let did := default "" did in
       let privateKey := default "" privateKey in
       logger.log "📜 Creating credential..." info ;;
       let keyBytes := Buffer_from_hex (slice 2 privateKey) in
       signer <- lift (ES256KSigner keyBytes false) ;;
       now <- Date_now ;;
       let issuer := mkIssuer did signer "ES256K" in
       jwt <- lift (createVerifiableCredentialJwt (vcPayload did now credentialData) issuer) ;;
       logger.log "✅ Credential created and signed locally" success ;;
       id <- Date_now ;;
       addedAt <- Date_now ;;
       let credential :=
         mkCredential (Number_toString id) did did credentialData jwt
           (toISOString addedAt) in
       addCredential credential ;;
       logger.log "📦 Credential stored in wallet" success ;;
       ret credential)
    (fun e =>
       logger.log ("Failed to create credential: " +:+ message e) error ;;
       throw e).

(** [createPresentationLocally(credentials, challenge)]; the result is the
    [vpJwt] of the returned object. *)
Definition createPresentationLocally (credentials : list Credential)
    (challenge : option string) : M (Jwt VpPayload) :=
  try_catch
    (did <- getDID ;;
     privateKey <- getPrivateKey ;;
     if (negb (truthy_opt did) || negb (truthy_opt privateKey))%bool
     then throw (Error "No wallet found")
     else
       let did := default "" did in
       let privateKey := default "" privateKey in
       logger.log "📋 Creating presentation..." info ;;
       let keyBytes := Buffer_from_hex (slice 2 privateKey) in
       signer <- lift (ES256KSigner keyBytes false) ;;
       let holder := mkIssuer did signer "ES256K" in
       vpJwt <- lift (createVerifiablePresentationJwt (vpPayload credentials challenge) holder) ;;
       logger.log "✅ Presentation created and signed locally" success ;;
       ret vpJwt)
    (fun e =>
       logger.log ("Failed to create presentation: " +:+ message e) error ;;
       throw e).
End VcService.

(* ===================================================================== *)
(** ** The issue screen and the verify screen                              *)
(* ===================================================================== *)

Record WalletInfo : Type := mkWalletInfo {
  info_did : option string;
  info_address : option string;
  info_publicKey : option string
}.

(** [walletInfo?.did], as a condition *)
Definition has_did (walletInfo : option WalletInfo) : bool :=
  match walletInfo with
  | Some i => truthy_opt (info_did i)
  | None => false
  end.

Record Claim : Type := mkClaim { claim_key : string; claim_value : string }.

(** The state of the issue screen. *)
Record IssueScreen : Type := mkIssueScreen {
  issue_walletInfo : option WalletInfo;
  isIssuing : bool;
  credentialType : string;
  additionalClaims : list Claim
}.

(** The state of the verify screen. *)
Record VerifyScreen : Type := mkVerifyScreen {
  credentials : list Credential;
  selectedCredentials : list string;
  verify_walletInfo : option WalletInfo;
  challenge : string;
  isProcessing : bool
}.

Definition nl : string := String (ascii_of_nat 10) EmptyString.

Section Screens.
Context {host : Host} {json : Json} {didjwt : DidJwt}.

(** [claims[key] = value] for a text value: the name [__proto__] reaches the
    prototype setter, which ignores a value that is not an object, and adds
    no property. *)
Definition assign (key value : string) (claims : Claims) : Claims :=
  if String.eqb key "__proto__" then claims else <[key := value]> claims.

(** The [claims] object the issue screen builds from its form. *)
Definition form_claims (s : IssueScreen) : Claims :=
  let claims :=
    fold_left (fun claims claim => assign (claim_key claim) (claim_value claim) claims)
              (additionalClaims s) (∅ : Claims) in
  if truthy (credentialType s)
  then <["credentialType" := credentialType s]> claims
  else claims.

(** [issueCredential()] of the issue screen; the result is the screen's
    state afterwards. *)
Definition issueCredential (s : IssueScreen) : M IssueScreen :=
  if negb (has_did (issue_walletInfo s))
  then Alert_alert "Error" "No DID found. Create your identity first." ;; ret s
  else if Nat.eqb (length (additionalClaims s)) 0
  then Alert_alert "Error" "Add at least one claim to the credential." ;; ret s
  else
    try_catch
      (issueCredentialLocally (form_claims s) ;;
       logger.log "Credential issued and stored locally" success ;;
       Alert_alert "Success"
         ("Credential added to your wallet!" +:+ nl +:+ nl
          +:+ "Go to Wallet tab to see it."))
      (fun e =>
         logger.log ("Failed to issue credential: " +:+ message e) error ;;
         Alert_alert "Error" (message e)) ;;
    ret (mkIssueScreen (issue_walletInfo s) false (credentialType s) (additionalClaims s)).

(** [selectedCredentials.includes(id)] *)
Definition includes (ids : list string) (id : string) : bool :=
  existsb (String.eqb id) ids.

(** [createPresentation()] of the verify screen. *)
Definition createPresentation (s : VerifyScreen) : M VerifyScreen :=
  if Nat.eqb (length (selectedCredentials s)) 0
  then Alert_alert "Error" "Select at least one credential" ;; ret s
  else if negb (has_did (verify_walletInfo s))
  then Alert_alert "Error" "No DID found" ;; ret s
  else
    let selectedCreds :=
      List.filter (fun c => includes (selectedCredentials s) (cred_id c)) (credentials s) in
    let challengeToUse :=
      if truthy (trim (challenge s)) then Some (trim (challenge s)) else None in
    s' <- try_catch
      (vpJwt <- createPresentationLocally selectedCreds challengeToUse ;;
       modify (set_clipboard (Some (compact_vp vpJwt))) ;;
       Alert_alert "Presentation Created"
         ("VP JWT created and copied to clipboard!" +:+ nl +:+ nl +:+ "Credentials: "
          +:+ Number_toString (Z.of_nat (length selectedCreds))
          +:+ match challengeToUse with
              | Some c => nl +:+ "Challenge: " +:+ c
              | None => nl +:+ "No challenge used"
              end) ;;
       logger.log "Presentation created locally and copied" success ;;
       ret (mkVerifyScreen (credentials s) [] (verify_walletInfo s) "" true))
      (fun e =>
         logger.log ("Failed to create presentation: " +:+ message e) error ;;
         Alert_alert "Error" ("Failed: " +:+ message e) ;;
         ret (mkVerifyScreen (credentials s) (selectedCredentials s)
                (verify_walletInfo s) (challenge s) true)) ;;
    ret (mkVerifyScreen (credentials s') (selectedCredentials s')
           (verify_walletInfo s') (challenge s') false).
End Screens.

(* ===================================================================== *)
(** ** A small concrete device, for running the services                   *)
(* ===================================================================== *)

Module Demo.
(** A backend that is down. *)
Definition backend_down (r : Request) : Outcome Response :=
  Thrown (mkJsError "Network Error" WithRequest).

(** A backend that anchors every registration. *)
Definition backend_up (r : Request) : Outcome Response :=
  Returned (mkResponse 200 (mkResponseData "0xfeed" 7)).

Definition host (backend : Request -> Outcome Response) : Host := {|
  getItem_fault := fun _ => None;
  setItem_fault := fun _ _ => None;
  Date_now_at := fun n => 1700000000000 + 1000 * Z.of_nat n;
  toISOString := fun ms => "T" +:+ Number_toString ms;
  getRandomBytesAsync := fun n => Returned (repeat "001"%byte n);
  backend := backend
|}.

(** A store whose reads are rejected. *)
Definition host_unreadable : Host := {|
  getItem_fault := fun _ => Some (Error "Could not decrypt the value");
  setItem_fault := fun _ _ => None;
  Date_now_at := fun n => 1700000000000 + 1000 * Z.of_nat n;
  toISOString := fun ms => "T" +:+ Number_toString ms;
  getRandomBytesAsync := fun n => Returned (repeat "001"%byte n);
  backend := backend_down
|}.

(** A plain printer of values: no escapes, texts between single quotes. *)
Fixpoint print (v : Js) : string :=
  match v with
  | JUndefined | JNull => "null"
  | JBool true => "true"
  | JBool false => "false"
  | JNum n => Number_toString n
  | JStr s => "'" +:+ s +:+ "'"
  | JArr items =>
      "[" +:+ (fix go (l : list Js) : string :=
                 match l with
                 | [] => ""
                 | [x] => print x
                 | x :: rest => print x +:+ "," +:+ go rest
                 end) items +:+ "]"
  | JObj fields =>
      "{" +:+ (fix go (l : list (string * Js)) : string :=
                 match l with
                 | [] => ""
                 | [(k, x)] => "'" +:+ k +:+ "':" +:+ print x
                 | (k, x) :: rest => "'" +:+ k +:+ "':" +:+ print x +:+ "," +:+ go rest
                 end) fields +:+ "}"
  end.

(** Only the empty array and the text [null] parse; values print plainly. *)
Definition json : Json := {|
  JSON_parse := fun text =>
    if String.eqb text "[]" then Returned (JArr [])
    else if String.eqb text "null" then Returned JNull
    else Thrown (Error "JSON Parse error: Unexpected token");
  JSON_stringify := fun v =>
    match v with
    | JUndefined => None
    | _ => Some (print v)
    end;
  Buffer_from_hex := fun text => repeat "000"%byte (String.length text / 2)
|}.

(** A wallet whose address is its key with a mixed-case prefix, and whose
    signature over any bytes is its address. *)
Definition ethers : Ethers := {|
  new_Wallet := fun key =>
    if truthy key
    then Returned (mkWallet key (Some ("0x04" +:+ slice 2 key)) None
                    ("0xAbC" +:+ slice 2 key))
    else Thrown (Error "invalid private key");
  computePublicKey := fun key _ => Returned ("0x04" +:+ slice 2 key);
  signMessage := fun wallet _ => wallet_address wallet;
  verifyMessage := fun _ signature => Returned signature;
  invalid_string := Error "invalid string value"
|}.

(** did-jwt-vc with the schema check of the credential subject
    ([Object.keys(value).length === 0] is rejected) and no other. *)
Definition didjwt : DidJwt := {|
  secp256k1_sign := fun _ _ => mkEcdsa 11 22 1;
  vc_signing_input := fun _ iss _ => "vc." +:+ iss;
  vp_signing_input := fun _ iss _ => "vp." +:+ iss;
  encode_signature := fun _ => "c2ln";
  validateJwtCredentialPayload := fun payload =>
    if Nat.eqb (length (map_to_list (credentialSubject (vc payload)))) 0
    then Some (Error "credentialSubject must not be empty")
    else None;
  validateJwtPresentationPayload := fun _ => None
|}.

Definition key64 : string :=
  "0x0101010101010101010101010101010101010101010101010101010101010101".

(** A device that holds a wallet and no credential yet. *)
Definition wallet_world : World :=
  mkWorld (<[STORAGE_KEYS.DID := "did:ethr:VoltusWave:0xabc01"]>
           (<[STORAGE_KEYS.PRIVATE_KEY := key64]> ∅))
          [] 0 [] [] None.

(** A fresh device. *)
Definition empty_world : World := mkWorld ∅ [] 0 [] [] None.

(** A device whose credential entry is not JSON. *)
Definition garbled_world : World :=
  mkWorld (<[STORAGE_KEYS.CREDENTIALS := "[{"]> ∅) [] 0 [] [] None.

(** A device whose credential entry is the empty list. *)
Definition listed_world : World :=
  mkWorld (<[STORAGE_KEYS.CREDENTIALS := "[]"]> ∅) [] 0 [] [] None.

Definition role_admin : Claims := <["role" := "admin"]> ∅.

Definition a_token : Jwt VcPayload :=
  mkJwt (mkHeader "ES256K" "JWT") "did:ethr:VoltusWave:0xabc01"
    (mkVcPayload "did:ethr:VoltusWave:0xabc01" 1700000000
       (mkVcBody [credentials_v1] ["VerifiableCredential"] role_admin))
    (mkJose 11 22 None).

(** The key pair that [generateKeyPair] makes on this device. *)
Definition keys : KeyPair :=
  mkKeyPair key64
    "0x040101010101010101010101010101010101010101010101010101010101010101"
    "0xAbC0101010101010101010101010101010101010101010101010101010101010101"
    "did:ethr:VoltusWave:0xabc0101010101010101010101010101010101010101010101010101010101010101".

Definition a_credential : Credential :=
  mkCredential "1700000001000" "did:ethr:VoltusWave:0xabc01"
    "did:ethr:VoltusWave:0xabc01" role_admin a_token "T1700000002000".
End Demo.


(* ===================================================================== *)
(** ** What a read of the store amounts to                                 *)
(* ===================================================================== *)

Section Reads.
Context {host : Host} {json : Json}.

(** The value [getSecure(key)] hands back: [null] when the read is
    rejected or the key is absent. *)
Definition stored (w : World) (key : string) : option string :=
  match getItem_fault key with
  | Some _ => None
  | None => secureStore w !! key
  end.

(** The value [getCredentials()] hands back. *)
Definition stored_credentials (w : World) : Js :=
  match stored w STORAGE_KEYS.CREDENTIALS with
  | Some text =>
      if truthy text
      then match JSON_parse text with
           | Returned v => v
           | Thrown _ => JArr []
           end
      else JArr []
  | None => JArr []
  end.
End Reads.

(** Two device states that differ in the activity log only. *)
Definition logs_apart (w w' : World) : Prop :=
  exists f, w' = set_logs f w.

(* ===================================================================== *)
(** ** services/secureStorage.js : deleting and the biometric flag         *)
(* ===================================================================== *)

(** Removal from expo-secure-store. *)
Class Deletion : Type := {
  (** [SecureStore.deleteItemAsync(key)] rejects with this error, if any *)
  deleteItem_fault : string -> option JsError
}.

(** [object[name]] on the properties of an object; their names are
    distinct. *)
Fixpoint get_property (name : string) (fields : list (string * Js)) : option Js :=
  match fields with
  | [] => None
  | (k, v) :: rest => if String.eqb k name then Some v else get_property name rest
  end.

(** [c.id !== credentialId] for a text [credentialId]: reading a property of
    [null] throws, a value without an [id] has [undefined] there. *)
Definition id_differs (credentialId : string) (c : Js) : Outcome bool :=
  match c with
  | JNull | JUndefined => Thrown (Error "Cannot read property 'id' of null")
  | JObj fields =>
      Returned (match get_property "id" fields with
                | Some (JStr s) => negb (String.eqb s credentialId)
                | _ => true
                end)
  | _ => Returned true
  end.

(** [existingCredentials.filter(c => c.id !== credentialId)] *)
Fixpoint filter_credentials (credentialId : string) (items : list Js)
  : Outcome (list Js) :=
  match items with
  | [] => Returned []
  | c :: rest =>
      match id_differs credentialId c with
      | Thrown e => Thrown e
      | Returned keep =>
          match filter_credentials credentialId rest with
          | Thrown e => Thrown e
          | Returned kept => Returned (if keep then c :: kept else kept)
          end
      end
  end.

Section SecureStorageRest.
Context {host : Host} {json : Json} {didjwt : DidJwt} {deletion : Deletion}.

(** [SecureStore.deleteItemAsync(key)] *)
Definition deleteItemAsync (key : string) : M unit :=
  match deleteItem_fault key with
  | Some e => throw e
  | None => modify (set_store (delete key))
  end.

(** [deleteSecure(key)] *)
Definition deleteSecure (key : string) : M bool :=
  try_catch
    (deleteItemAsync key ;;
     logger.log ("🗑️ Deleted: " +:+ key) info ;;
     ret true)
    (fun e =>
       logger.log ("Failed to delete " +:+ key +:+ ": " +:+ message e) error ;;
       ret false).

(** [deleteCredential(credentialId)]; only an array has [filter]. *)
Definition deleteCredential (credentialId : string) : M bool :=
  try_catch
    (existingCredentials <- getCredentials ;;
     match existingCredentials with
     | JArr items =>
         filtered <- lift (filter_credentials credentialId items) ;;
         saveCredentials filtered ;;
         logger.log "🗑️ Credential deleted" success ;;
         ret true
     | JNull | JUndefined =>
         throw (Error "Cannot read property 'filter' of null")
     | _ => throw (Error "existingCredentials.filter is not a function")
     end)
    (fun e => logger.log "Failed to delete credential" error ;; throw e).

(** [clearWallet()] *)
Definition clearWallet : M bool :=
  try_catch
    (deleteSecure STORAGE_KEYS.PRIVATE_KEY ;;
     deleteSecure STORAGE_KEYS.PUBLIC_KEY ;;
     deleteSecure STORAGE_KEYS.ADDRESS ;;
     deleteSecure STORAGE_KEYS.DID ;;
     deleteSecure STORAGE_KEYS.CREDENTIALS ;;
     deleteSecure STORAGE_KEYS.WALLET_INITIALIZED ;;
     deleteSecure STORAGE_KEYS.BIOMETRIC_ENABLED ;;
     logger.log "⚠️ Wallet cleared" warning ;;
     ret true)
    (fun e => logger.log "Failed to clear wallet" error ;; throw e).

(** [setBiometricEnabled(enabled)] *)
Definition setBiometricEnabled (enabled : bool) : M unit :=
  saveSecure STORAGE_KEYS.BIOMETRIC_ENABLED (if enabled then "true" else "false") ;;
  ret tt.

(** [isBiometricEnabled()] *)
Definition isBiometricEnabled : M bool :=
  enabled <- getSecure STORAGE_KEYS.BIOMETRIC_ENABLED ;;
  ret (match enabled with Some s => String.eqb s "true" | None => false end).
End SecureStorageRest.

(* ===================================================================== *)
(** ** utils/logger.js : the rest of the logger                            *)
(* ===================================================================== *)

(** [logger.getLogs()] *)
Definition getLogs : M (list LogEntry) := fun w => (Returned (logs w), w).

(** [logger.clearLogs()] *)
Definition clearLogs : M unit := modify (set_logs (fun _ => [])).

(* ===================================================================== *)
(** ** services/didManager.js : the registration check                     *)
(* ===================================================================== *)

(** What the backend says about an address. *)
Record CheckData : Type := mkCheckData {
  registered : bool;
  check_blockNumber : option Z
}.

Record CheckResponse : Type := mkCheckResponse {
  check_status : Z;
  check_data : CheckData
}.

(** What [checkDIDRegistration] returns: the backend's data, or
    [{ registered: false, error }]. *)
Record RegistrationStatus : Type := mkStatus {
  status_registered : bool;
  status_blockNumber : option Z;
  status_error : option string
}.

(** The backend's answers to GET requests. *)
Class Registry : Type := {
  backend_get : string -> Outcome CheckResponse
}.

(** A value in a template literal: [undefined] prints as such. *)
Definition print_optional (n : option Z) : string :=
  match n with Some n => Number_toString n | None => "undefined" end.

Section RegistrationCheck.
Context {host : Host} {json : Json} {registry : Registry}.

(** [apiClient.get(url)], with the interceptors of services/api.js *)
Definition apiClient_get (url : string) : M CheckResponse :=
  logger.log ("📤 API Request: " +:+ "GET" +:+ " " +:+ url) info ;;
  match backend_get url with
  | Returned response =>
      logger.log ("📥 Response: " +:+ url +:+ " - Status "
                  +:+ Number_toString (check_status response)) success ;;
      ret response
  | Thrown e =>
      match shape e with
      | WithResponse status dataError =>
          logger.log ("❌ API Error: " +:+ Number_toString status +:+ " - "
                      +:+ (if truthy_opt dataError then default "" dataError else message e))
            error
      | WithRequest => logger.log "❌ Network Error: No response from server" error
      | PlainError => logger.log ("❌ Error: " +:+ message e) error
      end ;;
      throw e
  end.

(** [checkDIDRegistration(address)] *)
Definition checkDIDRegistration (address : string) : M RegistrationStatus :=
  try_catch
    (logger.log "🔍 Checking DID registration..." info ;;
     response <- apiClient_get ("/check-registration/" +:+ address) ;;
     (if registered (check_data response)
      then logger.log "✅ DID is registered on blockchain" success ;;
           logger.log ("   Block: " +:+ print_optional (check_blockNumber (check_data response)))
             info
      else logger.log "ℹ️ DID not registered on blockchain" info) ;;
     ret (mkStatus (registered (check_data response))
            (check_blockNumber (check_data response)) None))
    (fun e =>
       logger.log ("Failed to check registration: " +:+ message e) error ;;
       ret (mkStatus false None (Some (message e)))).

(** [hasWallet()] *)
Definition hasWallet : M bool := isWalletInitialized.

(** [getCurrentDID()] *)
Definition getCurrentDID : M (option string) := getDID.
End RegistrationCheck.

(* ===================================================================== *)
(** ** utils/crypto.js : the other key makers                              *)
(* ===================================================================== *)

(** expo-crypto's digest and ethers' mnemonic support. *)
Class KeyDerivation : Type := {
  (** [Crypto.digestStringAsync(SHA256, text)] *)
  digestStringAsync : string -> Outcome string;
  (** its rejection of a value that is not a string *)
  digest_invalid : JsError;
  (** [ethers.Wallet.fromPhrase(mnemonic)] *)
  Wallet_fromPhrase : string -> Outcome Wallet;
  (** [ethers.Mnemonic.entropyToPhrase(entropyHex)] *)
  entropyToPhrase : string -> Outcome string
}.

(** What the seed and mnemonic functions return: the public key is the
    wallet's own [publicKey] property, which may be missing. *)
Record RestoredKeys : Type := mkRestoredKeys {
  restored_privateKey : string;
  restored_publicKey : option string;
  restored_address : string;
  restored_did : string
}.

(** What [generateSimpleKeyPair] returns. *)
Record SimpleKeyPair : Type := mkSimpleKeyPair {
  simple_privateKey : string;
  simple_address : string;
  simple_did : string
}.

(** [b.toString(16)] for a byte: one or two digits. *)
Definition toString16 (b : byte) : string :=
  let n := Byte.to_N b in
  if N.ltb n 16
  then String (hex_digit n) EmptyString
  else String (hex_digit (N.div n 16)) (String (hex_digit (N.modulo n 16)) EmptyString).

(** [s.padStart(targetLength, fill)] for a one-character [fill] *)
Definition padStart (targetLength : nat) (fill : ascii) (s : string) : string :=
  string_of_list_ascii (repeat fill (targetLength - String.length s)) +:+ s.

(** [parts.join('')] *)
Definition join_all (parts : list string) : string :=
  fold_right String.append EmptyString parts.

(** [Array.from(bytes).map(b => b.toString(16).padStart(2, '0')).join('')] *)
Definition bytes_to_hex (bytes : list byte) : string :=
  join_all (map (fun b => padStart 2 "0"%char (toString16 b)) bytes).

Section CryptoRest.
Context {host : Host} {json : Json} {ethers : Ethers} {derivation : KeyDerivation}.

(** [generateRandomBytes(length = 32)] *)
Definition generateRandomBytes (length : option nat) : Outcome (list byte) :=
  getRandomBytesAsync (default 32%nat length).

(** [hashData(data)] *)
Definition hashData (data : Js) : Outcome string :=
  match dataString data with
  | None => Thrown digest_invalid
  | Some text => digestStringAsync text
  end.

(** The keys read off a wallet, with the DID the seed and mnemonic functions
    write. *)
Definition restored_keys (wallet : Wallet) : RestoredKeys :=
  mkRestoredKeys (wallet_privateKey wallet) (wallet_publicKey wallet)
    (wallet_address wallet) ("did:ethr:" +:+ toLowerCase (wallet_address wallet)).

(** [createWalletFromSeed(seed)]; the [catch] only prints and rethrows. *)
Definition createWalletFromSeed (seed : Js) : Outcome RestoredKeys :=
  match hashData seed with
  | Thrown e => Thrown e
  | Returned seedHash =>
      match new_Wallet ("0x" +:+ seedHash) with
      | Thrown e => Thrown e
      | Returned wallet => Returned (restored_keys wallet)
      end
  end.

(** [restoreFromMnemonic(mnemonic)]; the [catch] only prints and rethrows. *)
Definition restoreFromMnemonic (mnemonic : string) : Outcome RestoredKeys :=
  match Wallet_fromPhrase mnemonic with
  | Thrown e => Thrown e
  | Returned wallet => Returned (restored_keys wallet)
  end.

(** [generateMnemonic()]; [None] is the [null] of the [catch]. *)
Definition generateMnemonic : option string :=
  match getRandomBytesAsync 16 with
  | Thrown _ => None
  | Returned entropy =>
      match entropyToPhrase (Buffer_toString_hex entropy) with
      | Thrown _ => None
      | Returned mnemonic => Some mnemonic
      end
  end.

(** [generateSimpleKeyPair()]; the [catch] only prints and rethrows. *)
Definition generateSimpleKeyPair : Outcome SimpleKeyPair :=
  match getRandomBytesAsync 32 with
  | Thrown e => Thrown e
  | Returned privateKeyBytes =>
      let privateKeyHex := "0x" +:+ bytes_to_hex privateKeyBytes in
      match new_Wallet privateKeyHex with
      | Thrown e => Thrown e
      | Returned wallet =>
          Returned (mkSimpleKeyPair privateKeyHex (wallet_address wallet)
                      ("did:ethr:VoltusWave:" +:+ toLowerCase (wallet_address wallet)))
      end
  end.
End CryptoRest.

(** The value of a hexadecimal digit. *)
Definition hex_value (c : ascii) : option N :=
  let n := N_of_ascii c in
  if (N.leb 48 n && N.leb n 57)%bool then Some (n - 48)%N
  else if (N.leb 97 n && N.leb n 102)%bool then Some (n - 87)%N
  else None.

(** Reading back a text of two lower-case digits per byte. *)
Fixpoint hex_to_bytes (s : string) : option (list byte) :=
  match s with
  | EmptyString => Some []
  | String hi (String lo rest) =>
      match hex_value hi, hex_value lo, hex_to_bytes rest with
      | Some h, Some l, Some bytes =>
          match Byte.of_N (h * 16 + l) with
          | Some b => Some (b :: bytes)
          | None => None
          end
      | _, _, _ => None
      end
  | String _ EmptyString => None
  end.

(* ===================================================================== *)
(** ** services/biometric.js                                               *)
(* ===================================================================== *)

(** What [LocalAuthentication.authenticateAsync] resolves to. *)
Record AuthResult : Type := mkAuthResult {
  auth_success : bool;
  auth_error : option string
}.

(** expo-local-authentication. *)
Class LocalAuthentication : Type := {
  hasHardwareAsync : Outcome bool;
  isEnrolledAsync : Outcome bool;
  supportedAuthenticationTypesAsync : Outcome (list Z);
  (** [authenticateAsync({ promptMessage, ... })] *)
  authenticateAsync : string -> Outcome AuthResult;
  (** the members of [AuthenticationType] *)
  FINGERPRINT : Z;
  FACIAL_RECOGNITION : Z;
  IRIS : Z
}.

Module biometric.
Section Biometric.
Context {auth : LocalAuthentication}.

(** [types.includes(type)] *)
Definition includes_type (types : list Z) (type : Z) : bool :=
  existsb (Z.eqb type) types.

(** [isBiometricSupported()] *)
Definition isBiometricSupported : M bool :=
  match hasHardwareAsync with
  | Returned compatible => ret compatible
  | Thrown _ => logger.log "Error checking biometric support" error ;; ret false
  end.

(** [isBiometricEnrolled()] *)
Definition isBiometricEnrolled : M bool :=
  match isEnrolledAsync with
  | Returned enrolled => ret enrolled
  | Thrown _ => logger.log "Error checking biometric enrollment" error ;; ret false
  end.

(** [getSupportedAuthTypes()] *)
Definition getSupportedAuthTypes : M (list string) :=
  match supportedAuthenticationTypesAsync with
  | Returned types =>
      ret ((if includes_type types FINGERPRINT then ["Fingerprint"] else [])
           ++ (if includes_type types FACIAL_RECOGNITION then ["Face ID"] else [])
           ++ (if includes_type types IRIS then ["Iris"] else []))%list
  | Thrown _ => logger.log "Error getting auth types" error ;; ret []
  end.

(** [authenticateWithBiometric(promptMessage = 'Authenticate to access wallet')] *)
Definition authenticateWithBiometric (promptMessage : option string) : M AuthResult :=
  match authenticateAsync (default "Authenticate to access wallet" promptMessage) with
  | Returned result =>
      if auth_success result
      then logger.log "✅ Biometric authentication successful" success ;;
           ret (mkAuthResult true None)
      else logger.log "⚠️ Biometric authentication failed" warning ;;
           ret (mkAuthResult false
                  (Some (if truthy_opt (auth_error result)
                         then default "" (auth_error result)
                         else "Authentication failed")))
  | Thrown e =>
      logger.log ("Biometric authentication error: " +:+ message e) error ;;
      ret (mkAuthResult false (Some (message e)))
  end.

(** [canUseBiometric()] *)
Definition canUseBiometric : M bool :=
  supported <- isBiometricSupported ;;
  enrolled <- isBiometricEnrolled ;;
  ret (supported && enrolled)%bool.
End Biometric.
End biometric.

(* ===================================================================== *)
(** ** The screens: the form, the selection, the home screen               *)
(* ===================================================================== *)

(** [addClaim()] of the issue screen, with the two input fields: the claims
    and the fields afterwards. *)
Definition addClaim (claimKey claimValue : string) (s : IssueScreen)
  : IssueScreen * string * string :=
  if (truthy claimKey && truthy claimValue)%bool
  then (mkIssueScreen (issue_walletInfo s) (isIssuing s) (credentialType s)
          (additionalClaims s ++ [mkClaim claimKey claimValue]), "", "")
  else (s, claimKey, claimValue).

(** [items.filter((item, i) => keep(item, i))], from position [i] on *)
Fixpoint filter_indexed {A} (keep : A -> nat -> bool) (i : nat) (items : list A)
  : list A :=
  match items with
  | [] => []
  | x :: rest =>
      if keep x i
      then x :: filter_indexed keep (S i) rest
      else filter_indexed keep (S i) rest
  end.

(** [removeClaim(index)]: [additionalClaims.filter((_, i) => i !== index)] *)
Definition removeClaim (index : nat) (s : IssueScreen) : IssueScreen :=
  mkIssueScreen (issue_walletInfo s) (isIssuing s) (credentialType s)
    (filter_indexed (fun _ i => negb (Nat.eqb i index)) 0 (additionalClaims s)).

(** [resetForm()] *)
Definition resetForm (s : IssueScreen) : IssueScreen :=
  mkIssueScreen (issue_walletInfo s) (isIssuing s) "" [].

(** [loadTemplate(template)] *)
Definition loadTemplate (template : string) (s : IssueScreen) : IssueScreen :=
  if String.eqb template "degree" then
    mkIssueScreen (issue_walletInfo s) (isIssuing s) "University Degree"
      [mkClaim "name" "John Doe"; mkClaim "degree" "Bachelor of Science";
       mkClaim "university" "MIT"; mkClaim "year" "2024"]
  else if String.eqb template "id" then
    mkIssueScreen (issue_walletInfo s) (isIssuing s) "Government ID"
      [mkClaim "name" "John Doe"; mkClaim "idNumber" "ID123456789";
       mkClaim "country" "USA"; mkClaim "expiryDate" "2030-12-31"]
  else if String.eqb template "license" then
    mkIssueScreen (issue_walletInfo s) (isIssuing s) "Driver License"
      [mkClaim "name" "John Doe"; mkClaim "licenseNumber" "DL987654321";
       mkClaim "class" "Class B"; mkClaim "issuedDate" "2024-01-01"]
  else mkIssueScreen (issue_walletInfo s) (isIssuing s) (credentialType s) [].

(** [toggleCredentialSelection(credentialId)] of the verify screen, on the
    selected ids. *)
Definition toggleCredentialSelection (credentialId : string) (selected : list string)
  : list string :=
  if includes selected credentialId
  then List.filter (fun id => negb (String.eqb id credentialId)) selected
  else selected ++ [credentialId].

(** The state of the home screen. *)
Record HomeScreen : Type := mkHomeScreen {
  home_hasWallet : bool;
  home_walletInfo : option WalletInfo;
  isCreatingDID : bool;
  home_logs : list LogEntry
}.

Section HomeScreenHandlers.
Context {host : Host} {json : Json} {ethers : Ethers} {didjwt : DidJwt}
        {deletion : Deletion}.

(** [createDID()] of the home screen *)
Definition home_createDID (s : HomeScreen) : M HomeScreen :=
  s' <- try_catch
    (result <- didManager.createLocalDID ;;
     Alert_alert "✅ Identity Created"
       ("Your DID:" +:+ nl +:+ local_did result +:+ nl +:+ nl
        +:+ "Registered on blockchain!") ;;
     ret (mkHomeScreen true
            (Some (mkWalletInfo (Some (local_did result)) (Some (local_address result))
                     (Some (local_publicKey result))))
            true (home_logs s)))
    (fun _ =>
       Alert_alert "Error" "Failed to create DID. Please try again." ;;
       ret (mkHomeScreen (home_hasWallet s) (home_walletInfo s) true (home_logs s))) ;;
  current <- getLogs ;;
  ret (mkHomeScreen (home_hasWallet s') (home_walletInfo s') false current).

(** [checkWallet()] of the home screen *)
Definition checkWallet (s : HomeScreen) : M HomeScreen :=
  try_catch
    (exists_ <- hasWallet ;;
     if exists_ : bool
     then info <- didManager.getWalletInfo ;;
          ret (mkHomeScreen true
                 (Some (mkWalletInfo (fst (fst info)) (snd (fst info)) (snd info)))
                 (isCreatingDID s) (home_logs s))
     else ret (mkHomeScreen false (home_walletInfo s) (isCreatingDID s) (home_logs s)))
    (fun _ => logger.log "Failed to check wallet" error ;; ret s).

(** The confirmed "Clear" of [handleClearWallet()] *)
Definition confirmClearWallet (s : HomeScreen) : M HomeScreen :=
  clearWallet ;;
  current <- getLogs ;;
  ret (mkHomeScreen false None (isCreatingDID s) current).
End HomeScreenHandlers.

(* ===================================================================== *)
(** ** Helpers for stating the properties, and more of the concrete device *)
(* ===================================================================== *)

(** Logging several entries, the first one first. *)
Fixpoint log_each (entries : list LogEntry) : M unit :=
  match entries with
  | [] => ret tt
  | e :: rest => logger.log (log_message e) (log_type e) ;; log_each rest
  end.

(** The seven entries of the wallet in the store. *)
Definition wallet_keys : list string :=
  [STORAGE_KEYS.PRIVATE_KEY; STORAGE_KEYS.PUBLIC_KEY; STORAGE_KEYS.ADDRESS;
   STORAGE_KEYS.DID; STORAGE_KEYS.CREDENTIALS; STORAGE_KEYS.WALLET_INITIALIZED;
   STORAGE_KEYS.BIOMETRIC_ENABLED].

(** [deleteSecure] of each key of a list, in order. *)
Fixpoint delete_each {deletion : Deletion} (keys : list string) : M unit :=
  match keys with
  | [] => ret tt
  | key :: rest => deleteSecure key ;; delete_each rest
  end.

(** The store after the five writes of [saveWalletKeys]. *)
Definition with_wallet (privateKey publicKey address did : string)
    (store : gmap string string) : gmap string string :=
  <[STORAGE_KEYS.WALLET_INITIALIZED := "true"]>
    (<[STORAGE_KEYS.DID := did]>
       (<[STORAGE_KEYS.ADDRESS := address]>
          (<[STORAGE_KEYS.PUBLIC_KEY := publicKey]>
             (<[STORAGE_KEYS.PRIVATE_KEY := privateKey]> store)))).

(** The items that [filter] keeps when no item makes the callback throw. *)
Definition other_ids (credentialId : string) (items : list Js) : list Js :=
  List.filter (fun c => match id_differs credentialId c with
                        | Returned keep => keep
                        | Thrown _ => false
                        end) items.

(** Text of ASCII characters only. *)
Fixpoint ascii_only (s : string) : bool :=
  match s with
  | EmptyString => true
  | String c rest => (Nat.ltb (nat_of_ascii c) 128 && ascii_only rest)%bool
  end.

(** Every claim on the form has a key and a value. *)
Definition form_filled (s : IssueScreen) : Prop :=
  Forall (fun claim => truthy (claim_key claim) = true /\ truthy (claim_value claim) = true)
         (additionalClaims s).

Module DemoRest.
(** A store that deletes everything but the wallet's flag. *)
Definition sticky_flag : Deletion := {|
  deleteItem_fault := fun key =>
    if String.eqb key STORAGE_KEYS.WALLET_INITIALIZED
    then Some (Error "Could not delete the item")
    else None
|}.

(** A device after [saveWalletKeys]. *)
Definition saved_world : World :=
  mkWorld (with_wallet Demo.key64 "0x0401" "0xAbC01" "did:ethr:VoltusWave:0xabc01" ∅)
          [] 0 [] [] None.

(** A store that deletes whatever it is asked to. *)
Definition deleting : Deletion := {| deleteItem_fault := fun _ => None |}.

(** A store that refuses to write the DID. *)
Definition host_no_did : Host := {|
  getItem_fault := fun _ => None;
  setItem_fault := fun key _ =>
    if String.eqb key STORAGE_KEYS.DID then Some (Error "Could not encrypt the value")
    else None;
  Date_now_at := fun n => 1700000000000 + 1000 * Z.of_nat n;
  toISOString := fun ms => "T" +:+ Number_toString ms;
  getRandomBytesAsync := fun n => Returned (repeat "001"%byte n);
  backend := Demo.backend_up
|}.

(** A device without entropy. *)
Definition host_no_entropy : Host := {|
  getItem_fault := fun _ => None;
  setItem_fault := fun _ _ => None;
  Date_now_at := fun n => 1700000000000 + 1000 * Z.of_nat n;
  toISOString := fun ms => "T" +:+ Number_toString ms;
  getRandomBytesAsync := fun _ => Thrown (Error "No entropy");
  backend := Demo.backend_up
|}.

(** Digest and mnemonic support of a toy kind. *)
Definition derivation : KeyDerivation := {|
  digestStringAsync := fun text => Returned ("00" +:+ text);
  digest_invalid := Error "Invalid digest input";
  Wallet_fromPhrase := fun phrase =>
    if truthy phrase
    then Returned (mkWallet ("0x" +:+ phrase) None (Some ("0x04" +:+ phrase))
                     ("0xDeF" +:+ phrase))
    else Thrown (Error "invalid mnemonic");
  entropyToPhrase := fun hex => Returned ("abandon " +:+ hex)
|}.

(** A phone with a fingerprint reader and a face camera. *)
Definition phone : LocalAuthentication := {|
  hasHardwareAsync := Returned true;
  isEnrolledAsync := Returned false;
  supportedAuthenticationTypesAsync := Returned [2; 1; 2];
  authenticateAsync := fun _ => Returned (mkAuthResult false None);
  FINGERPRINT := 1;
  FACIAL_RECOGNITION := 2;
  IRIS := 3
|}.

(** [Demo.a_credential] as [addCredential] stores it on a fresh clock. *)
Definition stored_entry : Js :=
  credential_to_js (didjwt := Demo.didjwt)
    (mkCredential "1700000000000" (cred_issuer Demo.a_credential)
       (cred_subject Demo.a_credential) (cred_data Demo.a_credential)
       (cred_jwt Demo.a_credential) "T1700000001000").

(** A [JSON] that prints plainly and reads back the empty list and the list
    of that one entry. *)
Definition json_listing : Json := {|
  JSON_parse := fun text =>
    if String.eqb text "[]" then Returned (JArr [])
    else if String.eqb text (Demo.print (JArr [stored_entry]))
    then Returned (JArr [stored_entry])
    else Thrown (Error "JSON Parse error: Unexpected token");
  JSON_stringify := fun v =>
    match v with
    | JUndefined => None
    | _ => Some (Demo.print v)
    end;
  Buffer_from_hex := fun text => repeat "000"%byte (String.length text / 2)
|}.

(** A second credential, with an id of its own. *)
Definition b_credential : Credential :=
  mkCredential "1700000005000" "did:ethr:VoltusWave:0xabc01"
    "did:ethr:VoltusWave:0xabc01" Demo.role_admin Demo.a_token "T1700000006000".

(** A [JSON] that prints plainly and reads back the list of the two
    credentials. *)
Definition json_pair : Json := {|
  JSON_parse := fun text =>
    if String.eqb text
         (Demo.print (JArr [credential_to_js (didjwt := Demo.didjwt) Demo.a_credential;
                            credential_to_js (didjwt := Demo.didjwt) b_credential]))
    then Returned (JArr [credential_to_js (didjwt := Demo.didjwt) Demo.a_credential;
                         credential_to_js (didjwt := Demo.didjwt) b_credential])
    else Thrown (Error "JSON Parse error: Unexpected token");
  JSON_stringify := fun v =>
    match v with
    | JUndefined => None
    | _ => Some (Demo.print v)
    end;
  Buffer_from_hex := fun text => repeat "000"%byte (String.length text / 2)
|}.

(** A device that holds the two credentials. *)
Definition pair_world : World :=
  mkWorld (<[STORAGE_KEYS.CREDENTIALS :=
               Demo.print (JArr [credential_to_js (didjwt := Demo.didjwt) Demo.a_credential;
                                 credential_to_js (didjwt := Demo.didjwt) b_credential])]> ∅)
          [] 0 [] [] None.

(** A device whose private key is one byte long. *)
Definition short_key_world : World :=
  mkWorld (<[STORAGE_KEYS.DID := "did:ethr:VoltusWave:0xabc01"]>
           (<[STORAGE_KEYS.PRIVATE_KEY := "0x01"]> ∅))
          [] 0 [] [] None.
End DemoRest.

(* ===================================================================== *)
(** * Properties                                                           *)
(* ===================================================================== *)

(** ** Running a computation step by step *)

Lemma bind_returned {A B} (m : M A) (k : A -> M B) w b w' :
  bind m k w = (Returned b, w') ->
  exists a w1, m w = (Returned a, w1) /\ k a w1 = (Returned b, w').
Proof.
  unfold bind. destruct (m w) as [[a|e] w1]; intros Hk.
  - exists a, w1. split; [reflexivity | exact Hk].
  - discriminate Hk.
Qed.

Lemma bind_run {A B} (m : M A) (k : A -> M B) w a w1 :
  m w = (Returned a, w1) -> bind m k w = k a w1.
Proof. intros Hm. unfold bind. rewrite Hm. reflexivity. Qed.

Lemma try_catch_run {A} (m : M A) (h : JsError -> M A) w a w1 :
  m w = (Returned a, w1) -> try_catch m h w = (Returned a, w1).
Proof. intros Hm. unfold try_catch. rewrite Hm. reflexivity. Qed.

Lemma logs_apart_refl w : logs_apart w w.
Proof. exists (fun l => l). destruct w; reflexivity. Qed.

Lemma logs_apart_trans w1 w2 w3 :
  logs_apart w1 w2 -> logs_apart w2 w3 -> logs_apart w1 w3.
Proof.
  intros [f ->] [g ->]. exists (fun l => g (f l)). reflexivity.
Qed.

Lemma logs_apart_store w w' : logs_apart w w' -> secureStore w' = secureStore w.
Proof. intros [f ->]. reflexivity. Qed.

Lemma logs_apart_ticks w w' : logs_apart w w' -> ticks w' = ticks w.
Proof. intros [f ->]. reflexivity. Qed.

(** ** services/secureStorage.js : reads *)

Section ReadFacts.
Context {host : Host} {json : Json}.

Lemma stored_logs_apart w w' key : logs_apart w w' -> stored w' key = stored w key.
Proof. intros Hw. unfold stored. rewrite (logs_apart_store _ _ Hw). reflexivity. Qed.

(** [getSecure] never throws, and touches nothing but the log. *)
Lemma getSecure_spec key w :
  exists w', getSecure key w = (Returned (stored w key), w') /\ logs_apart w w'.
Proof.
  unfold getSecure, try_catch, bind, getItemAsync, stored.
  destruct (getItem_fault key) as [e|]; simpl.
  - eexists. split; [reflexivity | eexists; reflexivity].
  - destruct (truthy_opt (secureStore w !! key)); simpl.
    + eexists. split; [reflexivity | eexists; reflexivity].
    + eexists. split; [reflexivity | apply logs_apart_refl].
Qed.

Lemma getCredentials_spec w :
  exists w', getCredentials w = (Returned (stored_credentials w), w') /\ logs_apart w w'.
Proof.
  unfold getCredentials, stored_credentials.
  destruct (getSecure_spec STORAGE_KEYS.CREDENTIALS w) as (w1 & Hget & Hw1).
  unfold try_catch, bind. rewrite Hget.
  destruct (stored w STORAGE_KEYS.CREDENTIALS) as [text|]; simpl.
  - destruct (truthy text); simpl.
    + unfold lift. destruct (JSON_parse text) as [v|e]; simpl.
      * exists w1. split; [reflexivity | exact Hw1].
      * eexists. split; [reflexivity |].
        eapply logs_apart_trans; [exact Hw1 | eexists; reflexivity].
    + exists w1. split; [reflexivity | exact Hw1].
  - exists w1. split; [reflexivity | exact Hw1].
Qed.
End ReadFacts.

(** C10.  [getCredentials] is total: on every device state it returns a
    value and never throws, and it leaves the store as it was.  What it
    returns is the parsed credential entry; it is the empty list when the
    entry is absent, when the store rejects the read, and when the stored
    text is not JSON. *)
Theorem getCredentials_total {host : Host} {json : Json} (w : World) :
  exists v w',
    getCredentials w = (Returned v, w') /\
    secureStore w' = secureStore w /\
    (secureStore w !! STORAGE_KEYS.CREDENTIALS = None -> v = JArr []) /\
    (forall e, getItem_fault STORAGE_KEYS.CREDENTIALS = Some e -> v = JArr []) /\
    (forall text e, secureStore w !! STORAGE_KEYS.CREDENTIALS = Some text ->
                    JSON_parse text = Thrown e -> v = JArr []) /\
    (forall text parsed, getItem_fault STORAGE_KEYS.CREDENTIALS = None ->
                    secureStore w !! STORAGE_KEYS.CREDENTIALS = Some text ->
                    truthy text = true ->
                    JSON_parse text = Returned parsed -> v = parsed).
Proof.
  destruct (getCredentials_spec w) as (w' & Hrun & Hw).
  exists (stored_credentials w), w'.
  split; [exact Hrun |].
  split; [exact (logs_apart_store _ _ Hw) |].
  unfold stored_credentials, stored.
  repeat split.
  - intros Habsent. rewrite Habsent.
    destruct (getItem_fault STORAGE_KEYS.CREDENTIALS); reflexivity.
  - intros e He. rewrite He. reflexivity.
  - intros text e Htext Hparse. rewrite Htext.
    destruct (getItem_fault STORAGE_KEYS.CREDENTIALS); [reflexivity |].
    destruct (truthy text); [| reflexivity].
    rewrite Hparse. reflexivity.
  - intros text parsed Hok Htext Htruthy Hparse.
    rewrite Hok, Htext, Htruthy, Hparse. reflexivity.
Qed.

Lemma getCredentials_total_witness :
  (exists w', getCredentials (host := Demo.host Demo.backend_down) (json := Demo.json)
                Demo.empty_world = (Returned (JArr []), w')) /\
  (exists w', getCredentials (host := Demo.host_unreadable) (json := Demo.json)
                Demo.listed_world = (Returned (JArr []), w')) /\
  (exists w', getCredentials (host := Demo.host Demo.backend_down) (json := Demo.json)
                Demo.garbled_world = (Returned (JArr []), w')).
Proof.
  split; [| split].
  - destruct (getCredentials_total (host := Demo.host Demo.backend_down)
                (json := Demo.json) Demo.empty_world)
      as (v & w' & Hrun & _ & Habsent & _).
    exists w'. rewrite Hrun, Habsent; reflexivity.
  - destruct (getCredentials_total (host := Demo.host_unreadable)
                (json := Demo.json) Demo.listed_world)
      as (v & w' & Hrun & _ & _ & Hfault & _).
    exists w'. rewrite Hrun, (Hfault (Error "Could not decrypt the value")); reflexivity.
  - destruct (getCredentials_total (host := Demo.host Demo.backend_down)
                (json := Demo.json) Demo.garbled_world)
      as (v & w' & Hrun & _ & _ & _ & Hgarbled & _).
    exists w'.
    rewrite Hrun, (Hgarbled "[{" (Error "JSON Parse error: Unexpected token"));
      reflexivity.
Defined.

(** ** utils/crypto.js *)

Lemma lower_ascii_not_upper c : is_upper (lower_ascii c) = false.
Proof.
  unfold lower_ascii, is_upper.
  destruct (Nat.leb 65 (nat_of_ascii c) && Nat.leb (nat_of_ascii c) 90)%bool eqn:Hup.
  - apply andb_true_iff in Hup as [Hlo Hhi].
    apply Nat.leb_le in Hlo. apply Nat.leb_le in Hhi.
    rewrite nat_ascii_embedding by lia.
    apply andb_false_iff. right. apply Nat.leb_gt. lia.
  - exact Hup.
Qed.

Lemma toLowerCase_no_upper s : has_upper (toLowerCase s) = false.
Proof.
  induction s as [|c rest IH]; simpl.
  - reflexivity.
  - rewrite lower_ascii_not_upper, IH. reflexivity.
Qed.

Lemma lower_ascii_fixed c : is_upper c = false -> lower_ascii c = c.
Proof. unfold lower_ascii, is_upper. intros ->. reflexivity. Qed.

Lemma toLowerCase_idempotent s : toLowerCase (toLowerCase s) = toLowerCase s.
Proof.
  induction s as [|c rest IH]; simpl.
  - reflexivity.
  - rewrite IH, (lower_ascii_fixed _ (lower_ascii_not_upper c)). reflexivity.
Qed.

Lemma generateKeyPair_did {host : Host} {ethers : Ethers} keys :
  generateKeyPair = Returned keys -> did keys = createDID (address keys).
Proof.
  unfold generateKeyPair.
  destruct (getRandomBytesAsync 32) as [randomBytes|]; [| discriminate].
  destruct (new_Wallet _) as [wallet|]; [| discriminate].
  destruct (if truthy_opt (wallet_signingKey_publicKey wallet) then _ else _)
    as [pk|]; [| discriminate].
  intros [= <-]. reflexivity.
Qed.

(** C2.  DID derivation is a function of the address alone: [createDID]
    gives the fixed prefix followed by the lower-cased address, in which no
    upper-case letter is left; the [did] of every generated key pair is
    [createDID] of its address, whatever device and library produced the
    pair; so equal addresses always give equal DIDs. *)
Theorem createDID_deterministic (a : string) :
  createDID a = "did:ethr:VoltusWave:" +:+ toLowerCase a /\
  has_upper (toLowerCase a) = false /\
  createDID (toLowerCase a) = createDID a /\
  (forall (host : Host) (ethers : Ethers) keys,
      generateKeyPair = Returned keys -> address keys = a ->
      did keys = createDID a) /\
  (forall (host1 host2 : Host) (ethers1 ethers2 : Ethers) keys1 keys2,
      generateKeyPair (host := host1) (ethers := ethers1) = Returned keys1 ->
      generateKeyPair (host := host2) (ethers := ethers2) = Returned keys2 ->
      address keys1 = a -> address keys2 = a ->
      did keys1 = did keys2).
Proof.
  split; [reflexivity |].
  split; [apply toLowerCase_no_upper |].
  split; [unfold createDID; rewrite toLowerCase_idempotent; reflexivity |].
  split.
  - intros host ethers keys Hgen <-. exact (generateKeyPair_did keys Hgen).
  - intros host1 host2 ethers1 ethers2 keys1 keys2 Hgen1 Hgen2 Ha1 Ha2.
    rewrite (generateKeyPair_did keys1 Hgen1), (generateKeyPair_did keys2 Hgen2).
    rewrite Ha1, Ha2. reflexivity.
Qed.

Lemma createDID_deterministic_witness :
  exists keys,
    generateKeyPair (host := Demo.host Demo.backend_down) (ethers := Demo.ethers)
      = Returned keys /\
    did keys =
      createDID "0xAbC0101010101010101010101010101010101010101010101010101010101010101".
Proof.
  eexists. split.
  - vm_compute. reflexivity.
  - apply (proj1 (proj2 (proj2 (proj2 (createDID_deterministic
             "0xAbC0101010101010101010101010101010101010101010101010101010101010101")))))
      with (host := Demo.host Demo.backend_down) (ethers := Demo.ethers).
    + vm_compute. reflexivity.
    + reflexivity.
Defined.

(** C7.  Signing then verifying succeeds: for a valid private key and a
    message that is a string or a value with a JSON text, [signData]
    returns a signature and [verifySignature] of the same message, that
    signature and the key's address is [true].  The elliptic-curve work is
    done by ethers, whose recovery of the signer's address is taken as
    given ([ethers_recovers]). *)
Theorem verifySignature_signData {json : Json} {ethers : Ethers}
    (privateKey address : string) (data : Js) (text : string) :
  ethers_recovers ->
  getAddressFromPrivateKey privateKey = Returned address ->
  dataString data = Some text ->
  exists signature,
    signData privateKey data = Returned signature /\
    verifySignature data signature address = true.
Proof.
  intros Hlib Haddr Htext.
  unfold getAddressFromPrivateKey in Haddr.
  destruct (new_Wallet privateKey) as [wallet|e] eqn:Hwallet; [| discriminate].
  injection Haddr as <-.
  exists (signMessage wallet (toUtf8Bytes text)). split.
  - unfold signData. rewrite Hwallet, Htext. reflexivity.
  - unfold verifySignature. rewrite Htext.
    rewrite (Hlib privateKey wallet (toUtf8Bytes text) Hwallet).
    apply String.eqb_refl.
Qed.

Lemma verifySignature_signData_witness :
  exists signature,
    signData (json := Demo.json) (ethers := Demo.ethers) Demo.key64
      (JStr "Register DID: did:ethr:VoltusWave:0xabc01") = Returned signature /\
    verifySignature (json := Demo.json) (ethers := Demo.ethers)
      (JStr "Register DID: did:ethr:VoltusWave:0xabc01") signature
      "0xAbC0101010101010101010101010101010101010101010101010101010101010101" = true.
Proof.
  apply (verifySignature_signData (json := Demo.json) (ethers := Demo.ethers)
           Demo.key64 _ _ "Register DID: did:ethr:VoltusWave:0xabc01").
  - intros privateKey wallet bytes _. reflexivity.
  - vm_compute. reflexivity.
  - reflexivity.
Defined.

(** ** Single steps of the services *)

Lemma bind_log {B} msg t (k : unit -> M B) w :
  bind (logger.log msg t) k w
  = k tt (set_logs (fun l => firstn 50 (mkLog msg t :: l)) w).
Proof. reflexivity. Qed.

Lemma bind_lift {A B} (o : Outcome A) (k : A -> M B) w :
  bind (lift o) k w
  = match o with Returned a => k a w | Thrown e => (Thrown e, w) end.
Proof. unfold bind, lift. destruct o; reflexivity. Qed.

Lemma bind_Date_now {host : Host} {B} (k : Z -> M B) w :
  bind Date_now k w = k (Date_now_at (ticks w)) (set_ticks S w).
Proof. reflexivity. Qed.

Lemma try_catch_returned {A} (m : M A) (h : JsError -> M A) w a w' :
  try_catch m h w = (Returned a, w') ->
  m w = (Returned a, w') \/
  exists e w1, m w = (Thrown e, w1) /\ h e w1 = (Returned a, w').
Proof.
  unfold try_catch. destruct (m w) as [[x|e] w1]; intros Hh.
  - left. exact Hh.
  - right. exists e, w1. split; [reflexivity | exact Hh].
Qed.

(** A handler that logs and rethrows: [H] cannot say it returned a value. *)
Ltac rethrown H := rewrite bind_log in H; unfold throw in H; discriminate H.

Section StoreFacts.
Context {host : Host} {json : Json} {didjwt : DidJwt}.

Lemma stored_same_store w w' key :
  secureStore w' = secureStore w -> stored w' key = stored w key.
Proof. intros Hs. unfold stored. rewrite Hs. reflexivity. Qed.

Lemma stored_credentials_same_store w w' :
  secureStore w' = secureStore w -> stored_credentials w' = stored_credentials w.
Proof.
  intros Hs. unfold stored_credentials.
  rewrite (stored_same_store _ _ _ Hs). reflexivity.
Qed.

Lemma saveSecure_run key value w :
  setItem_fault key value = None ->
  saveSecure key value w
  = (Returned true,
     set_logs (fun l => firstn 50 (mkLog ("🔐 Saved securely: " +:+ key) success :: l))
       (set_store (insert key value) w)).
Proof.
  intros Hok. unfold saveSecure, try_catch, bind, setItemAsync.
  rewrite Hok. reflexivity.
Qed.

Lemma saveCredentials_run items text w :
  JSON_stringify (JArr items) = Some text ->
  setItem_fault STORAGE_KEYS.CREDENTIALS text = None ->
  exists w',
    saveCredentials items w = (Returned true, w') /\
    secureStore w' = <[STORAGE_KEYS.CREDENTIALS := text]> (secureStore w) /\
    ticks w' = ticks w.
Proof.
  intros Htext Hok. unfold saveCredentials. rewrite Htext.
  eexists. split.
  - apply try_catch_run.
    rewrite (bind_run _ _ _ _ _ (saveSecure_run _ _ _ Hok)).
    rewrite bind_log. reflexivity.
  - split; reflexivity.
Qed.

(** Adding to a stored list appends one entry: the credential with a new
    id and time stamp. *)
Lemma addCredential_run credential items text w :
  stored_credentials w = JArr items ->
  JSON_stringify
    (JArr (items ++ [credential_to_js
       (mkCredential (Number_toString (Date_now_at (ticks w)))
          (cred_issuer credential) (cred_subject credential) (cred_data credential)
          (cred_jwt credential) (toISOString (Date_now_at (S (ticks w)))))]))
    = Some text ->
  setItem_fault STORAGE_KEYS.CREDENTIALS text = None ->
  exists w',
    addCredential credential w = (Returned true, w') /\
    secureStore w' = <[STORAGE_KEYS.CREDENTIALS := text]> (secureStore w) /\
    ticks w' = S (S (ticks w)).
Proof.
  intros Hitems Htext Hok.
  destruct (getCredentials_spec w) as (w1 & Hget & Hw1).
  destruct Hw1 as [f ->].
  unfold addCredential.
  edestruct (saveCredentials_run _ _
               (set_ticks S (set_ticks S (set_logs f w))) Htext Hok)
    as (w2 & Hsave & Hstore & Hticks).
  eexists. split.
  - apply try_catch_run.
    rewrite (bind_run _ _ _ _ _ Hget). rewrite Hitems.
    unfold restamped.
    rewrite (bind_run _ _ _ _ _
               (eq_refl : (id <- Date_now ;; addedAt <- Date_now ;; ret _)
                            (set_logs f w) = (Returned _, _))).
    cbn [ticks set_logs set_ticks].
    rewrite (bind_run _ _ _ _ _ Hsave).
    rewrite bind_log. reflexivity.
  - split.
    + cbn [secureStore set_logs]. exact Hstore.
    + cbn [ticks set_logs]. exact Hticks.
Qed.
End StoreFacts.

(** ** services/vcService.js *)

Section WalletFacts.
Context {host : Host} {json : Json} {didjwt : DidJwt}.

(** A signer made without the [recoverable] flag leaves the recovery
    parameter out of every signature. *)
Lemma ES256KSigner_plain key signer data :
  ES256KSigner key false = Returned signer ->
  jose_recoveryParam (signer data) = None.
Proof.
  unfold ES256KSigner.
  destruct (Nat.eqb (length key) 32); [| discriminate].
  intros [= <-]. reflexivity.
Qed.

(** The wallet both services read first. *)
Lemma read_wallet {A} (k : option string -> option string -> M A) w :
  exists w1,
    (did <- getDID ;; privateKey <- getPrivateKey ;; k did privateKey) w
    = k (stored w STORAGE_KEYS.DID) (stored w STORAGE_KEYS.PRIVATE_KEY) w1 /\
    logs_apart w w1.
Proof.
  destruct (getSecure_spec STORAGE_KEYS.DID w) as (w1 & H1 & F1).
  destruct (getSecure_spec STORAGE_KEYS.PRIVATE_KEY w1) as (w2 & H2 & F2).
  exists w2. split.
  - unfold getDID, getPrivateKey.
    rewrite (bind_run _ _ _ _ _ H1), (bind_run _ _ _ _ _ H2).
    rewrite (stored_logs_apart _ _ _ F1). reflexivity.
  - eapply logs_apart_trans; eassumption.
Qed.

End WalletFacts.

(** Replace the two reads at the head of [H] by what they return. *)
Ltac open_wallet H w w1 Hw1 :=
  match type of H with
  | context [bind getDID
               (fun did => bind getPrivateKey (fun privateKey => @?k did privateKey)) w] =>
      let Hread := fresh "Hread" in
      destruct (read_wallet k w) as (w1 & Hread & Hw1);
      rewrite Hread in H; clear Hread; cbv beta in H
  end.

(** The guard threw: [H] cannot say that a value was returned. *)
Ltac no_wallet H :=
  cbn [truthy_opt negb orb] in H;
  repeat match type of H with
         | context [negb (truthy ?x)] => destruct (truthy x)
         end;
  cbn [negb orb] in H; unfold throw in H; discriminate H.

Section VcFacts.
Context {host : Host} {json : Json} {didjwt : DidJwt}.

(** What a returned credential went through. *)
Lemma issueCredentialLocally_returned credentialData w c w' :
  issueCredentialLocally credentialData w = (Returned c, w') ->
  exists did privateKey signer,
    stored w STORAGE_KEYS.DID = Some did /\ truthy did = true /\
    stored w STORAGE_KEYS.PRIVATE_KEY = Some privateKey /\ truthy privateKey = true /\
    ES256KSigner (Buffer_from_hex (slice 2 privateKey)) false = Returned signer /\
    createVerifiableCredentialJwt
      (vcPayload did (Date_now_at (ticks w)) credentialData)
      (mkIssuer did signer "ES256K") = Returned (cred_jwt c) /\
    c = mkCredential (Number_toString (Date_now_at (S (ticks w)))) did did
          credentialData (cred_jwt c) (toISOString (Date_now_at (S (S (ticks w))))).
Proof.
  intros Hrun. unfold issueCredentialLocally in Hrun.
  apply try_catch_returned in Hrun as [Hrun | (e & w1 & _ & Hh)];
    [| rethrown Hh].
  open_wallet Hrun w w1 Hw1.
  destruct (stored w STORAGE_KEYS.DID) as [did|]; [| no_wallet Hrun].
  destruct (stored w STORAGE_KEYS.PRIVATE_KEY) as [privateKey|];
    [| no_wallet Hrun].
  cbn [truthy_opt default from_option id] in Hrun.
  destruct (truthy did) eqn:Hdid; [| no_wallet Hrun].
  destruct (truthy privateKey) eqn:Hkey; [| no_wallet Hrun].
  cbn [negb orb] in Hrun.
  rewrite bind_log, bind_lift in Hrun.
  destruct (ES256KSigner (Buffer_from_hex (slice 2 privateKey)) false)
    as [signer|] eqn:Hsigner; cbv beta iota in Hrun; [| discriminate Hrun].
  rewrite bind_Date_now, bind_lift in Hrun.
  cbn [ticks set_logs] in Hrun.
  rewrite (logs_apart_ticks _ _ Hw1) in Hrun.
  destruct (createVerifiableCredentialJwt _ _) as [jwt|] eqn:Hjwt;
    cbv beta iota in Hrun; [| discriminate Hrun].
  rewrite bind_log, bind_Date_now, bind_Date_now in Hrun.
  cbn [ticks set_logs set_ticks] in Hrun.
  rewrite (logs_apart_ticks _ _ Hw1) in Hrun.
  apply bind_returned in Hrun as (added & w2 & _ & Hrun).
  rewrite bind_log in Hrun. injection Hrun as <- _.
  exists did, privateKey, signer. cbn [cred_jwt].
  repeat split; assumption || reflexivity.
Qed.

(** On a device that holds a wallet with a 32-byte key, whose store takes
    the write and whose credential entry is a list, a payload that passes
    the library's schema check is signed, stored and returned. *)
Lemma issueCredentialLocally_run credentialData w did privateKey items :
  stored w STORAGE_KEYS.DID = Some did -> truthy did = true ->
  stored w STORAGE_KEYS.PRIVATE_KEY = Some privateKey -> truthy privateKey = true ->
  length (Buffer_from_hex (slice 2 privateKey)) = 32%nat ->
  validateJwtCredentialPayload
    (vcPayload did (Date_now_at (ticks w)) credentialData) = None ->
  stored_credentials w = JArr items ->
  (forall l, exists text, JSON_stringify (JArr l) = Some text) ->
  (forall text, setItem_fault STORAGE_KEYS.CREDENTIALS text = None) ->
  exists c w' entry text,
    issueCredentialLocally credentialData w = (Returned c, w') /\
    cred_data c = credentialData /\
    cred_subject c = did /\
    jwt_payload (cred_jwt c) = vcPayload did (Date_now_at (ticks w)) credentialData /\
    entry = credential_to_js
              (mkCredential (Number_toString (Date_now_at (3 + ticks w)))
                 did did credentialData (cred_jwt c)
                 (toISOString (Date_now_at (4 + ticks w)))) /\
    JSON_stringify (JArr (items ++ [entry])) = Some text /\
    secureStore w' = <[STORAGE_KEYS.CREDENTIALS := text]> (secureStore w).
Proof.
  intros Hdid Tdid Hkey Tkey Hlen Hvalid Hitems Hjson Hstore.
  remember (issueCredentialLocally credentialData w) as r eqn:Hread.
  unfold issueCredentialLocally, try_catch in Hread.
  open_wallet Hread w w1 Hw1. destruct Hw1 as [f ->].
  rewrite Hdid, Hkey in Hread. cbn [truthy_opt default from_option id] in Hread.
  rewrite Tdid, Tkey in Hread. cbn [negb orb] in Hread.
  rewrite bind_log, bind_lift in Hread.
  unfold ES256KSigner in Hread at 1. rewrite Hlen in Hread.
  cbn [Nat.eqb] in Hread.
  rewrite bind_Date_now, bind_lift in Hread.
  cbn [ticks set_logs] in Hread.
  unfold createVerifiableCredentialJwt in Hread at 1.
  rewrite Hvalid in Hread.
  rewrite bind_log, bind_Date_now, bind_Date_now in Hread.
  cbn [ticks set_logs set_ticks] in Hread.
  match type of Hread with
  | context [bind (addCredential ?cred) _ ?wa] =>
      destruct (Hjson (items ++ [credential_to_js
         (mkCredential (Number_toString (Date_now_at (ticks wa)))
            (cred_issuer cred) (cred_subject cred) (cred_data cred)
            (cred_jwt cred) (toISOString (Date_now_at (S (ticks wa)))))])%list)
        as (text & Htext);
      destruct (addCredential_run cred items text wa) as (w2 & Hadd & Hs2 & _);
        [ rewrite <- Hitems; apply stored_credentials_same_store; reflexivity
        | exact Htext
        | apply Hstore
        | ]
  end.
  rewrite (bind_run _ _ _ _ _ Hadd), bind_log in Hread.
  cbn [ret] in Hread. subst r.
  eexists _, _, _, text. split; [reflexivity |].
  cbn [cred_data cred_subject cred_jwt jwt_payload].
  repeat split; try reflexivity.
  - exact Htext.
  - cbn [secureStore set_logs]. exact Hs2.
Qed.
End VcFacts.

Section VpFacts.
Context {host : Host} {json : Json} {didjwt : DidJwt}.

(** What a returned presentation went through. *)
Lemma createPresentationLocally_returned credentials challenge w t w' :
  createPresentationLocally credentials challenge w = (Returned t, w') ->
  exists did privateKey signer,
    stored w STORAGE_KEYS.DID = Some did /\ truthy did = true /\
    stored w STORAGE_KEYS.PRIVATE_KEY = Some privateKey /\ truthy privateKey = true /\
    ES256KSigner (Buffer_from_hex (slice 2 privateKey)) false = Returned signer /\
    createVerifiablePresentationJwt (vpPayload credentials challenge)
      (mkIssuer did signer "ES256K") = Returned t /\
    secureStore w' = secureStore w.
Proof.
  intros Hrun. unfold createPresentationLocally in Hrun.
  apply try_catch_returned in Hrun as [Hrun | (e & w1 & _ & Hh)];
    [| rethrown Hh].
  open_wallet Hrun w w1 Hw1.
  destruct (stored w STORAGE_KEYS.DID) as [did|]; [| no_wallet Hrun].
  destruct (stored w STORAGE_KEYS.PRIVATE_KEY) as [privateKey|];
    [| no_wallet Hrun].
  cbn [truthy_opt default from_option id] in Hrun.
  destruct (truthy did) eqn:Hdid; [| no_wallet Hrun].
  destruct (truthy privateKey) eqn:Hkey; [| no_wallet Hrun].
  cbn [negb orb] in Hrun.
  rewrite bind_log, bind_lift in Hrun.
  destruct (ES256KSigner (Buffer_from_hex (slice 2 privateKey)) false)
    as [signer|] eqn:Hsigner; cbv beta iota in Hrun; [| discriminate Hrun].
  rewrite bind_lift in Hrun.
  destruct (createVerifiablePresentationJwt _ _) as [vpJwt|] eqn:Hjwt;
    cbv beta iota in Hrun; [| discriminate Hrun].
  rewrite bind_log in Hrun. injection Hrun as <- <-.
  exists did, privateKey, signer.
  repeat split; try assumption || reflexivity.
  cbn [secureStore set_logs]. exact (logs_apart_store _ _ Hw1).
Qed.

(** On a device that holds a wallet with a 32-byte key, a payload that
    passes the library's schema check is signed and returned. *)
Lemma createPresentationLocally_run credentials challenge w did privateKey :
  stored w STORAGE_KEYS.DID = Some did -> truthy did = true ->
  stored w STORAGE_KEYS.PRIVATE_KEY = Some privateKey -> truthy privateKey = true ->
  length (Buffer_from_hex (slice 2 privateKey)) = 32%nat ->
  validateJwtPresentationPayload (vpPayload credentials challenge) = None ->
  exists t w',
    createPresentationLocally credentials challenge w = (Returned t, w') /\
    jwt_payload t = vpPayload credentials challenge /\
    jwt_iss t = did.
Proof.
  intros Hdid Tdid Hkey Tkey Hlen Hvalid.
  remember (createPresentationLocally credentials challenge w) as r eqn:Hread.
  unfold createPresentationLocally, try_catch in Hread.
  open_wallet Hread w w1 Hw1. destruct Hw1 as [f ->].
  rewrite Hdid, Hkey in Hread. cbn [truthy_opt default from_option id] in Hread.
  rewrite Tdid, Tkey in Hread. cbn [negb orb] in Hread.
  rewrite bind_log, bind_lift in Hread.
  unfold ES256KSigner in Hread at 1. rewrite Hlen in Hread.
  cbn [Nat.eqb] in Hread.
  rewrite bind_lift in Hread.
  unfold createVerifiablePresentationJwt in Hread at 1.
  rewrite Hvalid in Hread.
  rewrite bind_log in Hread. cbn [ret] in Hread. subst r.
  eexists _, _. split; [reflexivity |].
  split; reflexivity.
Qed.
End VpFacts.

(** C4.  The payload that [issueCredentialLocally] has signed: in every
    returned credential, the token's payload has [sub] equal to the subject
    DID (the DID the device holds), [nbf] equal to the clock reading at
    issuance divided by 1000 and rounded down, [vc.@context] containing the
    credentials/v1 context, [vc.type] containing "VerifiableCredential", and
    [vc.credentialSubject] equal to the claims handed in.  And on a device
    that holds a wallet with a 32-byte key and a writable store with a
    credential list, a payload accepted by the library is indeed signed and
    returned. *)
Theorem issueCredentialLocally_payload {host : Host} {json : Json} {didjwt : DidJwt}
    (credentialData : Claims) (w : World) :
  (forall c w',
      issueCredentialLocally credentialData w = (Returned c, w') ->
      let payload := jwt_payload (cred_jwt c) in
      sub payload = cred_subject c /\
      stored w STORAGE_KEYS.DID = Some (cred_subject c) /\
      nbf payload = Date_now_at (ticks w) / 1000 /\
      In credentials_v1 (vc_context (vc payload)) /\
      In "VerifiableCredential" (vc_type (vc payload)) /\
      credentialSubject (vc payload) = credentialData) /\
  (forall did privateKey items,
      stored w STORAGE_KEYS.DID = Some did -> truthy did = true ->
      stored w STORAGE_KEYS.PRIVATE_KEY = Some privateKey -> truthy privateKey = true ->
      length (Buffer_from_hex (slice 2 privateKey)) = 32%nat ->
      validateJwtCredentialPayload
        (vcPayload did (Date_now_at (ticks w)) credentialData) = None ->
      stored_credentials w = JArr items ->
      (forall l, exists text, JSON_stringify (JArr l) = Some text) ->
      (forall text, setItem_fault STORAGE_KEYS.CREDENTIALS text = None) ->
      exists c w',
        issueCredentialLocally credentialData w = (Returned c, w') /\
        jwt_payload (cred_jwt c) = vcPayload did (Date_now_at (ticks w)) credentialData).
Proof.
  split.
  - intros c w' Hrun.
    destruct (issueCredentialLocally_returned _ _ _ _ Hrun)
      as (did & privateKey & signer & Hdid & _ & _ & _ & _ & Hjwt & Hc).
    unfold createVerifiableCredentialJwt in Hjwt.
    destruct (validateJwtCredentialPayload _); [discriminate Hjwt |].
    injection Hjwt as Hjwt.
    rewrite Hc. cbn [cred_subject cred_jwt]. rewrite <- Hjwt.
    cbn. repeat split; try (left; reflexivity). exact Hdid.
  - intros did privateKey items Hdid Tdid Hkey Tkey Hlen Hvalid Hitems Hjson Hstore.
    destruct (issueCredentialLocally_run credentialData w did privateKey items
                Hdid Tdid Hkey Tkey Hlen Hvalid Hitems Hjson Hstore)
      as (c & w' & entry & text & Hrun & _ & _ & Hpayload & _).
    exists c, w'. split; assumption.
Qed.

Lemma issueCredentialLocally_payload_witness :
  exists c w',
    issueCredentialLocally (host := Demo.host Demo.backend_down) (json := Demo.json)
      (didjwt := Demo.didjwt) Demo.role_admin Demo.wallet_world = (Returned c, w') /\
    nbf (jwt_payload (cred_jwt c)) = 1700000000 /\
    credentialSubject (vc (jwt_payload (cred_jwt c))) = Demo.role_admin.
Proof.
  destruct (issueCredentialLocally_payload (host := Demo.host Demo.backend_down)
              (json := Demo.json) (didjwt := Demo.didjwt)
              Demo.role_admin Demo.wallet_world) as [Hfields Hruns].
  destruct (Hruns "did:ethr:VoltusWave:0xabc01" Demo.key64 []) as (c & w' & Hrun & _).
  - vm_compute. reflexivity.
  - reflexivity.
  - vm_compute. reflexivity.
  - reflexivity.
  - vm_compute. reflexivity.
  - reflexivity.
  - vm_compute. reflexivity.
  - intros l. eexists. reflexivity.
  - intros text. reflexivity.
  - exists c, w'. split; [exact Hrun |].
    destruct (Hfields c w' Hrun) as (_ & _ & Hnbf & _ & _ & Hsubject).
    split; [exact Hnbf | exact Hsubject].
Defined.

(** The claim C1 fails on the device of [Demo]: the credential it issues
    carries a token that is not in the recoverable format. *)
Lemma issued_token_not_recoverable :
  exists c w',
    issueCredentialLocally (host := Demo.host Demo.backend_down) (json := Demo.json)
      (didjwt := Demo.didjwt) Demo.role_admin Demo.wallet_world = (Returned c, w') /\
    recoverable_token (cred_jwt c) = false.
Proof.
  eexists _, _. split.
  - vm_compute. reflexivity.
  - reflexivity.
Qed.

(** C1, as the code has it.  Every token of [issueCredentialLocally] and of
    [createPresentationLocally] is signed under ES256K, not ES256K-R: its
    header names ES256K and its signature carries no recovery parameter, so
    it is not a recoverable signature and a verifier needs the signer's
    public key. *)
Theorem tokens_signed_with_ES256K {host : Host} {json : Json} {didjwt : DidJwt}
    (w : World) :
  (forall credentialData c w',
      issueCredentialLocally credentialData w = (Returned c, w') ->
      alg (jwt_header (cred_jwt c)) = "ES256K" /\
      jose_recoveryParam (jwt_signature (cred_jwt c)) = None /\
      recoverable_token (cred_jwt c) = false) /\
  (forall credentials challenge t w',
      createPresentationLocally credentials challenge w = (Returned t, w') ->
      alg (jwt_header t) = "ES256K" /\
      jose_recoveryParam (jwt_signature t) = None /\
      recoverable_token t = false).
Proof.
  split.
  - intros credentialData c w' Hrun.
    destruct (issueCredentialLocally_returned _ _ _ _ Hrun)
      as (did & privateKey & signer & _ & _ & _ & _ & Hsigner & Hjwt & _).
    unfold createVerifiableCredentialJwt in Hjwt.
    destruct (validateJwtCredentialPayload _); [discriminate Hjwt |].
    injection Hjwt as Hjwt. rewrite <- Hjwt.
    unfold recoverable_token. cbn [jwt_header jwt_signature alg issuer_alg issuer_signer].
    rewrite (ES256KSigner_plain _ _ _ Hsigner). repeat split; reflexivity.
  - intros credentials challenge t w' Hrun.
    destruct (createPresentationLocally_returned _ _ _ _ _ Hrun)
      as (did & privateKey & signer & _ & _ & _ & _ & Hsigner & Hjwt & _).
    unfold createVerifiablePresentationJwt in Hjwt.
    destruct (validateJwtPresentationPayload _); [discriminate Hjwt |].
    injection Hjwt as Hjwt. rewrite <- Hjwt.
    unfold recoverable_token. cbn [jwt_header jwt_signature alg issuer_alg issuer_signer].
    rewrite (ES256KSigner_plain _ _ _ Hsigner). repeat split; reflexivity.
Qed.

Lemma tokens_signed_with_ES256K_witness :
  exists t w',
    createPresentationLocally (host := Demo.host Demo.backend_down) (json := Demo.json)
      (didjwt := Demo.didjwt) [Demo.a_credential] (Some "c1") Demo.wallet_world
      = (Returned t, w') /\
    alg (jwt_header t) = "ES256K" /\
    jose_recoveryParam (jwt_signature t) = None.
Proof.
  eexists _, _. split.
  - vm_compute. reflexivity.
  - destruct (proj2 (tokens_signed_with_ES256K (host := Demo.host Demo.backend_down)
                       (json := Demo.json) (didjwt := Demo.didjwt) Demo.wallet_world)
                [Demo.a_credential] (Some "c1") _ _ eq_refl) as (Halg & Hrec & _).
    split; [exact Halg | exact Hrec].
Defined.

(** ** The screens' guards *)

Section EmptyClaims.
Context {host : Host} {json : Json} {didjwt : DidJwt}.

(** Claims that the library rejects under every DID and at every time are
    never issued: [issueCredentialLocally] throws, whatever the device
    holds, and leaves the store as it was. *)
Lemma issueCredentialLocally_rejected credentialData w :
  (forall did now,
      validateJwtCredentialPayload (vcPayload did now credentialData) <> None) ->
  exists e w',
    issueCredentialLocally credentialData w = (Thrown e, w') /\
    secureStore w' = secureStore w.
Proof.
  intros Hreject.
  remember (issueCredentialLocally credentialData w) as r eqn:Hr.
  unfold issueCredentialLocally, try_catch in Hr.
  open_wallet Hr w w1 Hw1. destruct Hw1 as [f ->].
  destruct (negb (truthy_opt (stored w STORAGE_KEYS.DID))
            || negb (truthy_opt (stored w STORAGE_KEYS.PRIVATE_KEY)))%bool.
  { unfold throw in Hr. rewrite bind_log in Hr. subst r.
    eexists _, _. split; reflexivity. }
  rewrite bind_log, bind_lift in Hr.
  destruct (ES256KSigner _ false) as [signer|e].
  2:{ rewrite bind_log in Hr. unfold throw in Hr. subst r.
      eexists _, _. split; reflexivity. }
  rewrite bind_Date_now, bind_lift in Hr.
  unfold createVerifiableCredentialJwt in Hr at 1.
  destruct (validateJwtCredentialPayload _) as [e|] eqn:Hcheck.
  - rewrite bind_log in Hr. unfold throw in Hr. subst r.
    eexists _, _. split; reflexivity.
  - exfalso. exact (Hreject _ _ Hcheck).
Qed.

(** With a wallet and a 32-byte key, the error thrown is the one with which
    the library rejects the payload. *)
Lemma issueCredentialLocally_rejection credentialData w did privateKey :
  stored w STORAGE_KEYS.DID = Some did -> truthy did = true ->
  stored w STORAGE_KEYS.PRIVATE_KEY = Some privateKey -> truthy privateKey = true ->
  length (Buffer_from_hex (slice 2 privateKey)) = 32%nat ->
  validateJwtCredentialPayload
    (vcPayload did (Date_now_at (ticks w)) credentialData) <> None ->
  exists e w',
    issueCredentialLocally credentialData w = (Thrown e, w') /\
    validateJwtCredentialPayload
      (vcPayload did (Date_now_at (ticks w)) credentialData) = Some e /\
    secureStore w' = secureStore w.
Proof.
  intros Hdid Tdid Hkey Tkey Hlen Hreject.
  remember (issueCredentialLocally credentialData w) as r eqn:Hr.
  unfold issueCredentialLocally, try_catch in Hr.
  open_wallet Hr w w1 Hw1. destruct Hw1 as [f ->].
  rewrite Hdid, Hkey in Hr. cbn [truthy_opt default from_option id] in Hr.
  rewrite Tdid, Tkey in Hr. cbn [negb orb] in Hr.
  rewrite bind_log, bind_lift in Hr.
  unfold ES256KSigner in Hr at 1. rewrite Hlen in Hr. cbn [Nat.eqb] in Hr.
  rewrite bind_Date_now, bind_lift in Hr. cbn [ticks set_logs] in Hr.
  unfold createVerifiableCredentialJwt in Hr at 1.
  destruct (validateJwtCredentialPayload _) as [e|] eqn:Hcheck; [| congruence].
  rewrite bind_log in Hr. unfold throw in Hr. subst r.
  eexists _, _. split; [reflexivity |]. split; reflexivity.
Qed.
End EmptyClaims.

(** C3.  Issuing a credential with a claims map of zero entries fails, and
    no credential is returned or stored.  did-jwt-vc rejecting a payload
    whose [credentialSubject] is empty, [issueCredentialLocally] of the
    empty claims throws on every device and leaves the store as it was; for
    a caller holding a DID and a 32-byte private key, the error thrown is
    that rejection of a payload with the empty [credentialSubject].  The
    issue screen stops earlier still: with a DID on the screen and no claim
    on the form, [issueCredential] shows "Add at least one claim to the
    credential." and does nothing else. *)
Theorem empty_claims_rejected {host : Host} {json : Json} {didjwt : DidJwt}
    (w : World) :
  rejects_empty_subject ->
  (exists e w',
      issueCredentialLocally ∅ w = (Thrown e, w') /\
      secureStore w' = secureStore w) /\
  (forall did privateKey,
      stored w STORAGE_KEYS.DID = Some did -> truthy did = true ->
      stored w STORAGE_KEYS.PRIVATE_KEY = Some privateKey -> truthy privateKey = true ->
      length (Buffer_from_hex (slice 2 privateKey)) = 32%nat ->
      exists e w' payload,
        issueCredentialLocally ∅ w = (Thrown e, w') /\
        sub payload = did /\
        credentialSubject (vc payload) = ∅ /\
        validateJwtCredentialPayload payload = Some e /\
        secureStore w' = secureStore w) /\
  (forall s : IssueScreen,
      has_did (issue_walletInfo s) = true ->
      additionalClaims s = [] ->
      issueCredential s w
      = (Returned s,
         set_alerts (cons (mkAlert "Error" "Add at least one claim to the credential.")) w) /\
      secureStore (snd (issueCredential s w)) = secureStore w).
Proof.
  intros Hlibrary. split; [| split].
  - apply issueCredentialLocally_rejected.
    intros did now. apply Hlibrary. reflexivity.
  - intros did privateKey Hdid Tdid Hkey Tkey Hlen.
    destruct (issueCredentialLocally_rejection ∅ w did privateKey
                Hdid Tdid Hkey Tkey Hlen) as (e & w' & Hrun & Hcheck & Hstore).
    { apply Hlibrary. reflexivity. }
    exists e, w', (vcPayload did (Date_now_at (ticks w)) ∅).
    repeat split; assumption || reflexivity.
  - intros s Hdid Hempty.
    unfold issueCredential. rewrite Hdid, Hempty. split; reflexivity.
Qed.

Lemma empty_claims_rejected_witness :
  exists w',
    issueCredentialLocally (host := Demo.host Demo.backend_down) (json := Demo.json)
      (didjwt := Demo.didjwt) ∅ Demo.wallet_world
    = (Thrown (Error "credentialSubject must not be empty"), w') /\
    secureStore w' = secureStore Demo.wallet_world.
Proof.
  destruct (empty_claims_rejected (host := Demo.host Demo.backend_down)
              (json := Demo.json) (didjwt := Demo.didjwt) Demo.wallet_world)
    as (_ & Hwallet & _).
  - intros payload Hempty. cbn [validateJwtCredentialPayload Demo.didjwt].
    rewrite Hempty. discriminate.
  - destruct (Hwallet "did:ethr:VoltusWave:0xabc01" Demo.key64)
      as (e & w' & payload & Hrun & _ & Hempty & Hcheck & Hstore);
      try reflexivity.
    cbn [validateJwtCredentialPayload Demo.didjwt] in Hcheck.
    rewrite Hempty in Hcheck. injection Hcheck as <-.
    exists w'. split; [exact Hrun | exact Hstore].
Defined.

(** The claim C5 fails for the empty challenge: it is supplied, and the
    payload has no nonce. *)
Lemma empty_challenge_leaves_no_nonce :
  exists t w',
    createPresentationLocally (host := Demo.host Demo.backend_down) (json := Demo.json)
      (didjwt := Demo.didjwt) [Demo.a_credential] (Some "") Demo.wallet_world
      = (Returned t, w') /\
    nonce (jwt_payload t) = None.
Proof.
  eexists _, _. split.
  - vm_compute. reflexivity.
  - reflexivity.
Qed.

(** C5, as the code has it.  In every presentation that
    [createPresentationLocally] returns, [vp.verifiableCredential] lists the
    tokens of the given credentials, one per credential and in the given
    order, and the payload has a nonce exactly when a challenge other than
    the empty string was given, the nonce then being that challenge.  And
    on a device that holds a wallet with a 32-byte key, a payload accepted
    by the library is indeed signed and returned. *)
Theorem createPresentationLocally_payload {host : Host} {json : Json} {didjwt : DidJwt}
    (credentials : list Credential) (challenge : option string) (w : World) :
  (forall t w',
      createPresentationLocally credentials challenge w = (Returned t, w') ->
      verifiableCredential (vp (jwt_payload t)) = map cred_jwt credentials /\
      (forall c, nonce (jwt_payload t) = Some c <-> challenge = Some c /\ c <> "")) /\
  (forall did privateKey,
      stored w STORAGE_KEYS.DID = Some did -> truthy did = true ->
      stored w STORAGE_KEYS.PRIVATE_KEY = Some privateKey -> truthy privateKey = true ->
      length (Buffer_from_hex (slice 2 privateKey)) = 32%nat ->
      validateJwtPresentationPayload (vpPayload credentials challenge) = None ->
      exists t w',
        createPresentationLocally credentials challenge w = (Returned t, w') /\
        jwt_payload t = vpPayload credentials challenge).
Proof.
  split.
  - intros t w' Hrun.
    destruct (createPresentationLocally_returned _ _ _ _ _ Hrun)
      as (did & privateKey & signer & _ & _ & _ & _ & _ & Hjwt & _).
    unfold createVerifiablePresentationJwt in Hjwt.
    destruct (validateJwtPresentationPayload _); [discriminate Hjwt |].
    injection Hjwt as Hjwt. rewrite <- Hjwt.
    cbn [jwt_payload vpPayload vp nonce verifiableCredential].
    split; [reflexivity |].
    intros c. destruct challenge as [[|a rest]|]; cbn [truthy_opt truthy].
    + split; [discriminate | intros [Hc Hne]; congruence].
    + split; [intros Hc; split; [exact Hc | injection Hc as <-; discriminate]
             | intros [Hc _]; exact Hc].
    + split; [discriminate | intros [Hc _]; discriminate Hc].
  - intros did privateKey Hdid Tdid Hkey Tkey Hlen Hvalid.
    destruct (createPresentationLocally_run credentials challenge w did privateKey
                Hdid Tdid Hkey Tkey Hlen Hvalid) as (t & w' & Hrun & Hpayload & _).
    exists t, w'. split; assumption.
Qed.

Lemma createPresentationLocally_payload_witness :
  exists t w',
    createPresentationLocally (host := Demo.host Demo.backend_down) (json := Demo.json)
      (didjwt := Demo.didjwt) [Demo.a_credential] (Some "c1") Demo.wallet_world
      = (Returned t, w') /\
    verifiableCredential (vp (jwt_payload t)) = [Demo.a_token] /\
    nonce (jwt_payload t) = Some "c1".
Proof.
  destruct (createPresentationLocally_payload (host := Demo.host Demo.backend_down)
              (json := Demo.json) (didjwt := Demo.didjwt)
              [Demo.a_credential] (Some "c1") Demo.wallet_world) as [Hfields Hruns].
  destruct (Hruns "did:ethr:VoltusWave:0xabc01" Demo.key64) as (t & w' & Hrun & _).
  - vm_compute. reflexivity.
  - reflexivity.
  - vm_compute. reflexivity.
  - reflexivity.
  - vm_compute. reflexivity.
  - reflexivity.
  - exists t, w'. split; [exact Hrun |].
    destruct (Hfields t w' Hrun) as (Hlist & Hnonce).
    split; [exact Hlist |].
    apply Hnonce. split; [reflexivity | discriminate].
Defined.

(** The claim C6 fails on the device of [Demo]: [createPresentationLocally]
    signs and returns a presentation of no credential at all. *)
Lemma empty_presentation_created :
  exists t w',
    createPresentationLocally (host := Demo.host Demo.backend_down) (json := Demo.json)
      (didjwt := Demo.didjwt) [] None Demo.wallet_world = (Returned t, w') /\
    verifiableCredential (vp (jwt_payload t)) = [].
Proof.
  eexists _, _. split.
  - vm_compute. reflexivity.
  - reflexivity.
Qed.

(** C6, as the code has it.  The empty-selection check is the verify
    screen's: with no credential selected, [createPresentation] shows the
    error "Select at least one credential" and does nothing else, so that no
    presentation is made.  [createPresentationLocally] has no such check: on
    a device with a wallet and a 32-byte key, a payload without credentials
    that the library's schema check lets through is signed and returned. *)
Theorem empty_selection_stopped_by_verify_screen
    {host : Host} {json : Json} {didjwt : DidJwt} (w : World) :
  (forall s : VerifyScreen,
      selectedCredentials s = [] ->
      createPresentation s w
      = (Returned s,
         set_alerts (cons (mkAlert "Error" "Select at least one credential")) w) /\
      clipboard (snd (createPresentation s w)) = clipboard w) /\
  (forall challenge did privateKey,
      stored w STORAGE_KEYS.DID = Some did -> truthy did = true ->
      stored w STORAGE_KEYS.PRIVATE_KEY = Some privateKey -> truthy privateKey = true ->
      length (Buffer_from_hex (slice 2 privateKey)) = 32%nat ->
      validateJwtPresentationPayload (vpPayload [] challenge) = None ->
      exists t w',
        createPresentationLocally [] challenge w = (Returned t, w') /\
        verifiableCredential (vp (jwt_payload t)) = []).
Proof.
  split.
  - intros s Hnone. unfold createPresentation. rewrite Hnone. split; reflexivity.
  - intros challenge did privateKey Hdid Tdid Hkey Tkey Hlen Hvalid.
    destruct (createPresentationLocally_run [] challenge w did privateKey
                Hdid Tdid Hkey Tkey Hlen Hvalid) as (t & w' & Hrun & Hpayload & _).
    exists t, w'. split; [exact Hrun |]. rewrite Hpayload. reflexivity.
Qed.

Lemma empty_selection_stopped_by_verify_screen_witness :
  createPresentation (host := Demo.host Demo.backend_down) (json := Demo.json)
    (didjwt := Demo.didjwt)
    (mkVerifyScreen [Demo.a_credential] []
       (Some (mkWalletInfo (Some "did:ethr:VoltusWave:0xabc01") None None)) "c1" false)
    Demo.wallet_world
  = (Returned
       (mkVerifyScreen [Demo.a_credential] []
          (Some (mkWalletInfo (Some "did:ethr:VoltusWave:0xabc01") None None)) "c1" false),
     set_alerts (cons (mkAlert "Error" "Select at least one credential")) Demo.wallet_world).
Proof.
  apply (proj1 (empty_selection_stopped_by_verify_screen
                  (host := Demo.host Demo.backend_down)
                  (json := Demo.json) (didjwt := Demo.didjwt) Demo.wallet_world)).
  reflexivity.
Defined.

(** ** services/didManager.js *)

Section RegistrationFacts.
Context {host : Host} {json : Json} {ethers : Ethers} {didjwt : DidJwt}.

Lemma saveWalletKeys_run privateKey publicKey address did w :
  (forall key value, setItem_fault key value = None) ->
  exists w',
    saveWalletKeys privateKey publicKey address did w = (Returned true, w') /\
    secureStore w' =
      <[STORAGE_KEYS.WALLET_INITIALIZED := "true"]>
        (<[STORAGE_KEYS.DID := did]>
           (<[STORAGE_KEYS.ADDRESS := address]>
              (<[STORAGE_KEYS.PUBLIC_KEY := publicKey]>
                 (<[STORAGE_KEYS.PRIVATE_KEY := privateKey]> (secureStore w))))).
Proof.
  intros Hok. unfold saveWalletKeys. eexists. split.
  - apply try_catch_run.
    rewrite (bind_run _ _ _ _ _ (saveSecure_run _ _ _ (Hok _ _))).
    rewrite (bind_run _ _ _ _ _ (saveSecure_run _ _ _ (Hok _ _))).
    rewrite (bind_run _ _ _ _ _ (saveSecure_run _ _ _ (Hok _ _))).
    rewrite (bind_run _ _ _ _ _ (saveSecure_run _ _ _ (Hok _ _))).
    rewrite (bind_run _ _ _ _ _ (saveSecure_run _ _ _ (Hok _ _))).
    rewrite bind_log. reflexivity.
  - reflexivity.
Qed.

(** The HTTP client records the request, and changes the log besides. *)
Lemma apiClient_post_frame url body w :
  secureStore (snd (apiClient_post url body w)) = secureStore w /\
  sent (snd (apiClient_post url body w)) = mkRequest url body :: sent w.
Proof.
  unfold apiClient_post. rewrite bind_log.
  unfold bind, modify.
  destruct (backend (mkRequest url body)) as [response|e].
  - split; reflexivity.
  - destruct (shape e); split; reflexivity.
Qed.

Lemma registerDIDOnBlockchain_store did publicKey address privateKey w :
  secureStore (snd (didManager.registerDIDOnBlockchain did publicKey address privateKey w))
  = secureStore w.
Proof.
  unfold didManager.registerDIDOnBlockchain, try_catch.
  rewrite bind_log, bind_lift.
  destruct (signData privateKey _) as [signature|e]; [| reflexivity].
  rewrite bind_log, bind_log.
  match goal with
  | |- context [bind (apiClient_post ?u ?b) _ ?w0] =>
      pose proof (apiClient_post_frame u b w0) as [Hstore _];
      unfold bind; destruct (apiClient_post u b w0) as [[response|e] w1]
  end; cbn [snd] in Hstore; cbn; exact Hstore.
Qed.

Lemma registerDIDOnBlockchain_plain_store did publicKey address w :
  secureStore (snd (didManagerPlain.registerDIDOnBlockchain did publicKey address w))
  = secureStore w.
Proof.
  unfold didManagerPlain.registerDIDOnBlockchain, try_catch.
  rewrite bind_log.
  match goal with
  | |- context [bind (apiClient_post ?u ?b) _ ?w0] =>
      pose proof (apiClient_post_frame u b w0) as [Hstore _];
      unfold bind; destruct (apiClient_post u b w0) as [[response|e] w1]
  end; cbn [snd] in Hstore; cbn; exact Hstore.
Qed.

(** The registration step of [createLocalDID]: whatever the registrar
    does, the step returns, and the store is as before. *)
Lemma registration_step did publicKey address privateKey w :
  exists w',
    try_catch
      (didManager.registerDIDOnBlockchain did publicKey address privateKey ;;
       logger.log "✅ DID registered on blockchain" success)
      (fun _ =>
         logger.log "⚠️ DID created locally but blockchain registration failed" warning ;;
         logger.log "You can try registering again later" warning) w
    = (Returned tt, w') /\
    secureStore w' = secureStore w /\
    (forall e, fst (didManager.registerDIDOnBlockchain did publicKey address privateKey w)
               = Thrown e ->
               exists rest,
                 logs w' =
                   mkLog "You can try registering again later" warning
                   :: mkLog "⚠️ DID created locally but blockchain registration failed" warning
                   :: rest).
Proof.
  pose proof (registerDIDOnBlockchain_store did publicKey address privateKey w) as Hstore.
  unfold try_catch, bind.
  destruct (didManager.registerDIDOnBlockchain did publicKey address privateKey w)
    as [[registration|e] w1]; cbn [snd fst] in *.
  - eexists. split; [reflexivity |]. split; [exact Hstore |].
    intros e He. discriminate He.
  - eexists. split; [reflexivity |]. split; [exact Hstore |].
    intros e' _. eexists. cbn. reflexivity.
Qed.

Lemma registration_step_plain did publicKey address w :
  exists w',
    try_catch
      (didManagerPlain.registerDIDOnBlockchain did publicKey address ;; ret tt)
      (fun _ =>
         logger.log "⚠️ DID created locally but blockchain registration failed" warning) w
    = (Returned tt, w') /\
    secureStore w' = secureStore w /\
    (forall e, fst (didManagerPlain.registerDIDOnBlockchain did publicKey address w)
               = Thrown e ->
               exists rest,
                 logs w' =
                   mkLog "⚠️ DID created locally but blockchain registration failed" warning
                   :: rest).
Proof.
  pose proof (registerDIDOnBlockchain_plain_store did publicKey address w) as Hstore.
  unfold try_catch, bind.
  destruct (didManagerPlain.registerDIDOnBlockchain did publicKey address w)
    as [[registration|e] w1]; cbn [snd fst] in *.
  - eexists. split; [reflexivity |]. split; [exact Hstore |].
    intros e He. discriminate He.
  - eexists. split; [reflexivity |]. split; [exact Hstore |].
    intros e' _. eexists. cbn. reflexivity.
Qed.
End RegistrationFacts.

Section RegistrationOutcome.
Context {host : Host} {json : Json} {ethers : Ethers}.

Lemma apiClient_post_outcome url body w :
  fst (apiClient_post url body w) = backend (mkRequest url body).
Proof.
  unfold apiClient_post. rewrite bind_log. unfold bind, modify.
  destruct (backend (mkRequest url body)) as [response|e].
  - reflexivity.
  - destruct (shape e); reflexivity.
Qed.

Lemma registerDIDOnBlockchain_fst did publicKey address privateKey w :
  fst (didManager.registerDIDOnBlockchain did publicKey address privateKey w)
  = match signData privateKey (JStr ("Register DID: " +:+ did)) with
    | Thrown e => Thrown e
    | Returned signature =>
        match backend (mkRequest "/register-on-chain"
                         (mkRegisterBody did publicKey address (Some signature)
                            (Some ("Register DID: " +:+ did)))) with
        | Returned response =>
            Returned (mkRegistration true (txHash (resp_data response))
                        (blockNumber (resp_data response)))
        | Thrown e => Thrown e
        end
    end.
Proof.
  unfold didManager.registerDIDOnBlockchain, try_catch.
  rewrite bind_log, bind_lift.
  destruct (signData privateKey _) as [signature|e]; [| reflexivity].
  rewrite !bind_log.
  match goal with
  | |- context [bind (apiClient_post ?u ?b) _ ?wa] =>
      pose proof (apiClient_post_outcome u b wa) as Ha;
      unfold bind; destruct (apiClient_post u b wa) as [[ra|ea] wa'];
      cbn [fst] in Ha; rewrite <- Ha; reflexivity
  end.
Qed.

Lemma registerDIDOnBlockchain_plain_fst did publicKey address w :
  fst (didManagerPlain.registerDIDOnBlockchain did publicKey address w)
  = match backend (mkRequest "/register"
                     (mkRegisterBody did publicKey address None None)) with
    | Returned response => Returned (resp_data response)
    | Thrown e => Thrown e
    end.
Proof.
  unfold didManagerPlain.registerDIDOnBlockchain, try_catch.
  rewrite bind_log.
  match goal with
  | |- context [bind (apiClient_post ?u ?b) _ ?wa] =>
      pose proof (apiClient_post_outcome u b wa) as Ha;
      unfold bind; destruct (apiClient_post u b wa) as [[ra|ea] wa'];
      cbn [fst] in Ha; rewrite <- Ha; reflexivity
  end.
Qed.

(** Whether the registration fails is decided by the key and the
    registrar, not by the state of the device. *)
Lemma registerDIDOnBlockchain_outcome did publicKey address privateKey w1 w2 :
  fst (didManager.registerDIDOnBlockchain did publicKey address privateKey w1)
  = fst (didManager.registerDIDOnBlockchain did publicKey address privateKey w2).
Proof. rewrite !registerDIDOnBlockchain_fst. reflexivity. Qed.

Lemma registerDIDOnBlockchain_plain_outcome did publicKey address w1 w2 :
  fst (didManagerPlain.registerDIDOnBlockchain did publicKey address w1)
  = fst (didManagerPlain.registerDIDOnBlockchain did publicKey address w2).
Proof. rewrite !registerDIDOnBlockchain_plain_fst. reflexivity. Qed.
End RegistrationOutcome.

(** The claim C8 fails in its last part: with the registrar down, the
    registration step throws, and [createLocalDID] hands its caller the very
    value it hands over when the registrar is up; the store is the same
    too. *)
Lemma registrar_failure_not_in_result :
  (exists e w1,
      didManager.registerDIDOnBlockchain (host := Demo.host Demo.backend_down)
        (json := Demo.json) (ethers := Demo.ethers)
        (did Demo.keys) (publicKey Demo.keys) (address Demo.keys) (privateKey Demo.keys)
        Demo.empty_world = (Thrown e, w1)) /\
  (exists r w1,
      didManager.registerDIDOnBlockchain (host := Demo.host Demo.backend_up)
        (json := Demo.json) (ethers := Demo.ethers)
        (did Demo.keys) (publicKey Demo.keys) (address Demo.keys) (privateKey Demo.keys)
        Demo.empty_world = (Returned r, w1)) /\
  fst (didManager.createLocalDID (host := Demo.host Demo.backend_down)
         (json := Demo.json) (ethers := Demo.ethers) Demo.empty_world)
  = Returned (mkLocalDID (did Demo.keys) (address Demo.keys) (publicKey Demo.keys)) /\
  fst (didManager.createLocalDID (host := Demo.host Demo.backend_up)
         (json := Demo.json) (ethers := Demo.ethers) Demo.empty_world)
  = Returned (mkLocalDID (did Demo.keys) (address Demo.keys) (publicKey Demo.keys)) /\
  secureStore (snd (didManager.createLocalDID (host := Demo.host Demo.backend_down)
                      (json := Demo.json) (ethers := Demo.ethers) Demo.empty_world))
  = secureStore (snd (didManager.createLocalDID (host := Demo.host Demo.backend_up)
                        (json := Demo.json) (ethers := Demo.ethers) Demo.empty_world)).
Proof.
  split; [eexists _, _; vm_compute; reflexivity |].
  split; [eexists _, _; vm_compute; reflexivity |].
  repeat split; vm_compute; reflexivity.
Qed.

(** C8, as the code has it.  When the key pair is generated and the store
    takes the keys, [createLocalDID] returns { did, address, publicKey } and
    the five wallet entries are in the store, whether the registration
    succeeds or fails.  A failed registration is caught: it leaves its mark
    as warnings in the activity log only, and what the caller receives is
    the same value as after a successful registration.  This holds for the
    manager that registers with a proof of ownership and for the one that
    registers public information only. *)
Theorem createLocalDID_despite_registrar {host : Host} {json : Json} {ethers : Ethers}
    (w : World) (keys : KeyPair) :
  generateKeyPair = Returned keys ->
  (forall key value, setItem_fault key value = None) ->
  let saved :=
    <[STORAGE_KEYS.WALLET_INITIALIZED := "true"]>
      (<[STORAGE_KEYS.DID := did keys]>
         (<[STORAGE_KEYS.ADDRESS := address keys]>
            (<[STORAGE_KEYS.PUBLIC_KEY := publicKey keys]>
               (<[STORAGE_KEYS.PRIVATE_KEY := privateKey keys]> (secureStore w))))) in
  (exists w',
      didManager.createLocalDID w
      = (Returned (mkLocalDID (did keys) (address keys) (publicKey keys)), w') /\
      secureStore w' = saved /\
      (forall e,
          fst (didManager.registerDIDOnBlockchain (did keys) (publicKey keys)
                 (address keys) (privateKey keys) w) = Thrown e ->
          exists rest,
            logs w' =
              mkLog "✅ DID created successfully" success
              :: mkLog "You can try registering again later" warning
              :: mkLog "⚠️ DID created locally but blockchain registration failed" warning
              :: rest)) /\
  (exists w',
      didManagerPlain.createLocalDID w
      = (Returned (mkLocalDID (did keys) (address keys) (publicKey keys)), w') /\
      secureStore w' = saved /\
      (forall e,
          fst (didManagerPlain.registerDIDOnBlockchain (did keys) (publicKey keys)
                 (address keys) w) = Thrown e ->
          exists rest,
            logs w' =
              mkLog "✅ DID created successfully" success
              :: mkLog "⚠️ DID created locally but blockchain registration failed" warning
              :: rest)).
Proof.
  intros Hkeys Hstore saved. split.
  - remember (didManager.createLocalDID w) as r eqn:Hr.
    unfold didManager.createLocalDID, try_catch in Hr.
    rewrite bind_log, bind_lift, Hkeys, bind_log in Hr.
    match type of Hr with
    | context [bind (saveWalletKeys ?a ?b ?c ?d) _ ?w0] =>
        destruct (saveWalletKeys_run a b c d w0 Hstore) as (w1 & Hsave & Hs1)
    end.
    rewrite (bind_run _ _ _ _ _ Hsave) in Hr.
    destruct (registration_step (did keys) (publicKey keys) (address keys)
                (privateKey keys) w1) as (w2 & Hstep & Hs2 & Hlog).
    rewrite (bind_run _ _ _ _ _ Hstep), bind_log in Hr.
    cbn [ret] in Hr. subst r.
    eexists. split; [reflexivity |]. split.
    + cbn [secureStore set_logs]. rewrite Hs2, Hs1. reflexivity.
    + intros e He.
      rewrite (registerDIDOnBlockchain_outcome _ _ _ _ w w1) in He.
      destruct (Hlog e He) as (rest & Hrest).
      cbn [logs set_logs]. rewrite Hrest. eexists. cbn. reflexivity.
  - remember (didManagerPlain.createLocalDID w) as r eqn:Hr.
    unfold didManagerPlain.createLocalDID, try_catch in Hr.
    rewrite bind_log, bind_lift, Hkeys, bind_log in Hr.
    match type of Hr with
    | context [bind (saveWalletKeys ?a ?b ?c ?d) _ ?w0] =>
        destruct (saveWalletKeys_run a b c d w0 Hstore) as (w1 & Hsave & Hs1)
    end.
    rewrite (bind_run _ _ _ _ _ Hsave) in Hr.
    destruct (registration_step_plain (did keys) (publicKey keys) (address keys) w1)
      as (w2 & Hstep & Hs2 & Hlog).
    rewrite (bind_run _ _ _ _ _ Hstep), bind_log in Hr.
    cbn [ret] in Hr. subst r.
    eexists. split; [reflexivity |]. split.
    + cbn [secureStore set_logs]. rewrite Hs2, Hs1. reflexivity.
    + intros e He.
      rewrite (registerDIDOnBlockchain_plain_outcome _ _ _ w w1) in He.
      destruct (Hlog e He) as (rest & Hrest).
      cbn [logs set_logs]. rewrite Hrest. eexists. cbn. reflexivity.
Qed.

Lemma createLocalDID_despite_registrar_witness :
  exists w',
    didManager.createLocalDID (host := Demo.host Demo.backend_down) (json := Demo.json)
      (ethers := Demo.ethers) Demo.empty_world
    = (Returned (mkLocalDID (did Demo.keys) (address Demo.keys) (publicKey Demo.keys)), w') /\
    secureStore w' !! STORAGE_KEYS.PRIVATE_KEY = Some Demo.key64.
Proof.
  destruct (createLocalDID_despite_registrar (host := Demo.host Demo.backend_down)
              (json := Demo.json) (ethers := Demo.ethers) Demo.empty_world Demo.keys)
    as [(w' & Hrun & Hsaved & _) _].
  - vm_compute. reflexivity.
  - intros key value. reflexivity.
  - exists w'. split; [exact Hrun |].
    rewrite Hsaved. vm_compute. reflexivity.
Defined.



(* ===================================================================== *)
(** * Further properties of the services                                   *)
(* ===================================================================== *)

(** ** utils/logger.js *)

Lemma firstn_app_firstn {A} (n : nat) (a b : list A) :
  firstn n (a ++ firstn n b) = firstn n (a ++ b).
Proof.
  rewrite !firstn_app, firstn_firstn.
  replace (Nat.min (n - length a) n) with (n - length a)%nat by lia.
  reflexivity.
Qed.

Lemma log_each_store entries w :
  secureStore (snd (log_each entries w)) = secureStore w.
Proof.
  revert w. induction entries as [|e entries IH]; intros w.
  - reflexivity.
  - cbn [log_each]. rewrite bind_log, IH. reflexivity.
Qed.

Lemma log_each_newest entries w :
  firstn 50 (logs (snd (log_each entries w)))
  = firstn 50 (rev entries ++ logs w)%list.
Proof.
  revert w. induction entries as [|e entries IH]; intros w.
  - reflexivity.
  - cbn [log_each]. rewrite bind_log, IH.
    cbn [logs set_logs rev]. destruct e as [m t]. cbn [log_message log_type].
    rewrite firstn_app_firstn, <- app_assoc. reflexivity.
Qed.

Lemma log_each_bounded entries w :
  entries <> [] -> (length (logs (snd (log_each entries w))) <= 50)%nat.
Proof.
  revert w. induction entries as [|e entries IH]; intros w Hne; [contradiction |].
  cbn [log_each]. rewrite bind_log.
  destruct entries as [|e' entries].
  - cbn [log_each ret snd logs set_logs]. rewrite length_firstn. lia.
  - apply IH. discriminate.
Qed.

(** X1.  The activity log is the fifty newest entries, newest first: after
    any run of [logger.log] calls the log holds the new entries in reverse
    order of logging, followed by the old ones, cut at fifty; so it never
    grows beyond fifty entries and drops only the oldest. *)
Theorem logger_keeps_fifty_newest (entries : list LogEntry) (w : World) :
  entries <> [] ->
  logs (snd (log_each entries w)) = firstn 50 (rev entries ++ logs w)%list /\
  (length (logs (snd (log_each entries w))) <= 50)%nat /\
  secureStore (snd (log_each entries w)) = secureStore w.
Proof.
  intros Hne.
  pose proof (log_each_bounded entries w Hne) as Hlen.
  split; [| split; [exact Hlen | apply log_each_store]].
  rewrite <- log_each_newest. symmetry. apply firstn_all2. exact Hlen.
Qed.

Lemma logger_keeps_fifty_newest_witness :
  logs (snd (log_each [mkLog "one" info; mkLog "two" error] Demo.empty_world))
  = [mkLog "two" error; mkLog "one" info].
Proof.
  apply (proj1 (logger_keeps_fifty_newest [mkLog "one" info; mkLog "two" error]
                  Demo.empty_world ltac:(discriminate))).
Defined.

(** ** services/secureStorage.js : the wallet entries *)

Section WalletEntries.
Context {host : Host} {json : Json} {ethers : Ethers} {didjwt : DidJwt}.

Lemma getWalletInfo_spec w :
  exists w',
    didManager.getWalletInfo w
    = (Returned (stored w STORAGE_KEYS.DID, stored w STORAGE_KEYS.ADDRESS,
                 stored w STORAGE_KEYS.PUBLIC_KEY), w') /\
    logs_apart w w'.
Proof.
  unfold didManager.getWalletInfo, getDID, getAddress, getPublicKey.
  destruct (getSecure_spec STORAGE_KEYS.DID w) as (w1 & H1 & F1).
  destruct (getSecure_spec STORAGE_KEYS.ADDRESS w1) as (w2 & H2 & F2).
  destruct (getSecure_spec STORAGE_KEYS.PUBLIC_KEY w2) as (w3 & H3 & F3).
  exists w3. split.
  - rewrite (bind_run _ _ _ _ _ H1), (bind_run _ _ _ _ _ H2), (bind_run _ _ _ _ _ H3).
    rewrite (stored_logs_apart _ _ _ (logs_apart_trans _ _ _ F1 F2)).
    rewrite (stored_logs_apart _ _ _ F1). reflexivity.
  - eapply logs_apart_trans; [| exact F3].
    eapply logs_apart_trans; eassumption.
Qed.

Lemma isWalletInitialized_spec w :
  exists w',
    isWalletInitialized w
    = (Returned (match stored w STORAGE_KEYS.WALLET_INITIALIZED with
                 | Some s => String.eqb s "true"
                 | None => false
                 end), w') /\
    logs_apart w w'.
Proof.
  unfold isWalletInitialized.
  destruct (getSecure_spec STORAGE_KEYS.WALLET_INITIALIZED w) as (w1 & H1 & F1).
  exists w1. split; [| exact F1].
  rewrite (bind_run _ _ _ _ _ H1). reflexivity.
Qed.
End WalletEntries.

Lemma with_wallet_lookup privateKey publicKey address did (store : gmap string string) :
  with_wallet privateKey publicKey address did store !! STORAGE_KEYS.PRIVATE_KEY
    = Some privateKey /\
  with_wallet privateKey publicKey address did store !! STORAGE_KEYS.PUBLIC_KEY
    = Some publicKey /\
  with_wallet privateKey publicKey address did store !! STORAGE_KEYS.ADDRESS
    = Some address /\
  with_wallet privateKey publicKey address did store !! STORAGE_KEYS.DID = Some did /\
  with_wallet privateKey publicKey address did store !! STORAGE_KEYS.WALLET_INITIALIZED
    = Some "true".
Proof.
  unfold with_wallet, STORAGE_KEYS.WALLET_INITIALIZED, STORAGE_KEYS.PRIVATE_KEY,
    STORAGE_KEYS.PUBLIC_KEY, STORAGE_KEYS.ADDRESS, STORAGE_KEYS.DID.
  repeat split; by simplify_map_eq.
Qed.

(** X2.  What [saveWalletKeys] writes is what the readers give back: on a
    store that takes the writes and serves the reads, after
    [saveWalletKeys(privateKey, publicKey, address, did)] the calls
    [getPrivateKey], [getWalletInfo] and [isWalletInitialized] return the
    private key, the triple { did, address, publicKey } and [true]. *)
Theorem saved_wallet_is_read_back {host : Host} {json : Json} {ethers : Ethers}
    (privateKey publicKey address did : string) (w : World) :
  (forall key value, setItem_fault key value = None) ->
  (forall key, getItem_fault key = None) ->
  exists w1,
    saveWalletKeys privateKey publicKey address did w = (Returned true, w1) /\
    fst (getPrivateKey w1) = Returned (Some privateKey) /\
    fst (didManager.getWalletInfo w1)
    = Returned (Some did, Some address, Some publicKey) /\
    fst (isWalletInitialized w1) = Returned true.
Proof.
  intros Hwrite Hread.
  destruct (saveWalletKeys_run privateKey publicKey address did w Hwrite)
    as (w1 & Hsave & Hstore).
  exists w1. split; [exact Hsave |].
  assert (Hstored : forall key, stored w1 key = secureStore w1 !! key).
  { intros key. unfold stored. rewrite Hread. reflexivity. }
  change (secureStore w1 = with_wallet privateKey publicKey address did (secureStore w))
    in Hstore.
  destruct (with_wallet_lookup privateKey publicKey address did (secureStore w))
    as (Lk & Lp & La & Ld & Lf).
  split; [| split].
  - destruct (getSecure_spec STORAGE_KEYS.PRIVATE_KEY w1) as (w2 & Hget & _).
    unfold getPrivateKey. rewrite Hget. cbn [fst].
    rewrite Hstored, Hstore, Lk. reflexivity.
  - destruct (getWalletInfo_spec w1) as (w2 & Hget & _).
    rewrite Hget. cbn [fst]. rewrite !Hstored, Hstore, Lp, La, Ld. reflexivity.
  - destruct (isWalletInitialized_spec w1) as (w2 & Hget & _).
    rewrite Hget. cbn [fst]. rewrite Hstored, Hstore, Lf. reflexivity.
Qed.

Lemma saved_wallet_is_read_back_witness :
  exists w1,
    saveWalletKeys (host := Demo.host Demo.backend_down)
      (privateKey Demo.keys) (publicKey Demo.keys) (address Demo.keys) (did Demo.keys)
      Demo.empty_world = (Returned true, w1) /\
    fst (didManager.getWalletInfo (host := Demo.host Demo.backend_down) w1)
    = Returned (Some (did Demo.keys), Some (address Demo.keys), Some (publicKey Demo.keys)).
Proof.
  destruct (saved_wallet_is_read_back (host := Demo.host Demo.backend_down)
              (json := Demo.json) (ethers := Demo.ethers)
              (privateKey Demo.keys) (publicKey Demo.keys) (address Demo.keys)
              (did Demo.keys) Demo.empty_world)
    as (w1 & Hsave & _ & Hinfo & _).
  - intros key value. reflexivity.
  - intros key. reflexivity.
  - exists w1. split; [exact Hsave | exact Hinfo].
Defined.

(** X3.  The initialized flag is written last: [saveWalletKeys] either
    returns [true] with all five entries written, or throws the store's
    error having left the flag [ssi_wallet_initialized] exactly as it was
    (entries written before the failing one stay written). *)
Theorem wallet_flag_written_last {host : Host}
    (privateKey publicKey address did : string) (w : World) :
  (exists w',
      saveWalletKeys privateKey publicKey address did w = (Returned true, w') /\
      secureStore w' = with_wallet privateKey publicKey address did (secureStore w)) \/
  (exists e w',
      saveWalletKeys privateKey publicKey address did w = (Thrown e, w') /\
      secureStore w' !! STORAGE_KEYS.WALLET_INITIALIZED
      = secureStore w !! STORAGE_KEYS.WALLET_INITIALIZED /\
      (setItem_fault STORAGE_KEYS.PRIVATE_KEY privateKey = None ->
       secureStore w' !! STORAGE_KEYS.PRIVATE_KEY = Some privateKey)).
Proof.
  unfold saveWalletKeys, saveSecure, setItemAsync, try_catch, bind, throw, modify,
    logger.log, ret.
  destruct (setItem_fault STORAGE_KEYS.PRIVATE_KEY privateKey) as [e|] eqn:H1;
    cbn [snd fst].
  { right. eexists _, _. split; [reflexivity |]. split; [reflexivity |]. discriminate. }
  destruct (setItem_fault STORAGE_KEYS.PUBLIC_KEY publicKey) as [e|]; cbn [snd fst].
  { right. eexists _, _. split; [reflexivity |]. cbn [secureStore set_store set_logs].
    unfold STORAGE_KEYS.WALLET_INITIALIZED, STORAGE_KEYS.PRIVATE_KEY.
    split; [| intros _]; by simplify_map_eq. }
  destruct (setItem_fault STORAGE_KEYS.ADDRESS address) as [e|]; cbn [snd fst].
  { right. eexists _, _. split; [reflexivity |]. cbn [secureStore set_store set_logs].
    unfold STORAGE_KEYS.WALLET_INITIALIZED, STORAGE_KEYS.PRIVATE_KEY,
      STORAGE_KEYS.PUBLIC_KEY.
    split; [| intros _]; by simplify_map_eq. }
  destruct (setItem_fault STORAGE_KEYS.DID did) as [e|]; cbn [snd fst].
  { right. eexists _, _. split; [reflexivity |]. cbn [secureStore set_store set_logs].
    unfold STORAGE_KEYS.WALLET_INITIALIZED, STORAGE_KEYS.PRIVATE_KEY,
      STORAGE_KEYS.PUBLIC_KEY, STORAGE_KEYS.ADDRESS.
    split; [| intros _]; by simplify_map_eq. }
  destruct (setItem_fault STORAGE_KEYS.WALLET_INITIALIZED "true") as [e|]; cbn [snd fst].
  { right. eexists _, _. split; [reflexivity |]. cbn [secureStore set_store set_logs].
    unfold STORAGE_KEYS.WALLET_INITIALIZED, STORAGE_KEYS.PRIVATE_KEY,
      STORAGE_KEYS.PUBLIC_KEY, STORAGE_KEYS.ADDRESS, STORAGE_KEYS.DID.
    split; [| intros _]; by simplify_map_eq. }
  left. eexists. split; reflexivity.
Qed.

(** ** services/secureStorage.js : clearing the wallet *)

Section Clearing.
Context {deletion : Deletion}.

(** [deleteSecure] never throws: it reports a failed removal as [false]. *)
Lemma deleteSecure_spec key w :
  exists w',
    deleteSecure key w
    = (Returned (match deleteItem_fault key with Some _ => false | None => true end), w') /\
    secureStore w' = match deleteItem_fault key with
                     | Some _ => secureStore w
                     | None => delete key (secureStore w)
                     end.
Proof.
  unfold deleteSecure, try_catch, bind, deleteItemAsync.
  destruct (deleteItem_fault key) as [e|]; eexists; split; reflexivity.
Qed.

(** After [deleteSecure] of each key of a list, a key is gone when it was in
    the list and its removal was not refused, and is as before otherwise. *)
Lemma delete_each_lookup keys w key :
  secureStore (snd (delete_each keys w)) !! key
  = if (existsb (String.eqb key) keys
        && match deleteItem_fault key with Some _ => false | None => true end)%bool
    then None
    else secureStore w !! key.
Proof.
  revert w. induction keys as [|k keys IH]; intros w.
  - reflexivity.
  - cbn [delete_each existsb].
    destruct (deleteSecure_spec k w) as (w1 & Hrun & Hstore).
    rewrite (bind_run _ _ _ _ _ Hrun), IH.
    destruct (String.eqb_spec key k) as [->|Hne]; cbn [orb andb].
    + destruct (deleteItem_fault k) as [e|]; rewrite Hstore.
      * rewrite andb_false_r. reflexivity.
      * rewrite andb_true_r. rewrite lookup_delete_eq.
        destruct (existsb (String.eqb k) keys); reflexivity.
    + assert (Hsame : secureStore w1 !! key = secureStore w !! key).
      { rewrite Hstore. destruct (deleteItem_fault k); [reflexivity |].
        apply lookup_delete_ne. congruence. }
      rewrite Hsame. reflexivity.
Qed.

Lemma clearWallet_as_delete_each w :
  exists w',
    clearWallet w = (Returned true, w') /\
    secureStore w' = secureStore (snd (delete_each wallet_keys w)).
Proof.
  unfold clearWallet, wallet_keys. cbn [delete_each].
  destruct (deleteSecure_spec STORAGE_KEYS.PRIVATE_KEY w) as (w1 & H1 & _).
  destruct (deleteSecure_spec STORAGE_KEYS.PUBLIC_KEY w1) as (w2 & H2 & _).
  destruct (deleteSecure_spec STORAGE_KEYS.ADDRESS w2) as (w3 & H3 & _).
  destruct (deleteSecure_spec STORAGE_KEYS.DID w3) as (w4 & H4 & _).
  destruct (deleteSecure_spec STORAGE_KEYS.CREDENTIALS w4) as (w5 & H5 & _).
  destruct (deleteSecure_spec STORAGE_KEYS.WALLET_INITIALIZED w5) as (w6 & H6 & _).
  destruct (deleteSecure_spec STORAGE_KEYS.BIOMETRIC_ENABLED w6) as (w7 & H7 & _).
  eexists. split.
  - apply try_catch_run.
    rewrite (bind_run _ _ _ _ _ H1), (bind_run _ _ _ _ _ H2), (bind_run _ _ _ _ _ H3),
      (bind_run _ _ _ _ _ H4), (bind_run _ _ _ _ _ H5), (bind_run _ _ _ _ _ H6),
      (bind_run _ _ _ _ _ H7).
    rewrite bind_log. reflexivity.
  - rewrite (bind_run _ _ _ _ _ H1), (bind_run _ _ _ _ _ H2), (bind_run _ _ _ _ _ H3),
      (bind_run _ _ _ _ _ H4), (bind_run _ _ _ _ _ H5), (bind_run _ _ _ _ _ H6),
      (bind_run _ _ _ _ _ H7).
    reflexivity.
Qed.
End Clearing.

(** X4.  [clearWallet] reports success whatever happens: it never throws and
    always returns [true].  Afterwards each of the seven wallet entries is
    gone, unless the store refused to remove it, in which case it is still
    there; every other entry of the store is untouched. *)
Theorem clearWallet_always_returns_true {deletion : Deletion} (w : World) :
  exists w',
    clearWallet w = (Returned true, w') /\
    forall key,
      secureStore w' !! key
      = if (existsb (String.eqb key) wallet_keys
            && match deleteItem_fault key with Some _ => false | None => true end)%bool
        then None
        else secureStore w !! key.
Proof.
  destruct (clearWallet_as_delete_each w) as (w' & Hrun & Hstore).
  exists w'. split; [exact Hrun |].
  intros key. rewrite Hstore. apply delete_each_lookup.
Qed.

(** X5.  A cleared wallet is gone for every reader: when the store removes
    what it is asked to, after [clearWallet] the device has no wallet
    ([isWalletInitialized] is [false]), [getWalletInfo] has no DID, address
    or public key, [getPrivateKey] has no key and [getCredentials] returns
    the empty list. *)
Theorem cleared_wallet_is_gone {host : Host} {json : Json} {ethers : Ethers}
    {deletion : Deletion} (w : World) :
  (forall key, deleteItem_fault key = None) ->
  exists w',
    clearWallet w = (Returned true, w') /\
    fst (isWalletInitialized w') = Returned false /\
    fst (didManager.getWalletInfo w') = Returned (None, None, None) /\
    fst (getPrivateKey w') = Returned None /\
    fst (getCredentials w') = Returned (JArr []).
Proof.
  intros Hdelete.
  destruct (clearWallet_as_delete_each w) as (w' & Hrun & Hstore).
  exists w'. split; [exact Hrun |].
  assert (Hgone : forall key, In key wallet_keys -> stored w' key = None).
  { intros key Hin. unfold stored.
    destruct (getItem_fault key); [reflexivity |].
    rewrite Hstore, delete_each_lookup, Hdelete.
    replace (existsb (String.eqb key) wallet_keys) with true; [reflexivity |].
    symmetry. apply existsb_exists. exists key. split; [exact Hin | apply String.eqb_refl]. }
  split; [| split; [| split]].
  - destruct (isWalletInitialized_spec w') as (w2 & Hget & _).
    rewrite Hget. cbn [fst]. rewrite Hgone; [reflexivity |].
    unfold wallet_keys. cbn. tauto.
  - destruct (getWalletInfo_spec w') as (w2 & Hget & _).
    rewrite Hget. cbn [fst].
    rewrite !Hgone; [reflexivity | | |]; unfold wallet_keys; cbn; tauto.
  - destruct (getSecure_spec STORAGE_KEYS.PRIVATE_KEY w') as (w2 & Hget & _).
    unfold getPrivateKey. rewrite Hget. cbn [fst].
    rewrite Hgone; [reflexivity |]. unfold wallet_keys. cbn. tauto.
  - destruct (getCredentials_spec w') as (w2 & Hget & _).
    rewrite Hget. cbn [fst]. unfold stored_credentials.
    rewrite Hgone; [reflexivity |]. unfold wallet_keys. cbn. tauto.
Qed.

Lemma cleared_wallet_is_gone_witness :
  exists w',
    clearWallet (deletion := DemoRest.deleting) Demo.wallet_world = (Returned true, w') /\
    fst (isWalletInitialized (host := Demo.host Demo.backend_down) w') = Returned false /\
    fst (getPrivateKey (host := Demo.host Demo.backend_down) w') = Returned None.
Proof.
  destruct (cleared_wallet_is_gone (host := Demo.host Demo.backend_down)
              (json := Demo.json) (ethers := Demo.ethers)
              (deletion := DemoRest.deleting) Demo.wallet_world)
    as (w' & Hrun & Hflag & _ & Hkey & _).
  - intros key. reflexivity.
  - exists w'. split; [exact Hrun |]. split; [exact Hflag | exact Hkey].
Defined.

(** ** services/secureStorage.js : the credential list *)

Lemma filter_credentials_spec credentialId items kept :
  filter_credentials credentialId items = Returned kept ->
  kept = other_ids credentialId items.
Proof.
  revert kept. induction items as [|c items IH]; intros kept; cbn [filter_credentials].
  - intros [= <-]. reflexivity.
  - unfold other_ids. cbn [List.filter].
    destruct (id_differs credentialId c) as [keep|e]; [| discriminate].
    destruct (filter_credentials credentialId items) as [rest|e]; [| discriminate].
    intros [= <-]. rewrite (IH rest eq_refl). reflexivity.
Qed.

Lemma filter_credentials_total credentialId items :
  Forall (fun c => c <> JNull /\ c <> JUndefined) items ->
  filter_credentials credentialId items = Returned (other_ids credentialId items).
Proof.
  induction 1 as [|c items [Hnull Hundef] _ IH]; [reflexivity |].
  cbn [filter_credentials]. unfold other_ids in *. cbn [List.filter]. rewrite IH.
  destruct c; cbn [id_differs]; try reflexivity; congruence.
Qed.

Lemma filter_credentials_null credentialId items :
  In JNull items -> exists e, filter_credentials credentialId items = Thrown e.
Proof.
  induction items as [|c items IH]; intros Hin; [contradiction |].
  cbn [filter_credentials].
  destruct (id_differs credentialId c) as [keep|e] eqn:Hc; [| eexists; reflexivity].
  destruct Hin as [-> | Hin]; [discriminate Hc |].
  destruct (IH Hin) as (e & ->). eexists; reflexivity.
Qed.

(** On the objects that credentials are, [filter] keeps exactly the ones
    with another id. *)
Lemma filter_credentials_by_id {didjwt : DidJwt} credentialId (held : list Credential) :
  filter_credentials credentialId (map credential_to_js held)
  = Returned (map credential_to_js
                (List.filter (fun c => negb (String.eqb (cred_id c) credentialId)) held)).
Proof.
  induction held as [|c held IH]; [reflexivity |].
  cbn [map filter_credentials List.filter]. rewrite IH.
  unfold credential_to_js at 1. cbn [id_differs get_property String.eqb Ascii.eqb Bool.eqb].
  destruct (negb (String.eqb (cred_id c) credentialId)); reflexivity.
Qed.

(** X6.  [deleteCredential] removes by id and nothing else: when the stored
    list is a list of credentials, the list written back holds exactly the
    credentials whose [id] is not the given text, in their old order.  When
    the stored list has a [null] item, the call throws and the store is left
    as it was. *)
Theorem deleteCredential_removes_by_id {host : Host} {json : Json} {didjwt : DidJwt}
    (credentialId : string) (w : World) :
  (forall (held : list Credential) (text : string),
      stored_credentials w = JArr (map credential_to_js held) ->
      JSON_stringify
        (JArr (map credential_to_js
                 (List.filter (fun c => negb (String.eqb (cred_id c) credentialId)) held)))
      = Some text ->
      setItem_fault STORAGE_KEYS.CREDENTIALS text = None ->
      exists w',
        deleteCredential credentialId w = (Returned true, w') /\
        secureStore w' = <[STORAGE_KEYS.CREDENTIALS := text]> (secureStore w)) /\
  (forall items : list Js,
      stored_credentials w = JArr items ->
      In JNull items ->
      exists e w',
        deleteCredential credentialId w = (Thrown e, w') /\
        secureStore w' = secureStore w).
Proof.
  destruct (getCredentials_spec w) as (w1 & Hget & [f ->]).
  split.
  - intros held text Hitems Htext Hok.
    destruct (saveCredentials_run _ text (set_logs f w) Htext Hok)
      as (w2 & Hsave & Hstore & _).
    eexists. split.
    + unfold deleteCredential. apply try_catch_run.
      rewrite (bind_run _ _ _ _ _ Hget), Hitems.
      rewrite bind_lift, filter_credentials_by_id.
      rewrite (bind_run _ _ _ _ _ Hsave), bind_log. reflexivity.
    + cbn [secureStore set_logs]. exact Hstore.
  - intros items Hitems Hnull.
    destruct (filter_credentials_null credentialId items Hnull) as (e & He).
    eexists e, _. split.
    + unfold deleteCredential, try_catch.
      rewrite (bind_run _ _ _ _ _ Hget), Hitems.
      rewrite bind_lift, He. rewrite bind_log. reflexivity.
    + reflexivity.
Qed.

Lemma deleteCredential_removes_by_id_witness :
  exists w',
    deleteCredential (host := Demo.host Demo.backend_down) (json := DemoRest.json_pair)
      "1700000001000" DemoRest.pair_world = (Returned true, w') /\
    secureStore w' !! STORAGE_KEYS.CREDENTIALS
    = Some (Demo.print
              (JArr [credential_to_js (didjwt := Demo.didjwt) DemoRest.b_credential])).
Proof.
  destruct (proj1 (deleteCredential_removes_by_id (host := Demo.host Demo.backend_down)
                     (json := DemoRest.json_pair) (didjwt := Demo.didjwt)
                     "1700000001000" DemoRest.pair_world)
              [Demo.a_credential; DemoRest.b_credential]
              (Demo.print
                 (JArr [credential_to_js (didjwt := Demo.didjwt) DemoRest.b_credential])))
    as (w' & Hrun & Hstore).
  - vm_compute. reflexivity.
  - vm_compute. reflexivity.
  - reflexivity.
  - exists w'. split; [exact Hrun |]. rewrite Hstore. apply lookup_insert_eq.
Defined.

(** X7.  A credential list that cannot be read is replaced, not repaired:
    when the stored text is not JSON, [addCredential] treats the list as
    empty and writes back a list holding the new credential only, so that
    what was stored before is lost. *)
Theorem addCredential_replaces_unreadable_list {host : Host} {json : Json}
    {didjwt : DidJwt} (credential : Credential) (old text : string) (e : JsError)
    (w : World) :
  stored w STORAGE_KEYS.CREDENTIALS = Some old ->
  truthy old = true ->
  JSON_parse old = Thrown e ->
  JSON_stringify
    (JArr [credential_to_js
             (mkCredential (Number_toString (Date_now_at (ticks w)))
                (cred_issuer credential) (cred_subject credential) (cred_data credential)
                (cred_jwt credential) (toISOString (Date_now_at (S (ticks w)))))])
    = Some text ->
  setItem_fault STORAGE_KEYS.CREDENTIALS text = None ->
  exists w',
    addCredential credential w = (Returned true, w') /\
    secureStore w' !! STORAGE_KEYS.CREDENTIALS = Some text.
Proof.
  intros Hold Htruthy Hparse Htext Hok.
  destruct (addCredential_run credential [] text w) as (w' & Hrun & Hstore & _).
  - unfold stored_credentials. rewrite Hold, Htruthy, Hparse. reflexivity.
  - exact Htext.
  - exact Hok.
  - exists w'. split; [exact Hrun |]. rewrite Hstore. apply lookup_insert_eq.
Qed.

Lemma addCredential_replaces_unreadable_list_witness :
  exists w',
    addCredential (host := Demo.host Demo.backend_down) (json := Demo.json)
      (didjwt := Demo.didjwt) Demo.a_credential Demo.garbled_world = (Returned true, w') /\
    secureStore Demo.garbled_world !! STORAGE_KEYS.CREDENTIALS = Some "[{" /\
    secureStore w' !! STORAGE_KEYS.CREDENTIALS
    = JSON_stringify (Json := Demo.json)
        (JArr [credential_to_js (didjwt := Demo.didjwt)
                 (mkCredential "1700000000000" (cred_issuer Demo.a_credential)
                    (cred_subject Demo.a_credential) (cred_data Demo.a_credential)
                    (cred_jwt Demo.a_credential) "T1700000001000")]).
Proof.
  pose proof (fun text e =>
                addCredential_replaces_unreadable_list
                  (host := Demo.host Demo.backend_down) (json := Demo.json)
                  (didjwt := Demo.didjwt) Demo.a_credential "[{" text e
                  Demo.garbled_world) as Hlost.
  edestruct Hlost as (w' & Hrun & Hstore).
  - vm_compute. reflexivity.
  - reflexivity.
  - reflexivity.
  - vm_compute. reflexivity.
  - reflexivity.
  - exists w'. split; [exact Hrun |]. split; [vm_compute; reflexivity |].
    rewrite Hstore. vm_compute. reflexivity.
Defined.

Lemma stored_credentials_after_write {host : Host} {json : Json}
    (w : World) (text : string) (items : list Js) :
  getItem_fault STORAGE_KEYS.CREDENTIALS = None ->
  secureStore w !! STORAGE_KEYS.CREDENTIALS = Some text ->
  truthy text = true ->
  JSON_parse text = Returned (JArr items) ->
  stored_credentials w = JArr items.
Proof.
  intros Hread Htext Htruthy Hparse.
  unfold stored_credentials, stored. rewrite Hread, Htext, Htruthy, Hparse. reflexivity.
Qed.

(** X8.  A credential added is listed, and listed last: when the store
    serves the read and [JSON.parse] reads back the text that
    [JSON.stringify] wrote, [getCredentials] after [addCredential] returns
    the earlier list followed by the new entry, which is the credential with
    the id and time stamp of the moment it was stored. *)
Theorem added_credential_is_listed_last {host : Host} {json : Json} {didjwt : DidJwt}
    (credential : Credential) (items : list Js) (text : string) (w : World) :
  let entry :=
    credential_to_js
      (mkCredential (Number_toString (Date_now_at (ticks w)))
         (cred_issuer credential) (cred_subject credential) (cred_data credential)
         (cred_jwt credential) (toISOString (Date_now_at (S (ticks w))))) in
  stored_credentials w = JArr items ->
  JSON_stringify (JArr (items ++ [entry])) = Some text ->
  setItem_fault STORAGE_KEYS.CREDENTIALS text = None ->
  getItem_fault STORAGE_KEYS.CREDENTIALS = None ->
  truthy text = true ->
  JSON_parse text = Returned (JArr (items ++ [entry])) ->
  exists w1,
    addCredential credential w = (Returned true, w1) /\
    fst (getCredentials w1) = Returned (JArr (items ++ [entry])).
Proof.
  intros entry Hitems Htext Hok Hread Htruthy Hparse.
  destruct (addCredential_run credential items text w Hitems Htext Hok)
    as (w1 & Hrun & Hstore & _).
  exists w1. split; [exact Hrun |].
  destruct (getCredentials_spec w1) as (w2 & Hget & _).
  rewrite Hget. cbn [fst]. f_equal.
  apply (stored_credentials_after_write w1 text); try assumption.
  rewrite Hstore. apply lookup_insert_eq.
Qed.

Lemma added_credential_is_listed_last_witness :
  exists w1,
    addCredential (host := Demo.host Demo.backend_down) (json := DemoRest.json_listing)
      (didjwt := Demo.didjwt) Demo.a_credential Demo.listed_world = (Returned true, w1) /\
    fst (getCredentials (host := Demo.host Demo.backend_down)
           (json := DemoRest.json_listing) w1)
    = Returned (JArr [DemoRest.stored_entry]).
Proof.
  pose proof (fun text =>
                added_credential_is_listed_last
                  (host := Demo.host Demo.backend_down) (json := DemoRest.json_listing)
                  (didjwt := Demo.didjwt) Demo.a_credential [] text Demo.listed_world)
    as Hlisted.
  edestruct Hlisted as (w1 & Hrun & Hget).
  - vm_compute. reflexivity.
  - vm_compute. reflexivity.
  - reflexivity.
  - reflexivity.
  - reflexivity.
  - vm_compute. reflexivity.
  - exists w1. split; [exact Hrun | exact Hget].
Defined.

Lemma other_ids_keeps_all credentialId items :
  Forall (fun c => id_differs credentialId c = Returned true) items ->
  other_ids credentialId items = items.
Proof.
  induction 1 as [|c items Hc _ IH]; [reflexivity |].
  unfold other_ids in *. cbn [List.filter]. rewrite Hc, IH. reflexivity.
Qed.

Lemma other_ids_app credentialId a b :
  other_ids credentialId (a ++ b) = (other_ids credentialId a ++ other_ids credentialId b)%list.
Proof. unfold other_ids. apply List.filter_app. Qed.

(** X9.  Deleting what was just added restores the list: when no earlier
    item carries the id under which [addCredential] stored the credential,
    [deleteCredential] with that id writes back exactly the earlier list,
    and [getCredentials] then returns it. *)
Theorem deleteCredential_undoes_addCredential {host : Host} {json : Json}
    {didjwt : DidJwt} (credential : Credential) (items : list Js)
    (text before : string) (w : World) :
  let id := Number_toString (Date_now_at (ticks w)) in
  let entry :=
    credential_to_js
      (mkCredential id (cred_issuer credential) (cred_subject credential)
         (cred_data credential) (cred_jwt credential)
         (toISOString (Date_now_at (S (ticks w))))) in
  stored_credentials w = JArr items ->
  Forall (fun c => id_differs id c = Returned true) items ->
  getItem_fault STORAGE_KEYS.CREDENTIALS = None ->
  (forall value, setItem_fault STORAGE_KEYS.CREDENTIALS value = None) ->
  JSON_stringify (JArr (items ++ [entry])) = Some text ->
  truthy text = true ->
  JSON_parse text = Returned (JArr (items ++ [entry])) ->
  JSON_stringify (JArr items) = Some before ->
  truthy before = true ->
  JSON_parse before = Returned (JArr items) ->
  exists w1 w2,
    addCredential credential w = (Returned true, w1) /\
    deleteCredential id w1 = (Returned true, w2) /\
    secureStore w2 !! STORAGE_KEYS.CREDENTIALS = Some before /\
    fst (getCredentials w2) = Returned (JArr items).
Proof.
  intros id entry Hitems Hothers Hread Hwrite Htext Htruthy Hparse Hbefore Tbefore Pbefore.
  destruct (addCredential_run credential items text w Hitems Htext (Hwrite _))
    as (w1 & Hadd & Hstore1 & _).
  assert (Hlist1 : stored_credentials w1 = JArr (items ++ [entry])).
  { apply (stored_credentials_after_write w1 text); try assumption.
    rewrite Hstore1. apply lookup_insert_eq. }
  assert (Hkept : filter_credentials id (items ++ [entry]) = Returned items).
  { rewrite filter_credentials_total.
    - rewrite other_ids_app, (other_ids_keeps_all _ _ Hothers).
      unfold other_ids, entry, credential_to_js. cbn [List.filter id_differs get_property].
      cbn [String.eqb Ascii.eqb Bool.eqb cred_id]. rewrite String.eqb_refl.
      cbn [negb]. rewrite app_nil_r. reflexivity.
    - apply Forall_app. split.
      + eapply Forall_impl; [exact Hothers |].
        intros c Hc. destruct c; cbn [id_differs] in Hc; split; congruence.
      + constructor; [| constructor]. unfold entry, credential_to_js. split; discriminate. }
  destruct (getCredentials_spec w1) as (w1' & Hget1 & [f ->]).
  destruct (saveCredentials_run items before (set_logs f w1) Hbefore (Hwrite _))
    as (w2 & Hsave & Hstore2 & _).
  eexists w1, _. split; [exact Hadd |]. split; [| split].
  - unfold deleteCredential. apply try_catch_run.
    rewrite (bind_run _ _ _ _ _ Hget1), Hlist1.
    rewrite bind_lift, Hkept.
    rewrite (bind_run _ _ _ _ _ Hsave), bind_log. reflexivity.
  - cbn [secureStore set_logs]. rewrite Hstore2. apply lookup_insert_eq.
  - match goal with |- fst (getCredentials ?w2') = _ =>
      destruct (getCredentials_spec w2') as (w3 & Hget2 & _);
      rewrite Hget2; cbn [fst]; f_equal;
      apply (stored_credentials_after_write w2' before); try assumption
    end.
    cbn [secureStore set_logs]. rewrite Hstore2. apply lookup_insert_eq.
Qed.

Lemma deleteCredential_undoes_addCredential_witness :
  exists w1 w2,
    addCredential (host := Demo.host Demo.backend_down) (json := DemoRest.json_listing)
      (didjwt := Demo.didjwt) Demo.a_credential Demo.listed_world = (Returned true, w1) /\
    deleteCredential (host := Demo.host Demo.backend_down) (json := DemoRest.json_listing)
      "1700000000000" w1 = (Returned true, w2) /\
    fst (getCredentials (host := Demo.host Demo.backend_down)
           (json := DemoRest.json_listing) w2) = Returned (JArr []).
Proof.
  pose proof (fun text before =>
                deleteCredential_undoes_addCredential
                  (host := Demo.host Demo.backend_down) (json := DemoRest.json_listing)
                  (didjwt := Demo.didjwt) Demo.a_credential [] text before
                  Demo.listed_world) as Hundo.
  edestruct Hundo as (w1 & w2 & Hadd & Hdelete & _ & Hget).
  - vm_compute. reflexivity.
  - constructor.
  - reflexivity.
  - intros value. reflexivity.
  - vm_compute. reflexivity.
  - reflexivity.
  - vm_compute. reflexivity.
  - vm_compute. reflexivity.
  - reflexivity.
  - reflexivity.
  - exists w1, w2. split; [exact Hadd |]. split; [exact Hdelete | exact Hget].
Defined.

(** X10.  The stored copy of an issued credential is stamped anew: the
    credential that [issueCredentialLocally] returns carries an id and a
    time stamp read from the clock, and the copy appended to the stored list
    carries those of two readings taken later still; the issuer, subject,
    claims and token are the same in both. *)
Theorem issued_credential_is_restamped_in_store
    {host : Host} {json : Json} {didjwt : DidJwt}
    (credentialData : Claims) (w : World) (did privateKey : string) (items : list Js) :
  stored w STORAGE_KEYS.DID = Some did -> truthy did = true ->
  stored w STORAGE_KEYS.PRIVATE_KEY = Some privateKey -> truthy privateKey = true ->
  length (Buffer_from_hex (slice 2 privateKey)) = 32%nat ->
  (forall now, validateJwtCredentialPayload (vcPayload did now credentialData) = None) ->
  stored_credentials w = JArr items ->
  (forall l, exists text, JSON_stringify (JArr l) = Some text) ->
  (forall text, setItem_fault STORAGE_KEYS.CREDENTIALS text = None) ->
  exists c w' text (n1 n2 n3 n4 : nat),
    issueCredentialLocally credentialData w = (Returned c, w') /\
    (n1 < n2)%nat /\ (n2 < n3)%nat /\ (n3 < n4)%nat /\
    cred_id c = Number_toString (Date_now_at n1) /\
    cred_addedAt c = toISOString (Date_now_at n2) /\
    JSON_stringify
      (JArr (items ++ [credential_to_js
         (mkCredential (Number_toString (Date_now_at n3))
            (cred_issuer c) (cred_subject c) (cred_data c) (cred_jwt c)
            (toISOString (Date_now_at n4)))])) = Some text /\
    secureStore w' !! STORAGE_KEYS.CREDENTIALS = Some text.
Proof.
  intros Hdid Tdid Hkey Tkey Hlen Hvalid Hitems Hjson Hstore.
  destruct (issueCredentialLocally_run credentialData w did privateKey items
              Hdid Tdid Hkey Tkey Hlen (Hvalid _) Hitems Hjson Hstore)
    as (c & w' & entry & text & Hrun & Hdata & Hsubject & _ & Hentry & Htext & Hs).
  destruct (issueCredentialLocally_returned _ _ _ _ Hrun)
    as (did' & _ & _ & Hdid' & _ & _ & _ & _ & _ & Hc).
  assert (did' = did) as -> by congruence.
  exists c, w', text, (1 + ticks w)%nat, (2 + ticks w)%nat, (3 + ticks w)%nat,
    (4 + ticks w)%nat.
  split; [exact Hrun |].
  split; [lia |]. split; [lia |]. split; [lia |].
  rewrite Hc. cbn [cred_id cred_addedAt cred_issuer cred_subject cred_data cred_jwt].
  split; [reflexivity |]. split; [reflexivity |].
  split.
  - rewrite <- Htext, Hentry. reflexivity.
  - rewrite Hs. apply lookup_insert_eq.
Qed.

Lemma issued_credential_is_restamped_in_store_witness :
  exists c w' text (n1 n2 n3 n4 : nat),
    issueCredentialLocally (host := Demo.host Demo.backend_down) (json := Demo.json)
      (didjwt := Demo.didjwt) Demo.role_admin Demo.wallet_world = (Returned c, w') /\
    (n1 < n3)%nat /\ (n2 < n4)%nat /\
    cred_id c = Number_toString (Date_now_at (Host := Demo.host Demo.backend_down) n1) /\
    cred_addedAt c = toISOString (Host := Demo.host Demo.backend_down)
                       (Date_now_at (Host := Demo.host Demo.backend_down) n2) /\
    JSON_stringify (Json := Demo.json)
      (JArr [credential_to_js (didjwt := Demo.didjwt)
               (mkCredential
                  (Number_toString (Date_now_at (Host := Demo.host Demo.backend_down) n3))
                  (cred_issuer c) (cred_subject c) (cred_data c) (cred_jwt c)
                  (toISOString (Host := Demo.host Demo.backend_down)
                     (Date_now_at (Host := Demo.host Demo.backend_down) n4)))])
    = Some text /\
    secureStore w' !! STORAGE_KEYS.CREDENTIALS = Some text.
Proof.
  destruct (issued_credential_is_restamped_in_store (host := Demo.host Demo.backend_down)
              (json := Demo.json) (didjwt := Demo.didjwt) Demo.role_admin
              Demo.wallet_world "did:ethr:VoltusWave:0xabc01" Demo.key64 [])
    as (c & w' & text & n1 & n2 & n3 & n4 & Hrun & H12 & H23 & H34 & Hid & Hat
        & Htext & Hstore).
  - vm_compute. reflexivity.
  - reflexivity.
  - vm_compute. reflexivity.
  - reflexivity.
  - vm_compute. reflexivity.
  - intros now. reflexivity.
  - vm_compute. reflexivity.
  - intros l. eexists. reflexivity.
  - intros text. reflexivity.
  - exists c, w', text, n1, n2, n3, n4. split; [exact Hrun |].
    split; [lia |]. split; [lia |].
    split; [exact Hid |]. split; [exact Hat |].
    split; [exact Htext | exact Hstore].
Defined.

(** ** utils/crypto.js : DIDs and key texts *)

Lemma append_length (a b : string) :
  String.length (a +:+ b) = (String.length a + String.length b)%nat.
Proof.
  induction a as [|c a IH]; [reflexivity |].
  change (String c a +:+ b) with (String c (a +:+ b)).
  cbn [String.length]. rewrite IH. reflexivity.
Qed.

Lemma append_inv_head (p a b : string) : p +:+ a = p +:+ b -> a = b.
Proof.
  induction p as [|c p IH]; [auto |].
  change (String c p +:+ a) with (String c (p +:+ a)).
  change (String c p +:+ b) with (String c (p +:+ b)).
  intros [= H]. auto.
Qed.

Lemma toLowerCase_length s : String.length (toLowerCase s) = String.length s.
Proof.
  induction s as [|c s IH]; cbn [toLowerCase String.length];
    [reflexivity | rewrite IH; reflexivity].
Qed.

Lemma lower_ascii_ascii_only (c : ascii) :
  Nat.ltb (nat_of_ascii c) 128 = true ->
  Nat.ltb (nat_of_ascii (lower_ascii c)) 128 = true.
Proof.
  destruct c as [[] [] [] [] [] [] [] []]; vm_compute; intros H;
    reflexivity || exact H.
Qed.

Lemma toLowerCase_ascii_only (s : string) :
  ascii_only s = true -> ascii_only (toLowerCase s) = true.
Proof.
  induction s as [|c s IH]; cbn [ascii_only toLowerCase]; [reflexivity |].
  intros H. apply andb_true_iff in H as [Hc Hs].
  apply andb_true_iff. split; [apply lower_ascii_ascii_only; exact Hc | apply IH; exact Hs].
Qed.

(** X11.  A DID stands for one address, up to the case of its letters: for
    addresses of ASCII characters, two of them have the same [createDID]
    exactly when they are equal after lower-casing, and the DID is twenty
    characters longer than the address. *)
Theorem createDID_one_per_address (a b : string) :
  ascii_only a = true -> ascii_only b = true ->
  (createDID a = createDID b <-> toLowerCase a = toLowerCase b) /\
  String.length (createDID a) = (20 + String.length a)%nat /\
  ascii_only (createDID a) = true.
Proof.
  intros Ha Hb. split; [| split].
  - unfold createDID. split.
    + apply append_inv_head.
    + intros ->. reflexivity.
  - unfold createDID. rewrite append_length, toLowerCase_length. reflexivity.
  - unfold createDID.
    change ("did:ethr:VoltusWave:" +:+ toLowerCase a)
      with (String.append "did:ethr:VoltusWave:" (toLowerCase a)).
    cbn [String.append ascii_only]. cbn. apply toLowerCase_ascii_only. exact Ha.
Qed.

Lemma createDID_one_per_address_witness :
  createDID "0xAbC01" = createDID "0xABC01" /\
  String.length (createDID "0xAbC01") = 27%nat.
Proof.
  destruct (createDID_one_per_address "0xAbC01" "0xABC01" eq_refl eq_refl)
    as (Hsame & Hlength & _).
  split; [apply Hsame; reflexivity | exact Hlength].
Defined.

Lemma byte_hex_facts (b : byte) :
  let hi := hex_digit (N.div (Byte.to_N b) 16) in
  let lo := hex_digit (N.modulo (Byte.to_N b) 16) in
  hex_to_bytes (String hi (String lo EmptyString)) = Some [b] /\
  padStart 2 "0"%char (toString16 b) = String hi (String lo EmptyString) /\
  is_upper hi = false /\ is_upper lo = false.
Proof. destruct b; vm_compute; repeat split; reflexivity. Qed.

Lemma hex_to_bytes_cons (b : byte) (rest : string) (bytes : list byte) :
  hex_to_bytes rest = Some bytes ->
  hex_to_bytes (String (hex_digit (N.div (Byte.to_N b) 16))
                  (String (hex_digit (N.modulo (Byte.to_N b) 16)) rest))
  = Some (b :: bytes).
Proof.
  intros Hrest.
  destruct (byte_hex_facts b) as (Hone & _).
  cbn [hex_to_bytes] in *. rewrite Hrest.
  destruct (hex_value (hex_digit (N.div (Byte.to_N b) 16))) as [h|]; [| discriminate].
  destruct (hex_value (hex_digit (N.modulo (Byte.to_N b) 16))) as [l|]; [| discriminate].
  destruct (Byte.of_N (h * 16 + l)) as [b'|]; [| discriminate].
  injection Hone as ->. reflexivity.
Qed.

(** X12.  The key text is a faithful spelling of the entropy: the
    hexadecimal text that [generateKeyPair] makes of the random bytes has two
    characters per byte, none of them upper-case, and reads back to the very
    same bytes, so that different bytes never give the same private key
    text. *)
Theorem key_text_reads_back (bytes bytes' : list byte) :
  hex_to_bytes (Buffer_toString_hex bytes) = Some bytes /\
  String.length (Buffer_toString_hex bytes) = (2 * length bytes)%nat /\
  has_upper (Buffer_toString_hex bytes) = false /\
  (Buffer_toString_hex bytes = Buffer_toString_hex bytes' -> bytes = bytes').
Proof.
  assert (Hback : forall l, hex_to_bytes (Buffer_toString_hex l) = Some l).
  { induction l as [|b l IH]; [reflexivity |].
    cbn [Buffer_toString_hex]. apply hex_to_bytes_cons. exact IH. }
  split; [apply Hback |]. split; [| split].
  - induction bytes as [|b bytes IH]; [reflexivity |].
    cbn [Buffer_toString_hex String.length length]. rewrite IH. lia.
  - induction bytes as [|b bytes IH]; [reflexivity |].
    cbn [Buffer_toString_hex has_upper].
    destruct (byte_hex_facts b) as (_ & _ & Hhi & Hlo).
    cbv zeta in Hhi, Hlo. rewrite Hhi, Hlo, IH. reflexivity.
  - intros Hsame.
    pose proof (Hback bytes) as H1. rewrite Hsame, Hback in H1. congruence.
Qed.

Lemma bytes_to_hex_as_Buffer (bytes : list byte) :
  bytes_to_hex bytes = Buffer_toString_hex bytes.
Proof.
  unfold bytes_to_hex, join_all.
  induction bytes as [|b bytes IH]; [reflexivity |].
  cbn [map fold_right Buffer_toString_hex].
  destruct (byte_hex_facts b) as (_ & Hpad & _).
  cbv zeta in Hpad. rewrite Hpad, IH. reflexivity.
Qed.

(** X13.  The two key generators agree: the hand-written hexadecimal text of
    [generateSimpleKeyPair] is the one [Buffer] gives, so for the same random
    bytes it builds the same wallet as [generateKeyPair]; it returns that
    text as the private key, and wherever [generateKeyPair] returns, the
    address and the DID of the two are the same, the DID being [createDID]
    of the address. *)
Theorem generateSimpleKeyPair_agrees {host : Host} {ethers : Ethers}
    (bytes : list byte) (wallet : Wallet) :
  getRandomBytesAsync 32 = Returned bytes ->
  new_Wallet ("0x" +:+ Buffer_toString_hex bytes) = Returned wallet ->
  generateSimpleKeyPair
  = Returned (mkSimpleKeyPair ("0x" +:+ Buffer_toString_hex bytes)
                (wallet_address wallet) (createDID (wallet_address wallet))) /\
  (forall keys, generateKeyPair = Returned keys ->
                address keys = wallet_address wallet /\
                did keys = createDID (wallet_address wallet)).
Proof.
  intros Hbytes Hwallet. split.
  - unfold generateSimpleKeyPair. rewrite Hbytes, bytes_to_hex_as_Buffer, Hwallet.
    reflexivity.
  - intros keys. unfold generateKeyPair. rewrite Hbytes, Hwallet.
    destruct (if truthy_opt (wallet_signingKey_publicKey wallet) then _ else _)
      as [pk|]; [| discriminate].
    intros [= <-]. split; reflexivity.
Qed.

Lemma generateSimpleKeyPair_agrees_witness :
  generateSimpleKeyPair (host := Demo.host Demo.backend_down) (ethers := Demo.ethers)
  = Returned (mkSimpleKeyPair (privateKey Demo.keys) (address Demo.keys) (did Demo.keys)).
Proof.
  apply (proj1 (generateSimpleKeyPair_agrees (host := Demo.host Demo.backend_down)
                  (ethers := Demo.ethers) (repeat "001"%byte 32)
                  (mkWallet Demo.key64 (Some (publicKey Demo.keys)) None
                     (address Demo.keys)) eq_refl eq_refl)).
Defined.

(** X14.  A wallet made from a seed or restored from a mnemonic gets a DID
    of another form: [createWalletFromSeed] and [restoreFromMnemonic] write
    "did:ethr:" followed by the lower-cased address, without the network
    name, so the DID they return is never the [createDID] of the same
    address, the one [generateKeyPair] gives. *)
Theorem restored_did_lacks_network {json : Json} {ethers : Ethers}
    {derivation : KeyDerivation} (r : RestoredKeys) :
  (exists seed, createWalletFromSeed seed = Returned r) \/
  (exists mnemonic, restoreFromMnemonic mnemonic = Returned r) ->
  restored_did r = "did:ethr:" +:+ toLowerCase (restored_address r) /\
  restored_did r <> createDID (restored_address r).
Proof.
  intros Hmade.
  assert (Hr : exists wallet, r = restored_keys wallet).
  { destruct Hmade as [(seed & Hseed) | (mnemonic & Hphrase)].
    - unfold createWalletFromSeed in Hseed.
      destruct (hashData seed) as [seedHash|]; [| discriminate].
      destruct (new_Wallet _) as [wallet|]; [| discriminate].
      injection Hseed as <-. exists wallet. reflexivity.
    - unfold restoreFromMnemonic in Hphrase.
      destruct (Wallet_fromPhrase mnemonic) as [wallet|]; [| discriminate].
      injection Hphrase as <-. exists wallet. reflexivity. }
  destruct Hr as (wallet & ->). cbn [restored_keys restored_did restored_address].
  split; [reflexivity |].
  unfold createDID.
  change "did:ethr:VoltusWave:" with ("did:ethr:" +:+ "VoltusWave:").
  intros Heq.
  change (("did:ethr:" +:+ "VoltusWave:") +:+ toLowerCase (wallet_address wallet))
    with ("did:ethr:" +:+ ("VoltusWave:" +:+ toLowerCase (wallet_address wallet))) in Heq.
  apply append_inv_head in Heq.
  apply (f_equal String.length) in Heq. rewrite append_length in Heq.
  cbn [String.length] in Heq. lia.
Qed.

Lemma restored_did_lacks_network_witness :
  exists r,
    restoreFromMnemonic (derivation := DemoRest.derivation) "abandon" = Returned r /\
    restored_did r = "did:ethr:0xdefabandon" /\
    restored_did r <> createDID (restored_address r).
Proof.
  eexists. split; [reflexivity |].
  apply (restored_did_lacks_network (json := Demo.json) (ethers := Demo.ethers)
           (derivation := DemoRest.derivation)).
  right. exists "abandon". reflexivity.
Defined.

(** ** utils/crypto.js and services/didManager.js : signatures *)

(** X15.  A signature verifies for its signer and for nobody else: given
    that ethers recovers the signer's address, [verifySignature] of a
    message, the signature [signData] made of it and an address is [true]
    exactly when that address equals the key's address up to the case of its
    letters; and an address may be given in any case. *)
Theorem verifySignature_only_for_signer {json : Json} {ethers : Ethers}
    (privateKey address signature : string) (data : Js) (text : string) :
  ethers_recovers ->
  getAddressFromPrivateKey privateKey = Returned address ->
  dataString data = Some text ->
  signData privateKey data = Returned signature ->
  forall claimed,
    (verifySignature data signature claimed = true
     <-> toLowerCase claimed = toLowerCase address) /\
    verifySignature data signature (toLowerCase claimed)
    = verifySignature data signature claimed.
Proof.
  intros Hlib Haddr Htext Hsig claimed.
  unfold getAddressFromPrivateKey in Haddr.
  destruct (new_Wallet privateKey) as [wallet|e] eqn:Hwallet; [| discriminate].
  injection Haddr as <-.
  unfold signData in Hsig. rewrite Hwallet, Htext in Hsig. injection Hsig as <-.
  unfold verifySignature. rewrite Htext.
  rewrite (Hlib privateKey wallet (toUtf8Bytes text) Hwallet).
  split.
  - rewrite String.eqb_eq. split; congruence.
  - rewrite toLowerCase_idempotent. reflexivity.
Qed.

Lemma verifySignature_only_for_signer_witness :
  verifySignature (json := Demo.json) (ethers := Demo.ethers)
    (JStr "hello") (address Demo.keys) "0xdef" = true
  <-> toLowerCase "0xdef" = toLowerCase (address Demo.keys).
Proof.
  apply (verifySignature_only_for_signer (json := Demo.json) (ethers := Demo.ethers)
           Demo.key64 (address Demo.keys) (address Demo.keys) (JStr "hello") "hello").
  - intros privateKey wallet bytes _. reflexivity.
  - reflexivity.
  - reflexivity.
  - reflexivity.
Defined.

(** X16.  [signLocally] signs with the stored key or not at all: without a
    private key in the store (absent, empty, or unreadable) it throws "No
    private key found" and leaves the store as it was; with one, it returns
    the signature of [signData] under that key, which verifies against the
    key's address given that ethers recovers the signer's address. *)
Theorem signLocally_uses_stored_key {host : Host} {json : Json} {ethers : Ethers}
    (data : Js) (w : World) :
  (truthy_opt (stored w STORAGE_KEYS.PRIVATE_KEY) = false ->
   exists w',
     didManager.signLocally data w = (Thrown (Error "No private key found"), w') /\
     secureStore w' = secureStore w) /\
  (forall privateKey address text,
      stored w STORAGE_KEYS.PRIVATE_KEY = Some privateKey ->
      truthy privateKey = true ->
      ethers_recovers ->
      getAddressFromPrivateKey privateKey = Returned address ->
      dataString data = Some text ->
      exists signature w',
        didManager.signLocally data w = (Returned signature, w') /\
        signData privateKey data = Returned signature /\
        verifySignature data signature address = true).
Proof.
  destruct (getSecure_spec STORAGE_KEYS.PRIVATE_KEY w) as (w1 & Hget & [f ->]).
  split.
  - intros Hnone. eexists. split.
    + unfold didManager.signLocally, try_catch, getPrivateKey.
      rewrite (bind_run _ _ _ _ _ Hget), Hnone. cbn [negb].
      unfold throw at 1. rewrite bind_log. reflexivity.
    + reflexivity.
  - intros privateKey address text Hkey Tkey Hlib Haddr Htext.
    unfold getAddressFromPrivateKey in Haddr.
    destruct (new_Wallet privateKey) as [wallet|e] eqn:Hwallet; [| discriminate].
    injection Haddr as <-.
    exists (signMessage wallet (toUtf8Bytes text)). eexists.
    assert (Hsig : signData privateKey data
                   = Returned (signMessage wallet (toUtf8Bytes text))).
    { unfold signData. rewrite Hwallet, Htext. reflexivity. }
    split; [| split; [exact Hsig |]].
    + unfold didManager.signLocally, getPrivateKey. apply try_catch_run.
      rewrite (bind_run _ _ _ _ _ Hget), Hkey.
      cbn [truthy_opt default from_option id]. rewrite Tkey. cbn [negb].
      rewrite bind_lift, Hsig, bind_log. reflexivity.
    + unfold verifySignature. rewrite Htext.
      rewrite (Hlib privateKey wallet (toUtf8Bytes text) Hwallet).
      apply String.eqb_refl.
Qed.

Lemma signLocally_uses_stored_key_witness :
  (exists w',
      didManager.signLocally (host := Demo.host Demo.backend_down) (json := Demo.json)
        (ethers := Demo.ethers) (JStr "hello") Demo.empty_world
      = (Thrown (Error "No private key found"), w')) /\
  (exists signature w',
      didManager.signLocally (host := Demo.host Demo.backend_down) (json := Demo.json)
        (ethers := Demo.ethers) (JStr "hello") Demo.wallet_world
      = (Returned signature, w') /\
      verifySignature (json := Demo.json) (ethers := Demo.ethers)
        (JStr "hello") signature (address Demo.keys) = true).
Proof.
  split.
  - destruct (proj1 (signLocally_uses_stored_key (host := Demo.host Demo.backend_down)
                       (json := Demo.json) (ethers := Demo.ethers)
                       (JStr "hello") Demo.empty_world) eq_refl) as (w' & Hrun & _).
    exists w'. exact Hrun.
  - destruct (proj2 (signLocally_uses_stored_key (host := Demo.host Demo.backend_down)
                       (json := Demo.json) (ethers := Demo.ethers)
                       (JStr "hello") Demo.wallet_world)
                Demo.key64 (address Demo.keys) "hello")
      as (signature & w' & Hrun & _ & Hverify).
    + vm_compute. reflexivity.
    + reflexivity.
    + intros privateKey wallet bytes _. reflexivity.
    + reflexivity.
    + reflexivity.
    + exists signature, w'. split; [exact Hrun | exact Hverify].
Defined.

(** ** services/didManager.js : when creating the DID fails *)

Section CreationFailures.
Context {host : Host} {json : Json} {ethers : Ethers}.

(** A refused write among the five makes [saveWalletKeys] throw; nothing is
    posted meanwhile. *)
Lemma saveWalletKeys_refused privateKey publicKey address did w :
  setItem_fault STORAGE_KEYS.PRIVATE_KEY privateKey <> None \/
  setItem_fault STORAGE_KEYS.PUBLIC_KEY publicKey <> None \/
  setItem_fault STORAGE_KEYS.ADDRESS address <> None \/
  setItem_fault STORAGE_KEYS.DID did <> None \/
  setItem_fault STORAGE_KEYS.WALLET_INITIALIZED "true" <> None ->
  exists e w',
    saveWalletKeys privateKey publicKey address did w = (Thrown e, w') /\
    sent w' = sent w.
Proof.
  intros Hrefused.
  unfold saveWalletKeys, saveSecure, setItemAsync, try_catch, bind, throw, modify,
    logger.log, ret.
  destruct (setItem_fault STORAGE_KEYS.PRIVATE_KEY privateKey) as [e|];
    [eexists _, _; split; reflexivity |].
  destruct (setItem_fault STORAGE_KEYS.PUBLIC_KEY publicKey) as [e|];
    [eexists _, _; split; reflexivity |].
  destruct (setItem_fault STORAGE_KEYS.ADDRESS address) as [e|];
    [eexists _, _; split; reflexivity |].
  destruct (setItem_fault STORAGE_KEYS.DID did) as [e|];
    [eexists _, _; split; reflexivity |].
  destruct (setItem_fault STORAGE_KEYS.WALLET_INITIALIZED "true") as [e|];
    [eexists _, _; split; reflexivity |].
  exfalso. intuition congruence.
Qed.
End CreationFailures.

(** X17.  [createLocalDID] goes to the registrar only with the keys safely
    stored: when key generation throws, the error is passed on, nothing is
    stored and nothing is posted; when the store refuses one of the five
    wallet entries, the call throws and nothing is posted either. *)
Theorem createLocalDID_posts_only_after_saving {host : Host} {json : Json}
    {ethers : Ethers} (w : World) :
  (forall e, generateKeyPair = Thrown e ->
     exists w',
       didManager.createLocalDID w = (Thrown e, w') /\
       secureStore w' = secureStore w /\ sent w' = sent w) /\
  (forall keys, generateKeyPair = Returned keys ->
     setItem_fault STORAGE_KEYS.PRIVATE_KEY (privateKey keys) <> None \/
     setItem_fault STORAGE_KEYS.PUBLIC_KEY (publicKey keys) <> None \/
     setItem_fault STORAGE_KEYS.ADDRESS (address keys) <> None \/
     setItem_fault STORAGE_KEYS.DID (did keys) <> None \/
     setItem_fault STORAGE_KEYS.WALLET_INITIALIZED "true" <> None ->
     exists e w',
       didManager.createLocalDID w = (Thrown e, w') /\ sent w' = sent w).
Proof.
  split.
  - intros e Hgen. eexists. split; [| split].
    + unfold didManager.createLocalDID, try_catch.
      rewrite bind_log, bind_lift, Hgen. rewrite bind_log. reflexivity.
    + reflexivity.
    + reflexivity.
  - intros keys Hgen Hrefused.
    remember (didManager.createLocalDID w) as r eqn:Hr.
    unfold didManager.createLocalDID, try_catch in Hr.
    rewrite bind_log, bind_lift, Hgen, bind_log in Hr.
    match type of Hr with
    | context [bind (saveWalletKeys ?a ?b ?c ?d) ?k ?w0] =>
        destruct (saveWalletKeys_refused a b c d w0 Hrefused) as (e & w1 & Hsave & Hsent);
        replace (bind (saveWalletKeys a b c d) k w0) with (@Thrown LocalDID e, w1) in Hr
          by (unfold bind; rewrite Hsave; reflexivity)
    end.
    rewrite bind_log in Hr. unfold throw in Hr. subst r.
    eexists _, _. split; [reflexivity |].
    cbn [sent set_logs]. exact Hsent.
Qed.

Lemma createLocalDID_posts_only_after_saving_witness :
  (exists w',
      didManager.createLocalDID (host := DemoRest.host_no_entropy) (json := Demo.json)
        (ethers := Demo.ethers) Demo.empty_world = (Thrown (Error "No entropy"), w') /\
      sent w' = []) /\
  (exists e w',
      didManager.createLocalDID (host := DemoRest.host_no_did) (json := Demo.json)
        (ethers := Demo.ethers) Demo.empty_world = (Thrown e, w') /\
      sent w' = []).
Proof.
  split.
  - destruct (proj1 (createLocalDID_posts_only_after_saving
                       (host := DemoRest.host_no_entropy) (json := Demo.json)
                       (ethers := Demo.ethers) Demo.empty_world)
                (Error "No entropy") eq_refl) as (w' & Hrun & _ & Hsent).
    exists w'. split; [exact Hrun | exact Hsent].
  - destruct (proj2 (createLocalDID_posts_only_after_saving
                       (host := DemoRest.host_no_did) (json := Demo.json)
                       (ethers := Demo.ethers) Demo.empty_world)
                Demo.keys eq_refl) as (e & w' & Hrun & Hsent).
    + right. right. right. left. discriminate.
    + exists e, w'. split; [exact Hrun | exact Hsent].
Defined.

(** ** services/vcService.js : what the two services leave alone *)

Section ServiceFrames.
Context {host : Host} {json : Json} {didjwt : DidJwt}.

Lemma set_logs_twice g f w : set_logs g (set_logs f w) = set_logs (fun l => g (f l)) w.
Proof. reflexivity. Qed.

Lemma createPresentationLocally_frame credentials challenge w :
  exists f, snd (createPresentationLocally credentials challenge w) = set_logs f w.
Proof.
  remember (createPresentationLocally credentials challenge w) as r eqn:Hr.
  unfold createPresentationLocally, try_catch in Hr.
  open_wallet Hr w w1 Hw1. destruct Hw1 as [f ->].
  destruct (negb (truthy_opt (stored w STORAGE_KEYS.DID))
            || negb (truthy_opt (stored w STORAGE_KEYS.PRIVATE_KEY)))%bool.
  { unfold throw in Hr. rewrite bind_log in Hr. subst r.
    cbn [snd]. rewrite set_logs_twice. eexists. reflexivity. }
  rewrite bind_log, bind_lift in Hr.
  destruct (ES256KSigner _ false) as [signer|e].
  2:{ rewrite bind_log in Hr. unfold throw in Hr. subst r.
      cbn [snd]. rewrite !set_logs_twice. eexists. reflexivity. }
  rewrite bind_lift in Hr.
  destruct (createVerifiablePresentationJwt _ _) as [vpJwt|e].
  2:{ rewrite bind_log in Hr. unfold throw in Hr. subst r.
      cbn [snd]. rewrite !set_logs_twice. eexists. reflexivity. }
  rewrite bind_log in Hr. subst r.
  cbn [snd ret]. rewrite !set_logs_twice. eexists. reflexivity.
Qed.
End ServiceFrames.

(** X18.  Building a presentation changes nothing on the device but the
    activity log: whatever the credentials, the challenge and the outcome,
    [createPresentationLocally] leaves the store as it was, reads no clock
    and posts nothing, and it puts nothing on the screen or the clipboard. *)
Theorem createPresentationLocally_only_logs {host : Host} {json : Json} {didjwt : DidJwt}
    (credentials : list Credential) (challenge : option string) (w : World) :
  let w' := snd (createPresentationLocally credentials challenge w) in
  secureStore w' = secureStore w /\ ticks w' = ticks w /\ sent w' = sent w /\
  alerts w' = alerts w /\ clipboard w' = clipboard w.
Proof.
  destruct (createPresentationLocally_frame credentials challenge w) as [f Hf].
  cbv zeta. rewrite Hf. repeat split; reflexivity.
Qed.

(** X19.  Without a wallet nothing is signed: when the DID or the private
    key is missing from the store (absent, empty or unreadable), both
    [issueCredentialLocally] and [createPresentationLocally] throw "No
    wallet found", and the store and the clock are left as they were. *)
Theorem no_wallet_nothing_signed {host : Host} {json : Json} {didjwt : DidJwt}
    (w : World) :
  truthy_opt (stored w STORAGE_KEYS.DID) = false \/
  truthy_opt (stored w STORAGE_KEYS.PRIVATE_KEY) = false ->
  (forall credentialData, exists w',
      issueCredentialLocally credentialData w = (Thrown (Error "No wallet found"), w') /\
      secureStore w' = secureStore w /\ ticks w' = ticks w) /\
  (forall credentials challenge, exists w',
      createPresentationLocally credentials challenge w
      = (Thrown (Error "No wallet found"), w') /\
      secureStore w' = secureStore w /\ ticks w' = ticks w).
Proof.
  intros Hmissing.
  assert (Hguard : (negb (truthy_opt (stored w STORAGE_KEYS.DID))
                    || negb (truthy_opt (stored w STORAGE_KEYS.PRIVATE_KEY)))%bool = true).
  { destruct Hmissing as [-> | ->]; [reflexivity | apply orb_true_r]. }
  split.
  - intros credentialData.
    remember (issueCredentialLocally credentialData w) as r eqn:Hr.
    unfold issueCredentialLocally, try_catch in Hr.
    open_wallet Hr w w1 Hw1. destruct Hw1 as [f ->].
    rewrite Hguard in Hr. unfold throw in Hr. rewrite bind_log in Hr. subst r.
    eexists. split; [reflexivity |]. split; reflexivity.
  - intros credentials challenge.
    remember (createPresentationLocally credentials challenge w) as r eqn:Hr.
    unfold createPresentationLocally, try_catch in Hr.
    open_wallet Hr w w1 Hw1. destruct Hw1 as [f ->].
    rewrite Hguard in Hr. unfold throw in Hr. rewrite bind_log in Hr. subst r.
    eexists. split; [reflexivity |]. split; reflexivity.
Qed.

Lemma no_wallet_nothing_signed_witness :
  exists w',
    issueCredentialLocally (host := Demo.host Demo.backend_down) (json := Demo.json)
      (didjwt := Demo.didjwt) Demo.role_admin Demo.empty_world
    = (Thrown (Error "No wallet found"), w') /\
    secureStore w' = secureStore Demo.empty_world.
Proof.
  destruct (proj1 (no_wallet_nothing_signed (host := Demo.host Demo.backend_down)
                     (json := Demo.json) (didjwt := Demo.didjwt) Demo.empty_world
                     (or_introl eq_refl)) Demo.role_admin) as (w' & Hrun & Hstore & _).
  exists w'. split; [exact Hrun | exact Hstore].
Defined.

(** X20.  A credential that could not be signed is not stored: on a device
    with a wallet, when the key is not of 32 bytes [issueCredentialLocally]
    throws the signer's bad_key error without reading the clock, and when
    the library's schema check rejects the payload it throws that rejection;
    in both cases the store is left as it was. *)
Theorem unsigned_credential_is_not_stored {host : Host} {json : Json} {didjwt : DidJwt}
    (credentialData : Claims) (w : World) (did privateKey : string) :
  stored w STORAGE_KEYS.DID = Some did -> truthy did = true ->
  stored w STORAGE_KEYS.PRIVATE_KEY = Some privateKey -> truthy privateKey = true ->
  (length (Buffer_from_hex (slice 2 privateKey)) <> 32%nat ->
   exists w',
     issueCredentialLocally credentialData w
     = (Thrown (Error ("bad_key: Invalid private key format. Expecting 32 bytes, but got "
                       +:+ Number_toString
                             (Z.of_nat (length (Buffer_from_hex (slice 2 privateKey)))))),
        w') /\
     secureStore w' = secureStore w /\ ticks w' = ticks w) /\
  (forall e,
      length (Buffer_from_hex (slice 2 privateKey)) = 32%nat ->
      validateJwtCredentialPayload
        (vcPayload did (Date_now_at (ticks w)) credentialData) = Some e ->
      exists w',
        issueCredentialLocally credentialData w = (Thrown e, w') /\
        secureStore w' = secureStore w).
Proof.
  intros Hdid Tdid Hkey Tkey.
  split.
  - intros Hlen.
    remember (issueCredentialLocally credentialData w) as r eqn:Hr.
    unfold issueCredentialLocally, try_catch in Hr.
    open_wallet Hr w w1 Hw1. destruct Hw1 as [f ->].
    rewrite Hdid, Hkey in Hr. cbn [truthy_opt default from_option id] in Hr.
    rewrite Tdid, Tkey in Hr. cbn [negb orb] in Hr.
    rewrite bind_log, bind_lift in Hr.
    unfold ES256KSigner in Hr at 1.
    apply Nat.eqb_neq in Hlen. rewrite Hlen in Hr.
    rewrite bind_log in Hr. unfold throw in Hr. subst r.
    eexists. split; [reflexivity |]. split; reflexivity.
  - intros e Hlen Hreject.
    remember (issueCredentialLocally credentialData w) as r eqn:Hr.
    unfold issueCredentialLocally, try_catch in Hr.
    open_wallet Hr w w1 Hw1. destruct Hw1 as [f ->].
    rewrite Hdid, Hkey in Hr. cbn [truthy_opt default from_option id] in Hr.
    rewrite Tdid, Tkey in Hr. cbn [negb orb] in Hr.
    rewrite bind_log, bind_lift in Hr.
    unfold ES256KSigner in Hr at 1. rewrite Hlen in Hr. cbn [Nat.eqb] in Hr.
    rewrite bind_Date_now, bind_lift in Hr. cbn [ticks set_logs] in Hr.
    unfold createVerifiableCredentialJwt in Hr at 1. rewrite Hreject in Hr.
    rewrite bind_log in Hr. unfold throw in Hr. subst r.
    eexists. split; [reflexivity |]. reflexivity.
Qed.

Lemma unsigned_credential_is_not_stored_witness :
  exists w',
    issueCredentialLocally (host := Demo.host Demo.backend_down) (json := Demo.json)
      (didjwt := Demo.didjwt) Demo.role_admin DemoRest.short_key_world
    = (Thrown (Error "bad_key: Invalid private key format. Expecting 32 bytes, but got 1"),
       w') /\
    secureStore w' = secureStore DemoRest.short_key_world.
Proof.
  destruct (proj1 (unsigned_credential_is_not_stored (host := Demo.host Demo.backend_down)
                     (json := Demo.json) (didjwt := Demo.didjwt) Demo.role_admin
                     DemoRest.short_key_world "did:ethr:VoltusWave:0xabc01" "0x01"
                     ltac:(vm_compute; reflexivity) eq_refl
                     ltac:(vm_compute; reflexivity) eq_refl))
    as (w' & Hrun & Hstore & _).
  - vm_compute. discriminate.
  - exists w'. split; [exact Hrun | exact Hstore].
Defined.

(** ** services/didManager.js : the registration check *)

(** X21.  [checkDIDRegistration] never throws and never touches the store:
    when the backend answers, it returns the backend's [registered] and
    [blockNumber] with no error; when the request fails, it returns
    [{ registered: false, error }] with the failure's message. *)
Theorem checkDIDRegistration_never_throws {host : Host} {json : Json}
    {registry : Registry} (address : string) (w : World) :
  exists status w',
    checkDIDRegistration address w = (Returned status, w') /\
    secureStore w' = secureStore w /\
    status = match backend_get ("/check-registration/" +:+ address) with
             | Returned response =>
                 mkStatus (registered (check_data response))
                   (check_blockNumber (check_data response)) None
             | Thrown e => mkStatus false None (Some (message e))
             end.
Proof.
  unfold checkDIDRegistration, try_catch, apiClient_get, bind, logger.log, modify,
    throw, ret.
  destruct (backend_get ("/check-registration/" +:+ address)) as [response|e].
  - destruct (registered (check_data response));
      eexists _, _; repeat split; reflexivity.
  - destruct (shape e); eexists _, _; repeat split; reflexivity.
Qed.

(** ** The home screen *)

Lemma createLocalDID_returns {host : Host} {json : Json} {ethers : Ethers}
    (w : World) (keys : KeyPair) :
  generateKeyPair = Returned keys ->
  (forall key value, setItem_fault key value = None) ->
  exists w',
    didManager.createLocalDID w
    = (Returned (mkLocalDID (did keys) (address keys) (publicKey keys)), w') /\
    alerts w' = alerts w.
Proof.
  intros Hkeys Hstore.
  remember (didManager.createLocalDID w) as r eqn:Hr.
  unfold didManager.createLocalDID, saveWalletKeys, saveSecure, setItemAsync,
    didManager.registerDIDOnBlockchain, apiClient_post,
    try_catch, bind, lift, modify, logger.log, ret, throw in Hr.
  rewrite Hkeys, !Hstore in Hr. cbv beta iota zeta in Hr.
  destruct (signData (privateKey keys) _) as [signature|e].
  - destruct (backend _) as [response|e].
    + subst r. eexists. split; reflexivity.
    + destruct (shape e); subst r; eexists; split; reflexivity.
  - subst r. eexists. split; reflexivity.
Qed.

(** X22.  The home screen announces a registration it has not checked: when
    the key pair is generated and the store takes the keys, [createDID]
    shows "Identity Created" with the DID and the words "Registered on
    blockchain!" and marks the wallet as present, whatever the registrar
    did; when key generation fails it shows "Failed to create DID. Please
    try again." and leaves the wallet state as it was.  In both cases it
    ends with the creating flag off and the current log on the screen. *)
Theorem home_createDID_announces_registration {host : Host} {json : Json}
    {ethers : Ethers} (s : HomeScreen) (w : World) :
  (forall keys,
      generateKeyPair = Returned keys ->
      (forall key value, setItem_fault key value = None) ->
      exists w',
        home_createDID s w
        = (Returned (mkHomeScreen true
                       (Some (mkWalletInfo (Some (did keys)) (Some (address keys))
                                (Some (publicKey keys))))
                       false (logs w')), w') /\
        alerts w'
        = mkAlert "✅ Identity Created"
            ("Your DID:" +:+ nl +:+ did keys +:+ nl +:+ nl +:+ "Registered on blockchain!")
          :: alerts w) /\
  (forall e,
      generateKeyPair = Thrown e ->
      exists w',
        home_createDID s w
        = (Returned (mkHomeScreen (home_hasWallet s) (home_walletInfo s) false (logs w')),
           w') /\
        alerts w' = mkAlert "Error" "Failed to create DID. Please try again." :: alerts w).
Proof.
  split.
  - intros keys Hkeys Hstore.
    destruct (createLocalDID_returns w keys Hkeys Hstore) as (w1 & Hrun & Halerts).
    unfold home_createDID, try_catch.
    unfold bind at 1. unfold bind at 1. rewrite Hrun.
    unfold Alert_alert, getLogs, bind, modify, ret. cbn [fst snd].
    eexists. split; [reflexivity |].
    cbn [alerts set_alerts local_did]. rewrite Halerts. reflexivity.
  - intros e Hgen.
    unfold home_createDID, try_catch.
    unfold bind at 1. unfold bind at 1.
    assert (Hrun : exists w1, didManager.createLocalDID w = (Thrown e, w1)
                              /\ alerts w1 = alerts w).
    { unfold didManager.createLocalDID, try_catch.
      rewrite bind_log, bind_lift, Hgen, bind_log. eexists. split; reflexivity. }
    destruct Hrun as (w1 & Hrun & Halerts). rewrite Hrun.
    unfold Alert_alert, getLogs, bind, modify, ret. cbn [fst snd].
    eexists. split; [reflexivity |].
    cbn [alerts set_alerts]. rewrite Halerts. reflexivity.
Qed.

Lemma home_createDID_announces_registration_witness :
  exists s' w',
    home_createDID (host := Demo.host Demo.backend_down) (json := Demo.json)
      (ethers := Demo.ethers) (mkHomeScreen false None false []) Demo.empty_world
    = (Returned s', w') /\
    home_hasWallet s' = true /\
    alerts w'
    = [mkAlert "✅ Identity Created"
         ("Your DID:" +:+ nl +:+ did Demo.keys +:+ nl +:+ nl +:+ "Registered on blockchain!")].
Proof.
  destruct (proj1 (home_createDID_announces_registration
                     (host := Demo.host Demo.backend_down) (json := Demo.json)
                     (ethers := Demo.ethers) (mkHomeScreen false None false [])
                     Demo.empty_world) Demo.keys eq_refl)
    as (w' & Hrun & Halerts).
  - intros key value. reflexivity.
  - eexists _, w'. split; [exact Hrun |]. split; [reflexivity | exact Halerts].
Defined.

(** ** The issue screen's form *)

Lemma filter_indexed_In {A} (keep : A -> nat -> bool) i (items : list A) x :
  In x (filter_indexed keep i items) -> In x items.
Proof.
  revert i. induction items as [|y items IH]; intros i; cbn [filter_indexed]; [auto |].
  destruct (keep y i); cbn [In]; intros H.
  - destruct H as [-> | H]; [left; reflexivity | right; eauto].
  - right. eauto.
Qed.

Lemma filter_indexed_past {A} (target from : nat) (items : list A) :
  (target < from)%nat ->
  filter_indexed (fun _ i => negb (Nat.eqb i target)) from items = items.
Proof.
  revert from. induction items as [|y items IH]; intros from Hlt;
    cbn [filter_indexed]; [reflexivity |].
  replace (Nat.eqb from target) with false by (symmetry; apply Nat.eqb_neq; lia).
  cbn [negb]. f_equal. apply IH. lia.
Qed.

Lemma filter_indexed_drop {A} (index from : nat) (items : list A) :
  filter_indexed (fun _ i => negb (Nat.eqb i (from + index))) from items
  = (firstn index items ++ skipn (S index) items)%list.
Proof.
  revert index from. induction items as [|x items IH]; intros index from.
  - destruct index; reflexivity.
  - cbn [filter_indexed]. destruct index as [|index].
    + rewrite Nat.add_0_r, Nat.eqb_refl. cbn [negb firstn skipn app].
      apply filter_indexed_past. lia.
    + replace (Nat.eqb from (from + S index)) with false
        by (symmetry; apply Nat.eqb_neq; lia).
      cbn [negb firstn skipn app]. f_equal.
      replace (from + S index)%nat with (S from + index)%nat by lia.
      apply IH.
Qed.

(** X23.  Every claim on the form has a key and a value, and stays so:
    [addClaim] adds nothing and keeps the input fields when the key or the
    value is empty, and otherwise appends the claim at the end and clears the
    fields; after [addClaim], [removeClaim], [resetForm] and [loadTemplate]
    no claim on the form has an empty key or an empty value. *)
Theorem form_stays_filled (s : IssueScreen) :
  form_filled s ->
  (forall claimKey claimValue,
      form_filled (fst (fst (addClaim claimKey claimValue s))) /\
      (truthy claimKey = false \/ truthy claimValue = false ->
       addClaim claimKey claimValue s = (s, claimKey, claimValue)) /\
      (truthy claimKey = true -> truthy claimValue = true ->
       additionalClaims (fst (fst (addClaim claimKey claimValue s)))
       = (additionalClaims s ++ [mkClaim claimKey claimValue])%list /\
       snd (fst (addClaim claimKey claimValue s)) = "" /\
       snd (addClaim claimKey claimValue s) = "")) /\
  (forall index, form_filled (removeClaim index s)) /\
  form_filled (resetForm s) /\
  (forall template, form_filled (loadTemplate template s)).
Proof.
  intros Hfilled. split; [| split; [| split]].
  - intros claimKey claimValue. unfold addClaim.
    destruct (truthy claimKey) eqn:Hk, (truthy claimValue) eqn:Hv; cbn [andb fst snd].
    + split; [| split].
      * unfold form_filled in *. cbn [additionalClaims].
        apply Forall_app. split; [exact Hfilled |].
        constructor; [split; assumption | constructor].
      * intros [H | H]; discriminate H.
      * intros _ _. repeat split; reflexivity.
    + split; [exact Hfilled |]. split; [reflexivity | discriminate].
    + split; [exact Hfilled |]. split; [reflexivity | discriminate].
    + split; [exact Hfilled |]. split; [reflexivity | discriminate].
  - intros index. unfold form_filled, removeClaim in *. cbn [additionalClaims].
    apply List.Forall_forall. intros claim Hin.
    apply filter_indexed_In in Hin.
    rewrite List.Forall_forall in Hfilled. auto.
  - unfold form_filled, resetForm. cbn [additionalClaims]. constructor.
  - intros template. unfold form_filled, loadTemplate.
    destruct (String.eqb template "degree");
      [cbn [additionalClaims]; repeat constructor |].
    destruct (String.eqb template "id");
      [cbn [additionalClaims]; repeat constructor |].
    destruct (String.eqb template "license");
      [cbn [additionalClaims]; repeat constructor |].
    cbn [additionalClaims]. constructor.
Qed.

Lemma form_stays_filled_witness :
  additionalClaims
    (fst (fst (addClaim "role" "admin" (mkIssueScreen None false "" []))))
  = [mkClaim "role" "admin"].
Proof.
  destruct (form_stays_filled (mkIssueScreen None false "" [])
              ltac:(constructor)) as (Hadd & _).
  destruct (Hadd "role" "admin") as (_ & _ & Happend).
  destruct (Happend eq_refl eq_refl) as (Hclaims & _).
  exact Hclaims.
Defined.

(** X24.  [removeClaim(index)] takes out the claim at that position and no
    other: the claims before it and after it stay, in order; an index past
    the end of the list changes nothing. *)
Theorem removeClaim_takes_one_out (index : nat) (s : IssueScreen) :
  additionalClaims (removeClaim index s)
  = (firstn index (additionalClaims s) ++ skipn (S index) (additionalClaims s))%list /\
  ((index < length (additionalClaims s))%nat ->
   length (additionalClaims (removeClaim index s))
   = (length (additionalClaims s) - 1)%nat) /\
  ((length (additionalClaims s) <= index)%nat ->
   additionalClaims (removeClaim index s) = additionalClaims s) /\
  credentialType (removeClaim index s) = credentialType s.
Proof.
  assert (Hdrop : additionalClaims (removeClaim index s)
                  = (firstn index (additionalClaims s)
                     ++ skipn (S index) (additionalClaims s))%list).
  { unfold removeClaim. cbn [additionalClaims].
    apply (filter_indexed_drop index 0). }
  split; [exact Hdrop |]. split; [| split; [| reflexivity]].
  - intros Hlt. rewrite Hdrop, length_app, length_firstn, length_skipn. lia.
  - intros Hge. rewrite Hdrop.
    rewrite firstn_all2 by exact Hge. rewrite skipn_all2 by lia. apply app_nil_r.
Qed.

Lemma removeClaim_takes_one_out_witness :
  additionalClaims
    (removeClaim 5 (mkIssueScreen None false "" [mkClaim "role" "admin"]))
  = [mkClaim "role" "admin"].
Proof.
  apply (proj1 (proj2 (proj2 (removeClaim_takes_one_out 5
           (mkIssueScreen None false "" [mkClaim "role" "admin"]))))).
  cbn. lia.
Defined.

(** ** The verify screen's selection *)

Lemma includes_In ids id : includes ids id = true <-> In id ids.
Proof.
  unfold includes. rewrite List.existsb_exists. split.
  - intros (x & Hin & Heq). apply String.eqb_eq in Heq. subst x. exact Hin.
  - intros Hin. exists id. split; [exact Hin | apply String.eqb_refl].
Qed.

Lemma NoDup_snoc {A} (l : list A) (x : A) :
  List.NoDup l -> ~ In x l -> List.NoDup (l ++ [x]).
Proof.
  induction 1 as [|y l Hy Hl IH]; intros Hx; cbn [app].
  - constructor; [intros [] | constructor].
  - constructor.
    + rewrite List.in_app_iff. intros [H | [H | []]]; [exact (Hy H) |].
      apply Hx. left. symmetry. exact H.
    + apply IH. intros H. apply Hx. right. exact H.
Qed.

(** X25.  [toggleCredentialSelection(id)] flips the selection of that
    credential and of no other: afterwards the id is selected exactly when it
    was not before, every other id is selected exactly when it was before,
    and a selection without repeated ids stays without repeated ids. *)
Theorem toggleCredentialSelection_flips (credentialId : string) (selected : list string) :
  includes (toggleCredentialSelection credentialId selected) credentialId
  = negb (includes selected credentialId) /\
  (forall other, other <> credentialId ->
     includes (toggleCredentialSelection credentialId selected) other
     = includes selected other) /\
  (List.NoDup selected -> List.NoDup (toggleCredentialSelection credentialId selected)).
Proof.
  unfold toggleCredentialSelection.
  destruct (includes selected credentialId) eqn:Hin; cbn [negb].
  - split; [| split].
    + destruct (includes (List.filter _ selected) credentialId) eqn:H; [| reflexivity].
      apply includes_In, List.filter_In in H. destruct H as [_ H].
      rewrite String.eqb_refl in H. discriminate H.
    + intros other Hne. apply eq_true_iff_eq.
      rewrite !includes_In, List.filter_In. split; [tauto |].
      intros H. split; [exact H |].
      apply negb_true_iff, String.eqb_neq. exact Hne.
    + apply List.NoDup_filter.
  - split; [| split].
    + apply includes_In, List.in_or_app. right. left. reflexivity.
    + intros other Hne. apply eq_true_iff_eq.
      rewrite !includes_In, List.in_app_iff. cbn [In]. split; [| tauto].
      intros [H | [H | []]]; [exact H | congruence].
    + intros Hnodup. apply NoDup_snoc; [exact Hnodup |].
      intros H. apply includes_In in H. congruence.
Qed.

Lemma toggleCredentialSelection_flips_witness :
  List.NoDup (toggleCredentialSelection "2" ["1"; "2"; "3"]).
Proof.
  apply (proj2 (proj2 (toggleCredentialSelection_flips "2" ["1"; "2"; "3"]))).
  repeat constructor; cbn; intros H; repeat destruct H as [H | H];
    try discriminate H; exact H.
Defined.

Lemma filter_none {A} (f : A -> bool) (l : list A) :
  (forall x, In x l -> f x = false) -> List.filter f l = [].
Proof.
  induction l as [|x l IH]; intros H; cbn [List.filter]; [reflexivity |].
  rewrite (H x (or_introl eq_refl)). apply IH. intros y Hy. apply H. right. exact Hy.
Qed.

(** X26.  The verify screen counts the selected ids, not the credentials
    they stand for: when ids are selected but none of them is the id of a
    credential on the screen, [createPresentation] passes its check, has a
    presentation of no credential signed, copies it to the clipboard and
    announces "Presentation Created" with "Credentials: 0"; then the
    selection and the challenge are cleared. *)
Theorem stale_selection_presents_nothing {host : Host} {json : Json} {didjwt : DidJwt}
    (s : VerifyScreen) (w : World) (did privateKey : string) :
  let challengeToUse :=
    if truthy (trim (challenge s)) then Some (trim (challenge s)) else None in
  selectedCredentials s <> [] ->
  (forall c, In c (credentials s) -> includes (selectedCredentials s) (cred_id c) = false) ->
  has_did (verify_walletInfo s) = true ->
  stored w STORAGE_KEYS.DID = Some did -> truthy did = true ->
  stored w STORAGE_KEYS.PRIVATE_KEY = Some privateKey -> truthy privateKey = true ->
  length (Buffer_from_hex (slice 2 privateKey)) = 32%nat ->
  validateJwtPresentationPayload (vpPayload [] challengeToUse) = None ->
  exists t w',
    createPresentation s w
    = (Returned (mkVerifyScreen (credentials s) [] (verify_walletInfo s) "" false), w') /\
    verifiableCredential (vp (jwt_payload t)) = [] /\
    clipboard w' = Some (compact_vp t) /\
    alerts w'
    = mkAlert "Presentation Created"
        ("VP JWT created and copied to clipboard!" +:+ nl +:+ nl +:+ "Credentials: 0"
         +:+ match challengeToUse with
             | Some c => nl +:+ "Challenge: " +:+ c
             | None => nl +:+ "No challenge used"
             end) :: alerts w.
Proof.
  intros challengeToUse Hsome Hstale Hinfo Hdid Tdid Hkey Tkey Hlen Hvalid.
  destruct (createPresentationLocally_run [] challengeToUse w did privateKey
              Hdid Tdid Hkey Tkey Hlen Hvalid) as (t & w1 & Hrun & Hpayload & _).
  destruct (createPresentationLocally_frame [] challengeToUse w) as [f Hf].
  rewrite Hrun in Hf. cbn [snd] in Hf. subst w1.
  exists t.
  remember (createPresentation s w) as r eqn:Hr.
  unfold createPresentation in Hr.
  assert (Hcount : Nat.eqb (length (selectedCredentials s)) 0 = false).
  { destruct (selectedCredentials s); [congruence | reflexivity]. }
  rewrite Hcount, Hinfo in Hr. cbn [negb] in Hr.
  rewrite (filter_none _ _ Hstale) in Hr.
  fold challengeToUse in Hr.
  unfold try_catch, bind in Hr. rewrite Hrun in Hr.
  unfold modify, Alert_alert, logger.log, ret in Hr. cbv beta iota zeta in Hr.
  subst r. eexists. split; [reflexivity |].
  split; [rewrite Hpayload; reflexivity |].
  split; reflexivity.
Qed.

Lemma stale_selection_presents_nothing_witness :
  exists t w',
    createPresentation (host := Demo.host Demo.backend_down) (json := Demo.json)
      (didjwt := Demo.didjwt)
      (mkVerifyScreen [Demo.a_credential] ["1600000000000"]
         (Some (mkWalletInfo (Some "did:ethr:VoltusWave:0xabc01") None None)) "" false)
      Demo.wallet_world
    = (Returned
         (mkVerifyScreen [Demo.a_credential] []
            (Some (mkWalletInfo (Some "did:ethr:VoltusWave:0xabc01") None None)) "" false),
       w') /\
    verifiableCredential (vp (jwt_payload t)) = [] /\
    clipboard w' = Some (compact_vp (didjwt := Demo.didjwt) t).
Proof.
  destruct (stale_selection_presents_nothing
              (host := Demo.host Demo.backend_down) (json := Demo.json)
              (didjwt := Demo.didjwt)
              (mkVerifyScreen [Demo.a_credential] ["1600000000000"]
                 (Some (mkWalletInfo (Some "did:ethr:VoltusWave:0xabc01") None None))
                 "" false)
              Demo.wallet_world "did:ethr:VoltusWave:0xabc01" Demo.key64)
    as (t & w' & Hrun & Hnone & Hclip & _).
  - discriminate.
  - intros c [<- | []]. reflexivity.
  - reflexivity.
  - reflexivity.
  - reflexivity.
  - reflexivity.
  - reflexivity.
  - reflexivity.
  - reflexivity.
  - exists t, w'. split; [exact Hrun |]. split; [exact Hnone | exact Hclip].
Defined.

(** ** services/biometric.js *)

Lemma includes_type_In types type :
  biometric.includes_type types type = true <-> In type types.
Proof.
  unfold biometric.includes_type. rewrite List.existsb_exists. split.
  - intros (x & Hin & Heq). apply Z.eqb_eq in Heq. subst x. exact Hin.
  - intros Hin. exists type. split; [exact Hin | apply Z.eqb_refl].
Qed.

(** X27.  [getSupportedAuthTypes] never throws, and names each kind of
    sensor at most once and in a fixed order, whatever the platform's list
    looks like: the result is a sub-list of Fingerprint, Face ID, Iris; a
    name is in it exactly when the platform's list has that kind; and when
    the platform call fails the result is the empty list. *)
Theorem getSupportedAuthTypes_names {auth : LocalAuthentication} (w : World) :
  exists names w',
    biometric.getSupportedAuthTypes w = (Returned names, w') /\
    sublist names ["Fingerprint"; "Face ID"; "Iris"] /\
    (forall types,
        supportedAuthenticationTypesAsync = Returned types ->
        (In "Fingerprint" names <-> In FINGERPRINT types) /\
        (In "Face ID" names <-> In FACIAL_RECOGNITION types) /\
        (In "Iris" names <-> In IRIS types)) /\
    (forall e, supportedAuthenticationTypesAsync = Thrown e -> names = []).
Proof.
  unfold biometric.getSupportedAuthTypes.
  destruct supportedAuthenticationTypesAsync as [types|e].
  - eexists _, _. split; [reflexivity |].
    split; [| split; [| discriminate]].
    + destruct (biometric.includes_type types FINGERPRINT),
        (biometric.includes_type types FACIAL_RECOGNITION),
        (biometric.includes_type types IRIS);
        cbn [app];
        repeat first [apply sublist_nil | apply sublist_skip | apply sublist_cons].
    + intros types' [= <-].
      rewrite <- !includes_type_In.
      destruct (biometric.includes_type types FINGERPRINT),
        (biometric.includes_type types FACIAL_RECOGNITION),
        (biometric.includes_type types IRIS); cbn [app In];
        repeat split; intros H; try reflexivity; try discriminate H;
        try tauto; repeat destruct H as [H | H]; try discriminate H; try contradiction.
  - eexists _, _. split; [rewrite bind_log; reflexivity |].
    split; [apply sublist_nil_l |].
    split; [discriminate | reflexivity].
Qed.

Lemma getSupportedAuthTypes_names_witness :
  fst (biometric.getSupportedAuthTypes (auth := DemoRest.phone) Demo.empty_world)
  = Returned ["Fingerprint"; "Face ID"].
Proof.
  destruct (getSupportedAuthTypes_names (auth := DemoRest.phone) Demo.empty_world)
    as (names & w' & Hrun & _).
  rewrite Hrun. vm_compute in Hrun. injection Hrun as <- _. reflexivity.
Defined.

(** X28.  The biometric checks report failure instead of throwing.
    [authenticateWithBiometric] always returns a result: it says success
    exactly when the platform's prompt resolved with success, and then
    carries no error; a failed result always carries an error text, which is
    not empty when the prompt resolved.  [canUseBiometric] always returns,
    and says yes exactly when the hardware check and the enrollment check
    both resolved to true.  Neither touches the store. *)
Theorem biometric_checks_never_throw {auth : LocalAuthentication}
    (promptMessage : option string) (w : World) :
  (exists result w',
      biometric.authenticateWithBiometric promptMessage w = (Returned result, w') /\
      secureStore w' = secureStore w /\
      (auth_success result = true <->
       exists r,
         authenticateAsync (default "Authenticate to access wallet" promptMessage)
         = Returned r /\ auth_success r = true) /\
      (auth_success result = true -> auth_error result = None) /\
      (auth_success result = false ->
       exists text,
         auth_error result = Some text /\
         (forall r,
             authenticateAsync (default "Authenticate to access wallet" promptMessage)
             = Returned r -> truthy text = true))) /\
  (exists usable w',
      biometric.canUseBiometric w = (Returned usable, w') /\
      secureStore w' = secureStore w /\
      (usable = true <->
       hasHardwareAsync = Returned true /\ isEnrolledAsync = Returned true)).
Proof.
  split.
  - unfold biometric.authenticateWithBiometric.
    destruct (authenticateAsync _) as [r|e].
    + destruct (auth_success r) eqn:Hok.
      * eexists _, _. split; [rewrite bind_log; reflexivity |].
        split; [reflexivity |]. cbn [auth_success auth_error].
        split; [| split; [reflexivity | discriminate]].
        split; [intros _; exists r; split; [reflexivity | exact Hok] | reflexivity].
      * eexists _, _. split; [rewrite bind_log; reflexivity |].
        split; [reflexivity |]. cbn [auth_success auth_error].
        split; [| split; [discriminate |]].
        -- split; [discriminate |]. intros (r' & [= <-] & Hr'). congruence.
        -- intros _. eexists. split; [reflexivity |]. intros _ _.
           destruct (auth_error r) as [text|]; cbn [truthy_opt default from_option id].
           ++ destruct (truthy text) eqn:Htext; [exact Htext | reflexivity].
           ++ reflexivity.
    + eexists _, _. split; [rewrite bind_log; reflexivity |].
      split; [reflexivity |]. cbn [auth_success auth_error].
      split; [| split; [discriminate |]].
      * split; [discriminate |]. intros (r' & Hr' & _). discriminate Hr'.
      * intros _. eexists. split; [reflexivity |]. intros r' Hr'. discriminate Hr'.
  - unfold biometric.canUseBiometric, biometric.isBiometricSupported,
      biometric.isBiometricEnrolled, bind, logger.log, modify, ret.
    destruct hasHardwareAsync as [[|]|e1], isEnrolledAsync as [[|]|e2];
      eexists _, _; (split; [reflexivity |]); (split; [reflexivity |]);
      cbn [andb]; split; try discriminate; try reflexivity;
      try (intros [H1 H2]; discriminate H1 || discriminate H2);
      try (intros _; split; reflexivity).
Qed.

Lemma biometric_checks_never_throw_witness :
  exists text,
    fst (biometric.authenticateWithBiometric (auth := DemoRest.phone) None Demo.empty_world)
    = Returned (mkAuthResult false (Some text)) /\
    truthy text = true.
Proof.
  destruct (biometric_checks_never_throw (auth := DemoRest.phone) None Demo.empty_world)
    as ((result & w' & Hrun & _ & _ & _ & Hfail) & _).
  destruct result as [ok err].
  assert (Hok : ok = false).
  { vm_compute in Hrun. congruence. }
  subst ok. destruct (Hfail eq_refl) as (text & Herr & Htext).
  cbn [auth_error] in Herr. subst err.
  exists text. rewrite Hrun. split; [reflexivity |].
  exact (Htext _ eq_refl).
Defined.

(** ** services/secureStorage.js : the biometric flag *)

(** X29.  The biometric setting reads back as it was set: on a store that
    takes the write and serves the read, [isBiometricEnabled] after
    [setBiometricEnabled(enabled)] returns [enabled].  On a device where the
    setting was never written [isBiometricEnabled] returns [false], and it
    never throws. *)
Theorem biometric_flag_reads_back {host : Host} (w : World) :
  (forall enabled : bool,
      setItem_fault STORAGE_KEYS.BIOMETRIC_ENABLED (if enabled then "true" else "false")
      = None ->
      getItem_fault STORAGE_KEYS.BIOMETRIC_ENABLED = None ->
      exists w1 w2,
        setBiometricEnabled enabled w = (Returned tt, w1) /\
        isBiometricEnabled w1 = (Returned enabled, w2)) /\
  (exists enabled w', isBiometricEnabled w = (Returned enabled, w')) /\
  (secureStore w !! STORAGE_KEYS.BIOMETRIC_ENABLED = None ->
   fst (isBiometricEnabled w) = Returned false).
Proof.
  split; [| split].
  - intros enabled Hset Hget.
    pose proof (saveSecure_run _ _ w Hset) as Hsave.
    match type of Hsave with
    | _ = (_, ?w1) =>
        destruct (getSecure_spec STORAGE_KEYS.BIOMETRIC_ENABLED w1) as (w2 & Hread & _)
    end.
    eexists _, w2. split.
    + unfold setBiometricEnabled. rewrite (bind_run _ _ _ _ _ Hsave). reflexivity.
    + unfold isBiometricEnabled. rewrite (bind_run _ _ _ _ _ Hread).
      unfold stored. rewrite Hget. cbn [secureStore set_logs set_store].
      rewrite lookup_insert_eq. destruct enabled; reflexivity.
  - unfold isBiometricEnabled.
    destruct (getSecure_spec STORAGE_KEYS.BIOMETRIC_ENABLED w) as (w1 & Hread & _).
    rewrite (bind_run _ _ _ _ _ Hread). eexists _, _. reflexivity.
  - intros Hnone. unfold isBiometricEnabled.
    destruct (getSecure_spec STORAGE_KEYS.BIOMETRIC_ENABLED w) as (w1 & Hread & _).
    rewrite (bind_run _ _ _ _ _ Hread). cbn [fst ret].
    unfold stored. rewrite Hnone. destruct (getItem_fault _); reflexivity.
Qed.

Lemma biometric_flag_reads_back_witness :
  exists w1 w2,
    setBiometricEnabled (host := Demo.host Demo.backend_down) true Demo.wallet_world
    = (Returned tt, w1) /\
    isBiometricEnabled (host := Demo.host Demo.backend_down) w1 = (Returned true, w2).
Proof.
  apply (proj1 (biometric_flag_reads_back (host := Demo.host Demo.backend_down)
                  Demo.wallet_world) true); reflexivity.
Defined.

(** ** app/index.js : clearing the wallet from the home screen *)

(** X30.  The home screen shows "no wallet" after the confirmed Clear
    whether or not the wallet is gone: [clearWallet]'s result is not looked
    at, so the handler never throws and always leaves the screen without a
    wallet.  When the store refuses to remove the wallet's flag, the flag is
    still there, and the next [checkWallet] finds the wallet again and shows
    what is left of it. *)
Theorem confirmClearWallet_shows_no_wallet {host : Host} {deletion : Deletion}
    (s : HomeScreen) (w : World) :
  exists s' w',
    confirmClearWallet s w = (Returned s', w') /\
    home_hasWallet s' = false /\ home_walletInfo s' = None /\
    home_logs s' = logs w' /\
    (deleteItem_fault STORAGE_KEYS.WALLET_INITIALIZED <> None ->
     stored w STORAGE_KEYS.WALLET_INITIALIZED = Some "true" ->
     exists s'' w'',
       checkWallet s' w' = (Returned s'', w'') /\
       home_hasWallet s'' = true /\
       home_walletInfo s''
       = Some (mkWalletInfo (stored w' STORAGE_KEYS.DID) (stored w' STORAGE_KEYS.ADDRESS)
                 (stored w' STORAGE_KEYS.PUBLIC_KEY))).
Proof.
  destruct (clearWallet_as_delete_each w) as (w' & Hrun & Hstore).
  eexists _, w'. split.
  { unfold confirmClearWallet. rewrite (bind_run _ _ _ _ _ Hrun). reflexivity. }
  cbn [home_hasWallet home_walletInfo home_logs].
  repeat (split; [reflexivity |]).
  intros Hrefused Hflag.
  assert (Hkept : stored w' STORAGE_KEYS.WALLET_INITIALIZED = Some "true").
  { rewrite <- Hflag. unfold stored.
    destruct (getItem_fault STORAGE_KEYS.WALLET_INITIALIZED); [reflexivity |].
    rewrite Hstore, delete_each_lookup.
    destruct (deleteItem_fault STORAGE_KEYS.WALLET_INITIALIZED); [| congruence].
    rewrite andb_false_r. reflexivity. }
  destruct (isWalletInitialized_spec w') as (w1 & Hinit & Hw1).
  destruct (getWalletInfo_spec w1) as (w2 & Hinfo & _).
  rewrite Hkept in Hinit. cbn in Hinit.
  eexists _, w2. split.
  - unfold checkWallet, hasWallet. apply try_catch_run.
    rewrite (bind_run _ _ _ _ _ Hinit). cbv beta iota.
    rewrite (bind_run _ _ _ _ _ Hinfo). reflexivity.
  - cbn [home_hasWallet home_walletInfo fst snd].
    rewrite !(stored_logs_apart _ _ _ Hw1). split; reflexivity.
Qed.

Lemma confirmClearWallet_shows_no_wallet_witness :
  exists s' w' s'' w'',
    confirmClearWallet (deletion := DemoRest.sticky_flag)
      (mkHomeScreen true None false []) DemoRest.saved_world = (Returned s', w') /\
    home_hasWallet s' = false /\
    checkWallet (host := Demo.host Demo.backend_down) s' w' = (Returned s'', w'') /\
    home_hasWallet s'' = true.
Proof.
  destruct (confirmClearWallet_shows_no_wallet
              (host := Demo.host Demo.backend_down) (deletion := DemoRest.sticky_flag)
              (mkHomeScreen true None false []) DemoRest.saved_world)
    as (s' & w' & Hrun & Hnone & _ & _ & Hagain).
  destruct Hagain as (s'' & w'' & Hcheck & Hfound & _).
  - discriminate.
  - reflexivity.
  - exists s', w', s'', w''. repeat split; assumption.
Defined.
